(** * BradCAD: the drawing store, the snap engine and the canvas handlers

    A shallow embedding of the parts of BradCAD that its specification
    makes checkable statements about:

    - [History]   the undo/redo history of [stores/cad-store.js];
    - [Geometry]  the snap kernel of [utils/drawing-utils.js];
    - [CadStore]  the refs and actions of [stores/cad-store.js];
    - [Transform] the world/screen mapping used by the canvas component;
    - [Canvas]    the event handlers of [components/CADCanvas.vue];
    - [StoreActions], [Kernel], [Painting], [GridLines], [Pointer]
                  the remaining store actions, snap utilities, the calls
                  of a redraw, the grid drawn, and the pointer handlers
                  with the gestures of a session.

    The definitions come first, each next to the source text it stands
    for; the properties follow, module by module.

    JavaScript numbers are modelled by the rationals [Q]: every statement
    below is about exact arithmetic, and says nothing about rounding of
    IEEE doubles.  Integers that index arrays are modelled by [Z]. *)

From Stdlib Require Import String ZArith QArith Qround Qminmax List Bool Lia Lqa.
From Stdlib Require Import Qabs.
Import ListNotations.

Set Implicit Arguments.

(* ------------------------------------------------------------------ *)
(** * JavaScript values and arrays *)

(** What a JavaScript expression of "object or nothing" type evaluates to:
    [null], [undefined], or a proper value. *)
Inductive JsResult (A : Type) : Type :=
| JsNull
| JsUndefined
| JsValue (a : A).

Arguments JsNull {A}.
Arguments JsUndefined {A}.
Arguments JsValue {A} a.

Module JsArray.
Section Ops.
Variable A : Type.

(** [arr.length] *)
Definition len (arr : list A) : Z := Z.of_nat (length arr).

(** [arr[i]]: [undefined] outside [0 .. length-1]. *)
Definition get (arr : list A) (i : Z) : JsResult A :=
  if (i <? 0)%Z then JsUndefined
  else match nth_error arr (Z.to_nat i) with
       | Some x => JsValue x
       | None => JsUndefined
       end.

(** [arr.shift()], the array left behind: nothing happens on []. *)
Definition shift (arr : list A) : list A := tl arr.

(** [arr.slice(0, e)]: a negative [e] counts from the end, and the
    bound is clamped to [0 .. length]. *)
Definition slice0 (arr : list A) (e : Z) : list A :=
  let stop := if (e <? 0)%Z then Z.max (len arr + e) 0 else Z.min e (len arr) in
  firstn (Z.to_nat stop) arr.

(** [arr.push(x)], the array left behind. *)
Definition push (arr : list A) (x : A) : list A := arr ++ [x].

End Ops.
End JsArray.

(* ------------------------------------------------------------------ *)
(** * The history manager ([stores/cad-store.js]) *)

Module History.

(** [const MAX_HISTORY_SIZE = 50] *)
Definition MAX_HISTORY_SIZE : Z := 50.

Section Store.
(** The snapshots are opaque to the store: it never inspects them. *)
Variable ImageData : Type.

(** The two refs [history] and [historyIndex]. *)
Record State : Type := mkState {
  history : list ImageData;
  historyIndex : Z
}.

(** [history = ref([])], [historyIndex = ref(-1)] *)
Definition initial : State := mkState [] (-1).

(** [canUndo = computed(() => historyIndex.value > 0)] *)
Definition canUndo (s : State) : bool := (0 <? historyIndex s)%Z.

(** [canRedo = computed(() => historyIndex.value < history.value.length - 1)] *)
Definition canRedo (s : State) : bool :=
  (historyIndex s <? JsArray.len (history s) - 1)%Z.

(** [saveState(imageData)]: evict the oldest entry at capacity, drop
    everything after the index, append, advance the index. *)
Definition saveState (imageData : ImageData) (s : State) : State :=
  let s1 :=
    if (MAX_HISTORY_SIZE <=? JsArray.len (history s))%Z
    then mkState (JsArray.shift (history s)) (Z.max 0 (historyIndex s - 1))
    else s in
  let kept := JsArray.slice0 (history s1) (historyIndex s1 + 1) in
  mkState (JsArray.push kept imageData) (historyIndex s1 + 1).

(** [undo()]: the returned value and the state left behind. *)
Definition undo (s : State) : JsResult ImageData * State :=
  if canUndo s
  then let i := (historyIndex s - 1)%Z in
       (JsArray.get (history s) i, mkState (history s) i)
  else (JsNull, s).

(** [redo()] *)
Definition redo (s : State) : JsResult ImageData * State :=
  if canRedo s
  then let i := (historyIndex s + 1)%Z in
       (JsArray.get (history s) i, mkState (history s) i)
  else (JsNull, s).

(** [clearHistory()] *)
Definition clearHistory (s : State) : State := mkState [] (-1).

(** The states the store can be in: those produced from the initial
    one by its four operations. *)
Inductive reachable : State -> Prop :=
| reach_initial : reachable initial
| reach_saveState x s : reachable s -> reachable (saveState x s)
| reach_undo s : reachable s -> reachable (snd (undo s))
| reach_redo s : reachable s -> reachable (snd (redo s))
| reach_clear s : reachable s -> reachable (clearHistory s).

(** The index points into the history, or is [-1]. *)
Definition index_ok (s : State) : Prop :=
  (-1 <= historyIndex s < JsArray.len (history s))%Z.

(** An empty history has index [-1]; otherwise the index is an
    index of the history. *)
Definition wellFormed (s : State) : Prop :=
  (history s = [] /\ historyIndex s = (-1)%Z)
  \/ (0 <= historyIndex s < JsArray.len (history s))%Z.

(** [saveState] called on each snapshot of a list in turn. *)
Definition saveAll (xs : list ImageData) (s : State) : State :=
  fold_left (fun st x => saveState x st) xs s.

(** The state after [k] calls of [undo]. *)
Fixpoint undoTimes (k : nat) (s : State) : State :=
  match k with
  | O => s
  | S k' => undoTimes k' (snd (undo s))
  end.
(** The history after [saveState] has been called on the snapshots
    numbered [1] to [n], starting from the empty history. *)
Definition pushNumbered (snap : nat -> ImageData) (n : nat) : State :=
  saveAll (map snap (seq 1 n)) initial.
End Store.

Arguments initial {ImageData}.

End History.

(* ------------------------------------------------------------------ *)
(** * The geometry and snap kernel ([utils/drawing-utils.js]) *)

Module Geometry.
Open Scope Q_scope.

(** [{x, y}] *)
Record Point : Type := mkPoint { px : Q; py : Q }.

(** Two points with the same coordinates as numbers. *)
Definition samePoint (a b : Point) : Prop := px a == px b /\ py a == py b.

(** [Math.round]: the nearest integer, halves going up. *)
Definition js_round (x : Q) : Z := Qfloor (x + (1 # 2)).

(** ** Arithmetic that may divide

    [Fault] records that a division was asked to divide by zero.  (In
    JavaScript such a division does not raise, it yields [NaN] or an
    infinity; the embedding makes it visible so that its absence can be
    stated.) *)
Inductive Checked (A : Type) : Type :=
| Fault
| Done (a : A).

Arguments Fault {A}.
Arguments Done {A} a.

Definition bind {A B} (c : Checked A) (k : A -> Checked B) : Checked B :=
  match c with
  | Fault => Fault
  | Done a => k a
  end.

Notation "x <- c ;; k" := (bind c (fun x => k))
  (at level 61, c at next level, right associativity).

(** [a / b] *)
Definition divide (a b : Q) : Checked Q :=
  if Qeq_bool b 0 then Fault else Done (a / b).

(** ** Distances *)

(** [Math.pow(b.x - a.x, 2) + Math.pow(b.y - a.y, 2)], the argument of
    [Math.sqrt] in [calculateDistance]. *)
Definition distanceSquared (point1 point2 : Point) : Q :=
  (px point2 - px point1) * (px point2 - px point1)
  + (py point2 - py point1) * (py point2 - py point1).

(** [calculateDistance(point1, point2) <= tolerance].  The square root
    is not a rational function; the snap engine uses the distance only
    in this comparison, which holds exactly when the tolerance is not
    negative and the squared distance is at most its square. *)
Definition withinDistance (point1 point2 : Point) (tolerance : Q) : bool :=
  Qle_bool 0 tolerance
  && Qle_bool (distanceSquared point1 point2) (tolerance * tolerance).

(** [calculateMidpoint(start, end)] *)
Definition calculateMidpoint (start end_ : Point) : Point :=
  mkPoint ((px start + px end_) / 2) ((py start + py end_) / 2).

(** ** Snapping *)

(** [snapToTransformedGrid(point, gridSize, panOffset, zoomLevel)] *)
Definition snapToTransformedGrid
    (point : Point) (gridSize : Q) (panOffset : Point) (zoomLevel : Q) : Point :=
  let screenGridSize := gridSize * zoomLevel in
  let screenX := px point * zoomLevel + px panOffset in
  let screenY := py point * zoomLevel + py panOffset in
  let snappedScreenX := inject_Z (js_round (screenX / screenGridSize)) * screenGridSize in
  let snappedScreenY := inject_Z (js_round (screenY / screenGridSize)) * screenGridSize in
  mkPoint ((snappedScreenX - px panOffset) / zoomLevel)
          ((snappedScreenY - py panOffset) / zoomLevel).

(** [snapToPoints(point, existingPoints, tolerance)]: the first point of
    the array within the tolerance, [null] when there is none. *)
Fixpoint snapToPoints (point : Point) (existingPoints : list Point) (tolerance : Q)
  : option Point :=
  match existingPoints with
  | [] => None
  | existingPoint :: rest =>
      if withinDistance point existingPoint tolerance
      then Some existingPoint
      else snapToPoints point rest tolerance
  end.

(** [snapToLine(point, lineStart, lineEnd, tolerance)] *)
Definition snapToLine (point lineStart lineEnd : Point) (tolerance : Q)
  : Checked (option Point) :=
  let A := px point - px lineStart in
  let B := py point - py lineStart in
  let C := px lineEnd - px lineStart in
  let D := py lineEnd - py lineStart in
  let dot := A * C + B * D in
  let lenSq := C * C + D * D in
  if Qeq_bool lenSq 0 then Done None
  else
    param <- divide dot lenSq ;;
    let param := Qmax 0 (Qmin 1 param) in
    let snappedX := px lineStart + param * C in
    let snappedY := py lineStart + param * D in
    if withinDistance point (mkPoint snappedX snappedY) tolerance
    then Done (Some (mkPoint snappedX snappedY))
    else Done None.

(** [{start, end}] *)
Record Segment : Type := mkSegment { seg_start : Point; seg_end : Point }.

(** [snapToLines(point, lines, tolerance)]: the projection onto the
    first segment that accepts the point. *)
Fixpoint snapToLines (point : Point) (lines : list Segment) (tolerance : Q)
  : Checked (option Point) :=
  match lines with
  | [] => Done None
  | line :: rest =>
      snappedPoint <- snapToLine point (seg_start line) (seg_end line) tolerance ;;
      match snappedPoint with
      | Some q => Done (Some q)
      | None => snapToLines point rest tolerance
      end
  end.

(** What a caller sees of a projection: a division by zero would have
    produced [NaN] coordinates, whose distance test fails, that is
    [null]. *)
Definition settle (r : Checked (option Point)) : option Point :=
  match r with
  | Done v => v
  | Fault => None
  end.

(** ** The scene *)

(** The objects [onClick] adds to [vectorObjects], by their [type]. *)
Inductive VectorObject : Type :=
| Line (start end_ : Point) (color : string) (lineWidth : Q)
| Rectangle (x y width height : Q) (color : string) (lineWidth : Q) (filled : bool)
| Circle (x y radius : Q) (color : string) (lineWidth : Q) (filled : bool)
| Polyline (points : list Point) (color : string) (lineWidth : Q)
| Dimension (point1 point2 dimensionLinePos : Point) (color : string) (lineWidth : Q).

(** The object [getAllSnapPoints] fills. *)
Record SnapPoints : Type := mkSnapPoints {
  endpoints : list Point;
  midpoints : list Point;
  centers : list Point;
  corners : list Point
}.

(** One turn of the [forEach] of [getAllSnapPoints]. *)
Definition addSnapPoints (snapPoints : SnapPoints) (obj : VectorObject) : SnapPoints :=
  match obj with
  | Line start end_ _ _ =>
      mkSnapPoints (endpoints snapPoints ++ [start; end_])
                   (midpoints snapPoints ++ [calculateMidpoint start end_])
                   (centers snapPoints) (corners snapPoints)
  | Rectangle x y width height _ _ _ =>
      mkSnapPoints (endpoints snapPoints) (midpoints snapPoints)
                   (centers snapPoints ++ [mkPoint (x + width / 2) (y + height / 2)])
                   (corners snapPoints ++
                      [mkPoint x y; mkPoint (x + width) y;
                       mkPoint (x + width) (y + height); mkPoint x (y + height)])
  | Circle x y _ _ _ _ =>
      mkSnapPoints (endpoints snapPoints) (midpoints snapPoints)
                   (centers snapPoints ++ [mkPoint x y]) (corners snapPoints)
  | Polyline _ _ _ => snapPoints
  | Dimension _ _ _ _ _ => snapPoints
  end.

(** [getAllSnapPoints(vectorObjects)] *)
Definition getAllSnapPoints (vectorObjects : list VectorObject) : SnapPoints :=
  fold_left addSnapPoints vectorObjects (mkSnapPoints [] [] [] []).

End Geometry.

(* ------------------------------------------------------------------ *)
(** * The store ([stores/cad-store.js]) *)

Module CadStore.
Import Geometry.
Open Scope Q_scope.

(** The values [currentTool] takes. *)
Inductive Tool : Type :=
| ToolSelect | ToolPolyline | ToolLine | ToolRectangle | ToolCircle | ToolDimension.

(** [const zoomMin = 0.1], [const zoomMax = 10] *)
Definition zoomMin : Q := 1 # 10.
Definition zoomMax : Q := 10.

(** [Math.min], [Math.max] on numbers. *)
Definition js_min (a b : Q) : Q := Qmin a b.
Definition js_max (a b : Q) : Q := Qmax a b.

Section Refs.
(** What [saveState] is handed: the store keeps it and gives it back. *)
Variable ImageData : Type.

(** The refs of the store that the canvas component reads or writes.
    [history] and [historyIndex] are kept together in [hist].  The last
    three fields are in the spec's transform state ([panOffset: {x,y}]
    in screen pixels) and construction state
    ([dimensionStart/dimensionSecondPoint/dimensionLinePosition:
    Point | absent]). *)
Record Store : Type := mkStore {
  zoomLevel : Q;
  currentTool : Tool;
  lineWidth : Q;
  lineColor : string;
  gridSize : Q;
  showGrid : bool;
  snapToGrid : bool;
  snapToPoints : bool;
  snapToLines : bool;
  snapTolerance : Q;
  isDrawing : bool;
  polylinePoints : list Point;
  dimensionStart : option Point;
  vectorObjects : list VectorObject;
  userInput : string;
  showInputDialog : bool;
  inputCallback : option unit;
  hist : History.State ImageData;
  (** Modelled from the spec: [panOffset], [dimensionSecondPoint] and
      [dimensionLinePosition], which the component reads and the store
      file at hand does not declare. *)
  panOffset : Point;
  dimensionSecondPoint : option Point;
  dimensionLinePosition : option Point
}.

(** The store as [defineStore] creates it. *)
Definition fresh : Store :=
  mkStore 1 ToolSelect 2 "#000000"%string 20 true true true true 10 false
    [] None [] EmptyString false None History.initial (mkPoint 0 0) None
    None.

(** Assignment to one ref, the others kept. *)
Definition set_zoomLevel (v : Q) (s : Store) : Store :=
  mkStore v (currentTool s) (lineWidth s) (lineColor s) (gridSize s)
    (showGrid s) (snapToGrid s) (snapToPoints s) (snapToLines s)
    (snapTolerance s) (isDrawing s) (polylinePoints s) (dimensionStart s)
    (vectorObjects s) (userInput s) (showInputDialog s) (inputCallback s)
    (hist s) (panOffset s) (dimensionSecondPoint s) (dimensionLinePosition
    s).

Definition set_currentTool (v : Tool) (s : Store) : Store :=
  mkStore (zoomLevel s) v (lineWidth s) (lineColor s) (gridSize s)
    (showGrid s) (snapToGrid s) (snapToPoints s) (snapToLines s)
    (snapTolerance s) (isDrawing s) (polylinePoints s) (dimensionStart s)
    (vectorObjects s) (userInput s) (showInputDialog s) (inputCallback s)
    (hist s) (panOffset s) (dimensionSecondPoint s) (dimensionLinePosition
    s).

Definition set_showGrid (v : bool) (s : Store) : Store :=
  mkStore (zoomLevel s) (currentTool s) (lineWidth s) (lineColor s)
    (gridSize s) v (snapToGrid s) (snapToPoints s) (snapToLines s)
    (snapTolerance s) (isDrawing s) (polylinePoints s) (dimensionStart s)
    (vectorObjects s) (userInput s) (showInputDialog s) (inputCallback s)
    (hist s) (panOffset s) (dimensionSecondPoint s) (dimensionLinePosition
    s).

Definition set_snapToGrid (v : bool) (s : Store) : Store :=
  mkStore (zoomLevel s) (currentTool s) (lineWidth s) (lineColor s)
    (gridSize s) (showGrid s) v (snapToPoints s) (snapToLines s)
    (snapTolerance s) (isDrawing s) (polylinePoints s) (dimensionStart s)
    (vectorObjects s) (userInput s) (showInputDialog s) (inputCallback s)
    (hist s) (panOffset s) (dimensionSecondPoint s) (dimensionLinePosition
    s).

Definition set_isDrawing (v : bool) (s : Store) : Store :=
  mkStore (zoomLevel s) (currentTool s) (lineWidth s) (lineColor s)
    (gridSize s) (showGrid s) (snapToGrid s) (snapToPoints s) (snapToLines
    s) (snapTolerance s) v (polylinePoints s) (dimensionStart s)
    (vectorObjects s) (userInput s) (showInputDialog s) (inputCallback s)
    (hist s) (panOffset s) (dimensionSecondPoint s) (dimensionLinePosition
    s).

Definition set_polylinePoints (v : list Point) (s : Store) : Store :=
  mkStore (zoomLevel s) (currentTool s) (lineWidth s) (lineColor s)
    (gridSize s) (showGrid s) (snapToGrid s) (snapToPoints s) (snapToLines
    s) (snapTolerance s) (isDrawing s) v (dimensionStart s) (vectorObjects
    s) (userInput s) (showInputDialog s) (inputCallback s) (hist s)
    (panOffset s) (dimensionSecondPoint s) (dimensionLinePosition s).

Definition set_dimensionStart (v : option Point) (s : Store) : Store :=
  mkStore (zoomLevel s) (currentTool s) (lineWidth s) (lineColor s)
    (gridSize s) (showGrid s) (snapToGrid s) (snapToPoints s) (snapToLines
    s) (snapTolerance s) (isDrawing s) (polylinePoints s) v (vectorObjects
    s) (userInput s) (showInputDialog s) (inputCallback s) (hist s)
    (panOffset s) (dimensionSecondPoint s) (dimensionLinePosition s).

Definition set_vectorObjects (v : list VectorObject) (s : Store) : Store :=
  mkStore (zoomLevel s) (currentTool s) (lineWidth s) (lineColor s)
    (gridSize s) (showGrid s) (snapToGrid s) (snapToPoints s) (snapToLines
    s) (snapTolerance s) (isDrawing s) (polylinePoints s) (dimensionStart
    s) v (userInput s) (showInputDialog s) (inputCallback s) (hist s)
    (panOffset s) (dimensionSecondPoint s) (dimensionLinePosition s).

Definition set_userInput (v : string) (s : Store) : Store :=
  mkStore (zoomLevel s) (currentTool s) (lineWidth s) (lineColor s)
    (gridSize s) (showGrid s) (snapToGrid s) (snapToPoints s) (snapToLines
    s) (snapTolerance s) (isDrawing s) (polylinePoints s) (dimensionStart
    s) (vectorObjects s) v (showInputDialog s) (inputCallback s) (hist s)
    (panOffset s) (dimensionSecondPoint s) (dimensionLinePosition s).

Definition set_showInputDialog (v : bool) (s : Store) : Store :=
  mkStore (zoomLevel s) (currentTool s) (lineWidth s) (lineColor s)
    (gridSize s) (showGrid s) (snapToGrid s) (snapToPoints s) (snapToLines
    s) (snapTolerance s) (isDrawing s) (polylinePoints s) (dimensionStart
    s) (vectorObjects s) (userInput s) v (inputCallback s) (hist s)
    (panOffset s) (dimensionSecondPoint s) (dimensionLinePosition s).

Definition set_inputCallback (v : option unit) (s : Store) : Store :=
  mkStore (zoomLevel s) (currentTool s) (lineWidth s) (lineColor s)
    (gridSize s) (showGrid s) (snapToGrid s) (snapToPoints s) (snapToLines
    s) (snapTolerance s) (isDrawing s) (polylinePoints s) (dimensionStart
    s) (vectorObjects s) (userInput s) (showInputDialog s) v (hist s)
    (panOffset s) (dimensionSecondPoint s) (dimensionLinePosition s).

Definition set_hist (v : History.State ImageData) (s : Store) : Store :=
  mkStore (zoomLevel s) (currentTool s) (lineWidth s) (lineColor s)
    (gridSize s) (showGrid s) (snapToGrid s) (snapToPoints s) (snapToLines
    s) (snapTolerance s) (isDrawing s) (polylinePoints s) (dimensionStart
    s) (vectorObjects s) (userInput s) (showInputDialog s) (inputCallback
    s) v (panOffset s) (dimensionSecondPoint s) (dimensionLinePosition s).

Definition set_panOffset (v : Point) (s : Store) : Store :=
  mkStore (zoomLevel s) (currentTool s) (lineWidth s) (lineColor s)
    (gridSize s) (showGrid s) (snapToGrid s) (snapToPoints s) (snapToLines
    s) (snapTolerance s) (isDrawing s) (polylinePoints s) (dimensionStart
    s) (vectorObjects s) (userInput s) (showInputDialog s) (inputCallback
    s) (hist s) v (dimensionSecondPoint s) (dimensionLinePosition s).

Definition set_dimensionSecondPoint (v : option Point) (s : Store) : Store :=
  mkStore (zoomLevel s) (currentTool s) (lineWidth s) (lineColor s)
    (gridSize s) (showGrid s) (snapToGrid s) (snapToPoints s) (snapToLines
    s) (snapTolerance s) (isDrawing s) (polylinePoints s) (dimensionStart
    s) (vectorObjects s) (userInput s) (showInputDialog s) (inputCallback
    s) (hist s) (panOffset s) v (dimensionLinePosition s).

Definition set_dimensionLinePosition (v : option Point) (s : Store) : Store :=
  mkStore (zoomLevel s) (currentTool s) (lineWidth s) (lineColor s)
    (gridSize s) (showGrid s) (snapToGrid s) (snapToPoints s) (snapToLines
    s) (snapTolerance s) (isDrawing s) (polylinePoints s) (dimensionStart
    s) (vectorObjects s) (userInput s) (showInputDialog s) (inputCallback
    s) (hist s) (panOffset s) (dimensionSecondPoint s) v.

(** The segments between consecutive points of an array:
    [for (let i = 1; i < pts.length; i++) lines.push({start: pts[i-1], end: pts[i]})] *)
Fixpoint consecutive (pts : list Point) : list Segment :=
  match pts with
  | a :: (b :: _) as rest => mkSegment a b :: consecutive rest
  | _ => []
  end.

(** The segments one object contributes to [existingLines]. *)
Definition objectLines (obj : VectorObject) : list Segment :=
  match obj with
  | Line start end_ _ _ => [mkSegment start end_]
  | Rectangle x y width height _ _ _ =>
      [mkSegment (mkPoint x y) (mkPoint (x + width) y);
       mkSegment (mkPoint (x + width) y) (mkPoint (x + width) (y + height));
       mkSegment (mkPoint (x + width) (y + height)) (mkPoint x (y + height));
       mkSegment (mkPoint x (y + height)) (mkPoint x y)]
  | _ => []
  end.

(** [existingLines = computed(...)] *)
Definition existingLines (s : Store) : list Segment :=
  consecutive (polylinePoints s) ++ flat_map objectLines (vectorObjects s).

(** [setTool(tool)] *)
Definition setTool (tool : Tool) (s : Store) : Store :=
  let s1 := set_currentTool tool s in
  let s2 := match tool with ToolPolyline => s1 | _ => set_polylinePoints [] s1 end in
  match tool with ToolDimension => s2 | _ => set_dimensionStart None s2 end.

(** [addPolylinePoint(point)] *)
Definition addPolylinePoint (point : Point) (s : Store) : Store :=
  set_polylinePoints (JsArray.push (polylinePoints s) point) s.

(** [clearPolylinePoints()] *)
Definition clearPolylinePoints (s : Store) : Store := set_polylinePoints [] s.

(** [setDimensionStart(point)] *)
Definition setDimensionStart (point : Point) (s : Store) : Store :=
  set_dimensionStart (Some point) s.

(** [clearDimensionStart()] *)
Definition clearDimensionStart (s : Store) : Store := set_dimensionStart None s.

(** [setIsDrawing(drawing)] *)
Definition setIsDrawing (drawing : bool) (s : Store) : Store := set_isDrawing drawing s.

(** [toggleGrid()] *)
Definition toggleGrid (s : Store) : Store := set_showGrid (negb (showGrid s)) s.

(** [toggleSnapToGrid()] *)
Definition toggleSnapToGrid (s : Store) : Store := set_snapToGrid (negb (snapToGrid s)) s.

(** [addVectorObject(object)] *)
Definition addVectorObject (object : VectorObject) (s : Store) : Store :=
  set_vectorObjects (JsArray.push (vectorObjects s) object) s.

(** [clearVectorObjects()] *)
Definition clearVectorObjects (s : Store) : Store := set_vectorObjects [] s.

(** [cancelInput()] *)
Definition cancelInput (s : Store) : Store :=
  set_userInput EmptyString (set_inputCallback None (set_showInputDialog false s)).

(** [saveState(imageData)] *)
Definition saveState (imageData : ImageData) (s : Store) : Store :=
  set_hist (History.saveState imageData (hist s)) s.

(** [undo()] *)
Definition undo (s : Store) : JsResult ImageData * Store :=
  let (r, h) := History.undo (hist s) in (r, set_hist h s).

(** [redo()] *)
Definition redo (s : Store) : JsResult ImageData * Store :=
  let (r, h) := History.redo (hist s) in (r, set_hist h s).

(** [resetCanvas()], on the refs kept here (it also empties the
    selection and the mouse position). *)
Definition resetCanvas (s : Store) : Store :=
  setIsDrawing false (clearVectorObjects (clearDimensionStart (clearPolylinePoints s))).

(** [zoomIn()] *)
Definition zoomIn (s : Store) : Store :=
  set_zoomLevel (js_min (zoomLevel s * (12 # 10)) zoomMax) s.

(** [zoomOut()] *)
Definition zoomOut (s : Store) : Store :=
  set_zoomLevel (js_max (zoomLevel s / (12 # 10)) zoomMin) s.

(** [setZoom(level)] *)
Definition setZoom (level : Q) (s : Store) : Store :=
  set_zoomLevel (js_max zoomMin (js_min level zoomMax)) s.

(** [resetZoom()] *)
Definition resetZoom (s : Store) : Store := set_zoomLevel 1 s.

(** Modelled from the spec: [setPanOffset(x, y)], called by [onWheel]
    and absent from the store file at hand.  The spec has the pan
    offset as a pair [{x, y}] of screen pixels that the wheel handler
    assigns anew ("solve screen = worldUnderCursor * newZoom + newPan
    for newPan"). *)
Definition setPanOffset (x y : Q) (s : Store) : Store :=
  set_panOffset (mkPoint x y) s.

(** Modelled from the spec: [clearAllDimensionData()], called by
    [onClick] and [handleEscape] and absent from the store file at
    hand.  The spec: committing or cancelling a dimension "clears all
    three transient fields" ([dimensionStart], [dimensionSecondPoint],
    [dimensionLinePosition]). *)
Definition clearAllDimensionData (s : Store) : Store :=
  set_dimensionLinePosition None
    (set_dimensionSecondPoint None (set_dimensionStart None s)).
End Refs.

Arguments fresh {ImageData}.

End CadStore.

(* ------------------------------------------------------------------ *)
(** * World and screen coordinates *)

Module Transform.
Import Geometry.
Open Scope Q_scope.

(** The mapping every [draw...WithConstantWidth] function applies to a
    world coordinate: [screenX = x * zoomLevel + panOffset.x]. *)
Definition worldToScreen (p panOffset : Point) (zoomLevel : Q) : Point :=
  mkPoint (px p * zoomLevel + px panOffset) (py p * zoomLevel + py panOffset).

(** [drawLineWithConstantWidth(ctx, x1, y1, x2, y2, ..., panOffset, zoomLevel)]:
    the two screen positions between which it strokes, the arguments of
    its [moveTo] and [lineTo]. *)
Definition drawLineWithConstantWidth (x1 y1 x2 y2 : Q) (panOffset : Point) (zoomLevel : Q)
  : Point * Point :=
  let screenX1 := x1 * zoomLevel + px panOffset in
  let screenY1 := y1 * zoomLevel + py panOffset in
  let screenX2 := x2 * zoomLevel + px panOffset in
  let screenY2 := y2 * zoomLevel + py panOffset in
  (mkPoint screenX1 screenY1, mkPoint screenX2 screenY2).

(** The mapping [getMousePos] applies to the raw position of an event:
    [x: (rawX - panOffset.x) / zoomLevel]. *)
Definition screenToWorld (raw panOffset : Point) (zoomLevel : Q) : Point :=
  mkPoint ((px raw - px panOffset) / zoomLevel) ((py raw - py panOffset) / zoomLevel).

End Transform.

(* ------------------------------------------------------------------ *)
(** * The canvas component ([components/CADCanvas.vue]) *)

Module Canvas.
Import Geometry.
Open Scope Q_scope.

(** The [type] of a snap result. *)
Inductive SnapType : Type :=
| SnapGrid | SnapEndpoint | SnapMidpoint | SnapCenter | SnapCorner | SnapLine.

(** [{ position, type }] *)
Record SnapResult : Type := mkSnapResult {
  position : Point;
  type : option SnapType
}.

(** A mouse event: the position relative to the canvas
    ([event.clientX - rect.left], [event.clientY - rect.top]) and the
    button. *)
Record MouseEvent : Type := mkMouseEvent {
  rawX : Q;
  rawY : Q;
  button : Z
}.

(** A wheel event: the position relative to the canvas and [deltaY]. *)
Record WheelEvent : Type := mkWheelEvent {
  mouseX : Q;
  mouseY : Q;
  deltaY : Q
}.

(** [event.key] and [event.ctrlKey] *)
Record KeyEvent : Type := mkKeyEvent {
  key : string;
  ctrlKey : bool
}.

(** The prompts of the command line. *)
Inductive Command : Type := CmdWidth | CmdHeight | CmdRadius.

(** The continuations [onClick] hands to [showCommand].  The one for
    the height is created inside the one for the width and closes over
    [userWidth]. *)
Inductive CommandCallback : Type :=
| OnWidth
| OnHeight (userWidth : Q)
| OnRadius.

(** The text of the command line as [submitCommand] reads it, after
    [trim()] and [parseFloat]: empty, or a number of inches.  Text that
    [parseFloat] does not read as a number is not covered. *)
Inductive CommandText : Type :=
| Blank
| Number (inches : Q).

(** How a call ends: it returns, or it raises (a property of [null] is
    read); either way the state it leaves is recorded. *)
Inductive Outcome (S : Type) : Type :=
| Returned (s : S)
| Threw (s : S).

Arguments Returned {S} s.
Arguments Threw {S} s.

(** The entries of [keyboardShortcuts]. *)
Inductive Shortcut : Type :=
| SelectTool (tool : CadStore.Tool)
| ToggleGrid
| ToggleSnapToGrid
| ShowHelp
| Escape
| Refresh.

(** [keyboardShortcuts], key by key as the object literal lists them. *)
Definition keyboardShortcuts : list (string * Shortcut) :=
  [("v", SelectTool CadStore.ToolSelect);
   ("p", SelectTool CadStore.ToolPolyline);
   ("l", SelectTool CadStore.ToolLine);
   ("r", SelectTool CadStore.ToolRectangle);
   ("c", SelectTool CadStore.ToolCircle);
   ("d", SelectTool CadStore.ToolDimension);
   ("g", ToggleGrid);
   ("s", ToggleSnapToGrid);
   ("h", ShowHelp);
   ("Escape", Escape);
   ("f5", Refresh)]%string.

(** [keyboardShortcuts[key]] *)
Fixpoint lookupShortcut (table : list (string * Shortcut)) (k : string)
  : option Shortcut :=
  match table with
  | [] => None
  | (name, action) :: rest =>
      if String.eqb name k then Some action else lookupShortcut rest k
  end.

(** [toLowerCase()] on the letters A to Z. *)
Definition lowerAscii (c : Ascii.ascii) : Ascii.ascii :=
  let n := Ascii.nat_of_ascii c in
  if (65 <=? n)%nat && (n <=? 90)%nat then Ascii.ascii_of_nat (n + 32) else c.

Fixpoint toLowerCase (s : string) : string :=
  match s with
  | EmptyString => EmptyString
  | String c rest => String (lowerAscii c) (toLowerCase rest)
  end.

(** The array a ref that may be [null] contributes when pushed under
    [if (ref)]. *)
Definition pushed (p : option Point) : list Point :=
  match p with
  | Some q => [q]
  | None => []
  end.

Section Component.
(** The pixels of the main canvas are opaque: [Raster] is what
    [getImageData] returns, and [paint] what [redrawCanvas] leaves on
    the canvas for a given store. *)
Variable Raster : Type.
Variable paint : CadStore.Store Raster -> Raster.

(** [allSnapPoints.endpoints] once [getSnappedPosition] has pushed
    the points of the polyline under construction and the two
    dimension points onto it. *)
Definition endpointCandidates (s : CadStore.Store Raster) : list Point :=
  endpoints (getAllSnapPoints (CadStore.vectorObjects s))
    ++ CadStore.polylinePoints s
    ++ pushed (CadStore.dimensionStart s)
    ++ pushed (CadStore.dimensionSecondPoint s).

(** [getSnappedPosition(pos)] *)
Definition getSnappedPosition (s : CadStore.Store Raster) (pos : Point) : SnapResult :=
  let tolerance := CadStore.snapTolerance s in
  let allSnapPoints := getAllSnapPoints (CadStore.vectorObjects s) in
  let allEndpoints := endpointCandidates s in
  (* if (!snapType) { const hit = snapToPoints(pos, candidates, ...); if (hit) ... } *)
  let unlessSnapped (candidates : list Point) (kind : SnapType) (r : SnapResult) :=
    match type r with
    | Some _ => r
    | None =>
        match snapToPoints pos candidates tolerance with
        | Some hit => mkSnapResult hit (Some kind)
        | None => r
        end
    end in
  let r0 := mkSnapResult pos None in
  let r1 :=
    if CadStore.snapToGrid s then
      let gridSnapped :=
        snapToTransformedGrid pos (CadStore.gridSize s)
          (CadStore.panOffset s) (CadStore.zoomLevel s) in
      if negb (Qeq_bool (px gridSnapped) (px pos))
         || negb (Qeq_bool (py gridSnapped) (py pos))
      then mkSnapResult gridSnapped (Some SnapGrid)
      else r0
    else r0 in
  let r2 :=
    if CadStore.snapToPoints s then
      let e :=
        match snapToPoints pos allEndpoints tolerance with
        | Some endpointSnap => mkSnapResult endpointSnap (Some SnapEndpoint)
        | None => r1
        end in
      let m := unlessSnapped (midpoints allSnapPoints) SnapMidpoint e in
      let c := unlessSnapped (centers allSnapPoints) SnapCenter m in
      unlessSnapped (corners allSnapPoints) SnapCorner c
    else r1 in
  if CadStore.snapToLines s && negb (match type r2 with Some _ => true | None => false end)
  then
    match settle (snapToLines pos (CadStore.existingLines s) tolerance) with
    | Some lineSnap => mkSnapResult lineSnap (Some SnapLine)
    | None => r2
    end
  else r2.

(** [snapToPoints(pos, candidates, tolerance)] finds nothing. *)
Definition outOfReach (s : CadStore.Store Raster) (pos : Point) (candidates : list Point) : bool :=
  match snapToPoints pos candidates (CadStore.snapTolerance s) with
  | Some _ => false
  | None => true
  end.

(** Among the point and line categories that are switched on, none
    has a candidate within the tolerance of [pos]. *)
Definition nothingElseInReach (s : CadStore.Store Raster) (pos : Point) : bool :=
  let allSnapPoints := getAllSnapPoints (CadStore.vectorObjects s) in
  (negb (CadStore.snapToPoints s)
   || (outOfReach s pos (endpointCandidates s)
       && outOfReach s pos (midpoints allSnapPoints)
       && outOfReach s pos (centers allSnapPoints)
       && outOfReach s pos (corners allSnapPoints)))
  && (negb (CadStore.snapToLines s)
      || match settle (snapToLines pos (CadStore.existingLines s)
                         (CadStore.snapTolerance s)) with
         | Some _ => false
         | None => true
         end).

(** The refs and variables of the component. *)
Record Component : Type := mkComponent {
  store : CadStore.Store Raster;
  startPoint : option Point;  (* [drawingState.value.startPoint] *)
  currentCommand : option Command;
  commandCallback : option CommandCallback;
  commandInput : CommandText;
  canvas : Raster;  (* what [ctx] shows *)
  alerts : list string;  (* the messages given to [alert], latest first *)
  showHelp : bool
}.

(** Assignment to one of them, the others kept. *)
Definition set_store (v : CadStore.Store Raster) (c : Component) : Component :=
  mkComponent v (startPoint c) (currentCommand c) (commandCallback c)
    (commandInput c) (canvas c) (alerts c) (showHelp c).

Definition set_startPoint (v : option Point) (c : Component) : Component :=
  mkComponent (store c) v (currentCommand c) (commandCallback c)
    (commandInput c) (canvas c) (alerts c) (showHelp c).

Definition set_currentCommand (v : option Command) (c : Component) : Component :=
  mkComponent (store c) (startPoint c) v (commandCallback c) (commandInput
    c) (canvas c) (alerts c) (showHelp c).

Definition set_commandCallback (v : option CommandCallback) (c : Component) : Component :=
  mkComponent (store c) (startPoint c) (currentCommand c) v (commandInput
    c) (canvas c) (alerts c) (showHelp c).

Definition set_commandInput (v : CommandText) (c : Component) : Component :=
  mkComponent (store c) (startPoint c) (currentCommand c) (commandCallback
    c) v (canvas c) (alerts c) (showHelp c).

Definition set_canvas (v : Raster) (c : Component) : Component :=
  mkComponent (store c) (startPoint c) (currentCommand c) (commandCallback
    c) (commandInput c) v (alerts c) (showHelp c).

Definition set_alerts (v : list string) (c : Component) : Component :=
  mkComponent (store c) (startPoint c) (currentCommand c) (commandCallback
    c) (commandInput c) (canvas c) v (showHelp c).

Definition set_showHelp (v : bool) (c : Component) : Component :=
  mkComponent (store c) (startPoint c) (currentCommand c) (commandCallback
    c) (commandInput c) (canvas c) (alerts c) v.

(** A store action run from the component. *)
Definition onStore (f : CadStore.Store Raster -> CadStore.Store Raster) (c : Component) : Component :=
  set_store (f (store c)) c.

(** [alert(message)] *)
Definition alert (message : string) (c : Component) : Component :=
  set_alerts (message :: alerts c) c.

(** [saveState()]: push what the canvas shows. *)
Definition saveState (c : Component) : Component :=
  onStore (CadStore.saveState (canvas c)) c.

(** [undo()] *)
Definition undo (c : Component) : Component :=
  let (imageData, s) := CadStore.undo (store c) in
  let c1 := set_store s c in
  match imageData with
  | JsValue img => set_canvas img c1
  | _ => c1
  end.

(** [redo()] *)
Definition redo (c : Component) : Component :=
  let (imageData, s) := CadStore.redo (store c) in
  let c1 := set_store s c in
  match imageData with
  | JsValue img => set_canvas img c1
  | _ => c1
  end.

(** [redrawCanvas()] *)
Definition redrawCanvas (c : Component) : Component :=
  set_canvas (paint (store c)) c.

(** [clearCanvas()] *)
Definition clearCanvas (c : Component) : Component :=
  saveState (redrawCanvas (onStore (@CadStore.resetCanvas Raster) c)).

(** [refreshCanvas()] *)
Definition refreshCanvas (c : Component) : Component :=
  saveState (redrawCanvas c).

(** [showCommand(command, callback)] *)
Definition showCommand (command : Command) (callback : CommandCallback)
    (c : Component) : Component :=
  set_commandInput Blank
    (set_commandCallback (Some callback) (set_currentCommand (Some command) c)).

(** [clearCommand()] *)
Definition clearCommand (c : Component) : Component :=
  set_commandInput Blank (set_commandCallback None (set_currentCommand None c)).

(** [cancelCommand()] *)
Definition cancelCommand (c : Component) : Component := clearCommand c.

(** The body of a continuation of [onClick], applied to the value the
    command line passes. *)
Definition runCallback (callback : CommandCallback) (value : Q) (c : Component)
  : Outcome Component :=
  let color := CadStore.lineColor (store c) in
  let lineWidth := CadStore.lineWidth (store c) in
  match callback with
  | OnWidth =>
      if Qle_bool value 0 then Returned (alert "Width must be positive" c)
      else Returned (showCommand CmdHeight (OnHeight value) c)
  | OnHeight userWidth =>
      if Qle_bool value 0 then Returned (alert "Height must be positive" c)
      else
        match startPoint c with
        | None => Threw c
        | Some p =>
            let obj := Rectangle (px p) (py p) userWidth value color lineWidth false in
            Returned (saveState (set_startPoint None
                                   (onStore (CadStore.addVectorObject obj) c)))
        end
  | OnRadius =>
      if Qle_bool value 0 then Returned (alert "Radius must be positive" c)
      else
        match startPoint c with
        | None => Threw c
        | Some p =>
            let obj := Circle (px p) (py p) value color lineWidth false in
            Returned (saveState (set_startPoint None
                                   (onStore (CadStore.addVectorObject obj) c)))
        end
  end.

(** [submitCommand()] *)
Definition submitCommand (c : Component) : Outcome Component :=
  match currentCommand c, commandCallback c with
  | Some _, Some callback =>
      match commandInput c with
      | Blank => Returned (clearCommand c)
      | Number inches =>
          let pixelValue := inches * 96 in
          match runCallback callback pixelValue c with
          | Returned c1 => Returned (clearCommand c1)
          | Threw c1 => Threw c1
          end
      end
  | _, _ => Returned c
  end.

(** [handleEscape()] *)
Definition handleEscape (c : Component) : Component :=
  let c1 :=
    match startPoint c with
    | Some _ => redrawCanvas (set_startPoint None c)
    | None => c
    end in
  let c2 :=
    match CadStore.dimensionStart (store c1),
          CadStore.dimensionSecondPoint (store c1),
          CadStore.dimensionLinePosition (store c1) with
    | None, None, None => c1
    | _, _, _ => redrawCanvas (onStore (@CadStore.clearAllDimensionData Raster) c1)
    end in
  if CadStore.showInputDialog (store c2)
  then onStore (@CadStore.cancelInput Raster) c2
  else c2.

(** The action of one entry of [keyboardShortcuts] (the cursor style
    that [updateCursor] sets is not part of the state). *)
Definition runShortcut (a : Shortcut) (c : Component) : Component :=
  match a with
  | SelectTool tool => onStore (CadStore.setTool tool) c
  | ToggleGrid => onStore (@CadStore.toggleGrid Raster) c
  | ToggleSnapToGrid => onStore (@CadStore.toggleSnapToGrid Raster) c
  | ShowHelp => set_showHelp true c
  | Escape => handleEscape c
  | Refresh => refreshCanvas c
  end.

(** [handleKeyDown(event)] *)
Definition handleKeyDown (event : KeyEvent) (c : Component) : Component :=
  let k := toLowerCase (key event) in
  let single :=
    match lookupShortcut keyboardShortcuts k with
    | Some a => runShortcut a c
    | None => c
    end in
  if ctrlKey event then
    if String.eqb k "z" then undo c
    else if String.eqb k "y" then redo c
    else if String.eqb k "delete" then clearCanvas c
    else single
  else single.

(** [getMousePos(event, canvas)] *)
Definition getMousePos (event : MouseEvent) (s : CadStore.Store Raster) : Point :=
  Transform.screenToWorld (mkPoint (rawX event) (rawY event))
    (CadStore.panOffset s) (CadStore.zoomLevel s).

(** [onClick(event)] *)
Definition onClick (event : MouseEvent) (c : Component) : Component :=
  let s := store c in
  let pos := getMousePos event s in
  let snapped := position (getSnappedPosition s pos) in
  let color := CadStore.lineColor s in
  let lineWidth := CadStore.lineWidth s in
  if (button event =? 0)%Z then
    match CadStore.currentTool s, startPoint c with
    | CadStore.ToolPolyline, _ =>
        if CadStore.isDrawing s then c
        else onStore (CadStore.addPolylinePoint snapped) c
    | CadStore.ToolLine, Some start =>
        saveState (set_startPoint None
          (onStore (CadStore.addVectorObject (Line start snapped color lineWidth)) c))
    | CadStore.ToolRectangle, Some _ => showCommand CmdWidth OnWidth c
    | CadStore.ToolCircle, Some _ => showCommand CmdRadius OnRadius c
    | CadStore.ToolDimension, _ =>
        match CadStore.dimensionStart s, CadStore.dimensionSecondPoint s,
              CadStore.dimensionLinePosition s with
        | Some point1, Some point2, Some dimensionLinePos =>
            let obj := Dimension point1 point2 dimensionLinePos color lineWidth in
            saveState (redrawCanvas
              (onStore (@CadStore.clearAllDimensionData Raster)
                 (onStore (CadStore.addVectorObject obj) c)))
        | _, _, _ => c
        end
    | _, _ => c
    end
  else if (button event =? 2)%Z then
    let c1 :=
      match CadStore.currentTool s with
      | CadStore.ToolPolyline =>
          if CadStore.isDrawing s then
            let c' := onStore (CadStore.setIsDrawing false) c in
            if (1 <? JsArray.len (CadStore.polylinePoints (store c')))%Z then
              let obj := Polyline (CadStore.polylinePoints (store c')) color lineWidth in
              saveState (onStore (@CadStore.clearPolylinePoints Raster)
                           (onStore (CadStore.addVectorObject obj) c'))
            else c'
          else c
      | _ => c
      end in
    let c2 :=
      match startPoint c1 with
      | Some _ => redrawCanvas (set_startPoint None c1)
      | None => c1
      end in
    let c3 :=
      match CadStore.dimensionStart (store c2),
            CadStore.dimensionSecondPoint (store c2),
            CadStore.dimensionLinePosition (store c2) with
      | None, None, None => c2
      | _, _, _ => redrawCanvas (onStore (@CadStore.clearAllDimensionData Raster) c2)
      end in
    clearCommand c3
  else c.

(** [onWheel(event)] *)
Definition onWheel (event : WheelEvent) (c : Component) : Component :=
  let s := store c in
  let worldX := (mouseX event - px (CadStore.panOffset s)) / CadStore.zoomLevel s in
  let worldY := (mouseY event - py (CadStore.panOffset s)) / CadStore.zoomLevel s in
  let delta := deltaY event in
  let newZoom :=
    if negb (Qle_bool 0 delta)
    then CadStore.js_min (CadStore.zoomLevel s * (12 # 10)) CadStore.zoomMax
    else CadStore.js_max (CadStore.zoomLevel s / (12 # 10)) CadStore.zoomMin in
  let newPanX := mouseX event - worldX * newZoom in
  let newPanY := mouseY event - worldY * newZoom in
  redrawCanvas
    (onStore (CadStore.setPanOffset newPanX newPanY)
       (onStore (CadStore.setZoom newZoom) c)).

(** The three blocks of the right-click branch of [onClick], each under
    a name of its own so that it can be reasoned about alone;
    [handleEscape] repeats the last two. *)

(** [if (currentTool === 'polyline' && isDrawing) { ... }] *)
Definition completePolyline (c : Component) : Component :=
  match CadStore.currentTool (store c) with
  | CadStore.ToolPolyline =>
      if CadStore.isDrawing (store c) then
        let c' := onStore (CadStore.setIsDrawing false) c in
        if (1 <? JsArray.len (CadStore.polylinePoints (store c')))%Z then
          let obj := Polyline (CadStore.polylinePoints (store c'))
                       (CadStore.lineColor (store c)) (CadStore.lineWidth (store c)) in
          saveState (onStore (@CadStore.clearPolylinePoints Raster)
                       (onStore (CadStore.addVectorObject obj) c'))
        else c'
      else c
  | _ => c
  end.

(** [if (drawingState.value.startPoint) { ... = null; redrawCanvas() }] *)
Definition cancelDrag (c : Component) : Component :=
  match startPoint c with
  | Some _ => redrawCanvas (set_startPoint None c)
  | None => c
  end.

(** [if (dimensionStart || dimensionSecondPoint || dimensionLinePosition)
    { clearAllDimensionData(); redrawCanvas() }] *)
Definition cancelDimension (c : Component) : Component :=
  match CadStore.dimensionStart (store c),
        CadStore.dimensionSecondPoint (store c),
        CadStore.dimensionLinePosition (store c) with
  | None, None, None => c
  | _, _, _ => redrawCanvas (onStore (@CadStore.clearAllDimensionData Raster) c)
  end.

(** A multi-click construction is under way: there are polyline
    points, or a dimension point, or a drag start. *)
Definition inProgress (c : Component) : Prop :=
  CadStore.polylinePoints (store c) <> []
  \/ CadStore.dimensionStart (store c) <> None
  \/ CadStore.dimensionSecondPoint (store c) <> None
  \/ CadStore.dimensionLinePosition (store c) <> None
  \/ startPoint c <> None.

(** No drag start and no dimension point is recorded. *)
Definition constructionCleared (c : Component) : Prop :=
  startPoint c = None
  /\ CadStore.dimensionStart (store c) = None
  /\ CadStore.dimensionSecondPoint (store c) = None
  /\ CadStore.dimensionLinePosition (store c) = None.

(** Between [c] and [c'] no object was added to the scene and no
    snapshot was pushed. *)
Definition nothingCommitted (c c' : Component) : Prop :=
  CadStore.vectorObjects (store c') = CadStore.vectorObjects (store c)
  /\ CadStore.hist (store c') = CadStore.hist (store c).

(** The test under which a right-click completes the polyline:
    [currentTool === 'polyline' && isDrawing] and more than one point. *)
Definition completesPolyline (c : Component) : bool :=
  match CadStore.currentTool (store c) with
  | CadStore.ToolPolyline =>
      CadStore.isDrawing (store c)
      && (1 <? JsArray.len (CadStore.polylinePoints (store c)))%Z
  | _ => false
  end.

(** The component as [onMounted] leaves it: the grid painted and the
    first snapshot saved. *)
Definition mounted : Component :=
  saveState (redrawCanvas
    (mkComponent CadStore.fresh None None None Blank (paint CadStore.fresh) [] false)).
End Component.

End Canvas.

(* ------------------------------------------------------------------ *)
(** * Sample scenes *)

Module Scenario.
Import Geometry Canvas.
Open Scope Q_scope.

(** A canvas whose pixels carry no information. *)
Definition Blind : Type := unit.
Definition blindPaint (s : CadStore.Store Blind) : Blind := tt.

Definition black : string := "#000000".

(** The store as created (grid 20, zoom 1, no pan, tolerance 10, every
    snap category on), holding the given objects. *)
Definition sceneOf (objects : list VectorObject) : CadStore.Store Blind :=
  CadStore.set_vectorObjects objects CadStore.fresh.

(** One line from (3, 1) to (100, 100), and a cursor at (1, 1): the
    grid intersection (0, 0) and the endpoint (3, 1) are both within
    the tolerance. *)
Definition lineScene : CadStore.Store Blind :=
  sceneOf [Line (mkPoint 3 1) (mkPoint 100 100) black 2].
Definition nearOrigin : Point := mkPoint 1 1.

(** One circle centred at (-5, 0), and a cursor at (9, 0). *)
Definition circleScene : CadStore.Store Blind :=
  sceneOf [Circle (-5) 0 1 black 2 false].
Definition rightOfOrigin : Point := mkPoint 9 0.

(** The mounted component with a given store, drag start and prompt. *)
Definition componentOf (s : CadStore.Store Blind) (start : option Point)
    (command : option Command) (callback : option CommandCallback)
    (text : CommandText) : Component Blind :=
  mkComponent s start command callback text tt [] false.

(** The polyline tool with two points placed and [isDrawing] set. *)
Definition drawingPolyline : Component Blind :=
  componentOf
    (CadStore.set_isDrawing true
       (CadStore.set_polylinePoints [mkPoint 0 0; mkPoint 20 0]
          (CadStore.set_currentTool CadStore.ToolPolyline CadStore.fresh)))
    None None None Blank.

(** The polyline tool with two points placed and no button held. *)
Definition pausedPolyline : Component Blind :=
  componentOf
    (CadStore.set_polylinePoints [mkPoint 0 0; mkPoint 20 0]
       (CadStore.set_currentTool CadStore.ToolPolyline CadStore.fresh))
    None None None Blank.

(** The dimension tool after its first click at (20, 20). *)
Definition dimensionStarted : Component Blind :=
  componentOf
    (CadStore.set_dimensionStart (Some (mkPoint 20 20))
       (CadStore.set_currentTool CadStore.ToolDimension CadStore.fresh))
    None None None Blank.


(** One line far from the origin, from (200, 200) to (300, 300). *)
Definition farLineScene : CadStore.Store Blind :=
  sceneOf [Line (mkPoint 200 200) (mkPoint 300 300) black 2].

(** A right-click and a wheel turn towards the user at (100, 50). *)
Definition rightClick : MouseEvent := mkMouseEvent 100 50 2.
Definition wheelIn : WheelEvent := mkWheelEvent 100 50 (-3).

End Scenario.

(* ------------------------------------------------------------------ *)
(** * More of the arrays and of the store ([stores/cad-store.js]) *)

Module JsArrayMore.
Section Ops.
Variable A : Type.

(** [arr.splice(start, 1)], the array left behind: a negative [start]
    counts from the end, the position is clamped to [0 .. length], and
    at most one element is removed there. *)
Definition splice1 (arr : list A) (start : Z) : list A :=
  let from :=
    if (start <? 0)%Z then Z.max (JsArray.len arr + start) 0
    else Z.min start (JsArray.len arr) in
  firstn (Z.to_nat from) arr ++ skipn (Z.to_nat from + 1) arr.
End Ops.
End JsArrayMore.

Module StoreActions.
Import Geometry.
Open Scope Q_scope.

Section Refs.
Variable ImageData : Type.

(** Assignment to one ref, the others kept. *)
Definition set_lineWidth (v : Q) (s : CadStore.Store ImageData)
  : CadStore.Store ImageData :=
  CadStore.mkStore (CadStore.zoomLevel s) (CadStore.currentTool s) v
    (CadStore.lineColor s) (CadStore.gridSize s) (CadStore.showGrid s)
    (CadStore.snapToGrid s) (CadStore.snapToPoints s) (CadStore.snapToLines
    s) (CadStore.snapTolerance s) (CadStore.isDrawing s)
    (CadStore.polylinePoints s) (CadStore.dimensionStart s)
    (CadStore.vectorObjects s) (CadStore.userInput s)
    (CadStore.showInputDialog s) (CadStore.inputCallback s) (CadStore.hist
    s) (CadStore.panOffset s) (CadStore.dimensionSecondPoint s)
    (CadStore.dimensionLinePosition s).

Definition set_lineColor (v : string) (s : CadStore.Store ImageData)
  : CadStore.Store ImageData :=
  CadStore.mkStore (CadStore.zoomLevel s) (CadStore.currentTool s)
    (CadStore.lineWidth s) v (CadStore.gridSize s) (CadStore.showGrid s)
    (CadStore.snapToGrid s) (CadStore.snapToPoints s) (CadStore.snapToLines
    s) (CadStore.snapTolerance s) (CadStore.isDrawing s)
    (CadStore.polylinePoints s) (CadStore.dimensionStart s)
    (CadStore.vectorObjects s) (CadStore.userInput s)
    (CadStore.showInputDialog s) (CadStore.inputCallback s) (CadStore.hist
    s) (CadStore.panOffset s) (CadStore.dimensionSecondPoint s)
    (CadStore.dimensionLinePosition s).

Definition set_gridSize (v : Q) (s : CadStore.Store ImageData)
  : CadStore.Store ImageData :=
  CadStore.mkStore (CadStore.zoomLevel s) (CadStore.currentTool s)
    (CadStore.lineWidth s) (CadStore.lineColor s) v (CadStore.showGrid s)
    (CadStore.snapToGrid s) (CadStore.snapToPoints s) (CadStore.snapToLines
    s) (CadStore.snapTolerance s) (CadStore.isDrawing s)
    (CadStore.polylinePoints s) (CadStore.dimensionStart s)
    (CadStore.vectorObjects s) (CadStore.userInput s)
    (CadStore.showInputDialog s) (CadStore.inputCallback s) (CadStore.hist
    s) (CadStore.panOffset s) (CadStore.dimensionSecondPoint s)
    (CadStore.dimensionLinePosition s).

Definition set_snapToPoints (v : bool) (s : CadStore.Store ImageData)
  : CadStore.Store ImageData :=
  CadStore.mkStore (CadStore.zoomLevel s) (CadStore.currentTool s)
    (CadStore.lineWidth s) (CadStore.lineColor s) (CadStore.gridSize s)
    (CadStore.showGrid s) (CadStore.snapToGrid s) v (CadStore.snapToLines s)
    (CadStore.snapTolerance s) (CadStore.isDrawing s)
    (CadStore.polylinePoints s) (CadStore.dimensionStart s)
    (CadStore.vectorObjects s) (CadStore.userInput s)
    (CadStore.showInputDialog s) (CadStore.inputCallback s) (CadStore.hist
    s) (CadStore.panOffset s) (CadStore.dimensionSecondPoint s)
    (CadStore.dimensionLinePosition s).

Definition set_snapToLines (v : bool) (s : CadStore.Store ImageData)
  : CadStore.Store ImageData :=
  CadStore.mkStore (CadStore.zoomLevel s) (CadStore.currentTool s)
    (CadStore.lineWidth s) (CadStore.lineColor s) (CadStore.gridSize s)
    (CadStore.showGrid s) (CadStore.snapToGrid s) (CadStore.snapToPoints s)
    v (CadStore.snapTolerance s) (CadStore.isDrawing s)
    (CadStore.polylinePoints s) (CadStore.dimensionStart s)
    (CadStore.vectorObjects s) (CadStore.userInput s)
    (CadStore.showInputDialog s) (CadStore.inputCallback s) (CadStore.hist
    s) (CadStore.panOffset s) (CadStore.dimensionSecondPoint s)
    (CadStore.dimensionLinePosition s).

Definition set_snapTolerance (v : Q) (s : CadStore.Store ImageData)
  : CadStore.Store ImageData :=
  CadStore.mkStore (CadStore.zoomLevel s) (CadStore.currentTool s)
    (CadStore.lineWidth s) (CadStore.lineColor s) (CadStore.gridSize s)
    (CadStore.showGrid s) (CadStore.snapToGrid s) (CadStore.snapToPoints s)
    (CadStore.snapToLines s) v (CadStore.isDrawing s)
    (CadStore.polylinePoints s) (CadStore.dimensionStart s)
    (CadStore.vectorObjects s) (CadStore.userInput s)
    (CadStore.showInputDialog s) (CadStore.inputCallback s) (CadStore.hist
    s) (CadStore.panOffset s) (CadStore.dimensionSecondPoint s)
    (CadStore.dimensionLinePosition s).

(** The points one object contributes to [existingPoints]. *)
Definition objectPoints (obj : VectorObject) : list Point :=
  match obj with
  | Line start end_ _ _ => [start; end_]
  | Rectangle x y width height _ _ _ =>
      [mkPoint x y; mkPoint (x + width) y;
       mkPoint (x + width) (y + height); mkPoint x (y + height)]
  | Circle x y _ _ _ _ => [mkPoint x y]
  | _ => []
  end.

(** [existingPoints = computed(...)] *)
Definition existingPoints (s : CadStore.Store ImageData) : list Point :=
  CadStore.polylinePoints s
    ++ Canvas.pushed (CadStore.dimensionStart s)
    ++ flat_map objectPoints (CadStore.vectorObjects s).

(** [setLineWidth(width)] *)
Definition setLineWidth (width : Q) (s : CadStore.Store ImageData)
  : CadStore.Store ImageData :=
  if Qle_bool 1 width && Qle_bool width 20 then set_lineWidth width s else s.

(** [setLineColor(color)] *)
Definition setLineColor (color : string) (s : CadStore.Store ImageData)
  : CadStore.Store ImageData :=
  set_lineColor color s.

(** [setGridSize(size)] *)
Definition setGridSize (size : Q) (s : CadStore.Store ImageData)
  : CadStore.Store ImageData :=
  if Qle_bool 5 size && Qle_bool size 100 then set_gridSize size s else s.

(** [setSnapTolerance(tolerance)] *)
Definition setSnapTolerance (tolerance : Q) (s : CadStore.Store ImageData)
  : CadStore.Store ImageData :=
  if Qle_bool 1 tolerance && Qle_bool tolerance 50
  then set_snapTolerance tolerance s else s.

(** [toggleSnapToPoints()] *)
Definition toggleSnapToPoints (s : CadStore.Store ImageData)
  : CadStore.Store ImageData :=
  set_snapToPoints (negb (CadStore.snapToPoints s)) s.

(** [toggleSnapToLines()] *)
Definition toggleSnapToLines (s : CadStore.Store ImageData)
  : CadStore.Store ImageData :=
  set_snapToLines (negb (CadStore.snapToLines s)) s.

(** [removeVectorObject(index)] *)
Definition removeVectorObject (index : Z) (s : CadStore.Store ImageData)
  : CadStore.Store ImageData :=
  CadStore.set_vectorObjects
    (JsArrayMore.splice1 (CadStore.vectorObjects s) index) s.

(** [clearHistory()] *)
Definition clearHistory (s : CadStore.Store ImageData) : CadStore.Store ImageData :=
  CadStore.set_hist (History.clearHistory (CadStore.hist s)) s.

(** The settings lie within the bounds their setters enforce. *)
Definition settingsInRange (s : CadStore.Store ImageData) : Prop :=
  1 <= CadStore.lineWidth s <= 20
  /\ 5 <= CadStore.gridSize s <= 100
  /\ 1 <= CadStore.snapTolerance s <= 50.

(** The zoom level lies within [zoomMin .. zoomMax]. *)
Definition zoomInRange (s : CadStore.Store ImageData) : Prop :=
  CadStore.zoomMin <= CadStore.zoomLevel s <= CadStore.zoomMax.

(** What every action of the store keeps: the settings and the zoom
    level within their bounds, the history index on an entry (or [-1]
    on the empty history) and the history within its capacity. *)
Definition storeInvariant (s : CadStore.Store ImageData) : Prop :=
  settingsInRange s
  /\ zoomInRange s
  /\ History.wellFormed (CadStore.hist s)
  /\ (JsArray.len (History.history (CadStore.hist s)) <= History.MAX_HISTORY_SIZE)%Z.

(** The actions the store exports, as far as they write the refs kept
    here (the others write the mouse position, the selection, the input
    dialog's callback and the error message only). *)
Inductive StoreAction : Type :=
| SetTool (tool : CadStore.Tool)
| SetLineWidth (width : Q)
| SetLineColor (color : string)
| AddPolylinePoint (point : Point)
| ClearPolylinePoints
| SetDimensionStart (point : Point)
| ClearDimensionStart
| SetIsDrawing (drawing : bool)
| SetGridSize (size : Q)
| ToggleGrid
| ToggleSnapToGrid
| ToggleSnapToPoints
| ToggleSnapToLines
| SetSnapTolerance (tolerance : Q)
| AddVectorObject (object : VectorObject)
| RemoveVectorObject (index : Z)
| ClearVectorObjects
| CancelInput
| SaveState (imageData : ImageData)
| Undo
| Redo
| ClearHistory
| ResetCanvas
| ZoomIn
| ZoomOut
| SetZoom (level : Q)
| ResetZoom.

(** The store after one action. *)
Definition runAction (a : StoreAction) (s : CadStore.Store ImageData)
  : CadStore.Store ImageData :=
  match a with
  | SetTool tool => CadStore.setTool tool s
  | SetLineWidth width => setLineWidth width s
  | SetLineColor color => setLineColor color s
  | AddPolylinePoint point => CadStore.addPolylinePoint point s
  | ClearPolylinePoints => CadStore.clearPolylinePoints s
  | SetDimensionStart point => CadStore.setDimensionStart point s
  | ClearDimensionStart => CadStore.clearDimensionStart s
  | SetIsDrawing drawing => CadStore.setIsDrawing drawing s
  | SetGridSize size => setGridSize size s
  | ToggleGrid => CadStore.toggleGrid s
  | ToggleSnapToGrid => CadStore.toggleSnapToGrid s
  | ToggleSnapToPoints => toggleSnapToPoints s
  | ToggleSnapToLines => toggleSnapToLines s
  | SetSnapTolerance tolerance => setSnapTolerance tolerance s
  | AddVectorObject object => CadStore.addVectorObject object s
  | RemoveVectorObject index => removeVectorObject index s
  | ClearVectorObjects => CadStore.clearVectorObjects s
  | CancelInput => CadStore.cancelInput s
  | SaveState imageData => CadStore.saveState imageData s
  | Undo => snd (CadStore.undo s)
  | Redo => snd (CadStore.redo s)
  | ClearHistory => clearHistory s
  | ResetCanvas => CadStore.resetCanvas s
  | ZoomIn => CadStore.zoomIn s
  | ZoomOut => CadStore.zoomOut s
  | SetZoom level => CadStore.setZoom level s
  | ResetZoom => CadStore.resetZoom s
  end.

(** The store after a sequence of actions, first action first. *)
Definition runActions (actions : list StoreAction) (s : CadStore.Store ImageData)
  : CadStore.Store ImageData :=
  fold_left (fun st a => runAction a st) actions s.
End Refs.

End StoreActions.

(* ------------------------------------------------------------------ *)
(** * More of the kernel ([utils/drawing-utils.js]) *)

Module Kernel.
Import Geometry.
Open Scope Q_scope.

(** [snapToGrid(point, gridSize)] *)
Definition snapToGrid (point : Point) (gridSize : Q) : Point :=
  mkPoint (inject_Z (js_round (px point / gridSize)) * gridSize)
          (inject_Z (js_round (py point / gridSize)) * gridSize).

(** The objects for which [getAllSnapPoints] has a branch. *)
Definition offersSnapPoints (obj : VectorObject) : bool :=
  match obj with
  | Line _ _ _ _ => true
  | Rectangle _ _ _ _ _ _ _ => true
  | Circle _ _ _ _ _ _ => true
  | Polyline _ _ _ => false
  | Dimension _ _ _ _ _ => false
  end.

(** [{ ...point, type }] *)
Record TaggedPoint : Type := mkTagged {
  tagged : Point;
  tag : Canvas.SnapType
}.

(** The object [getSnapPointsInProximity] fills. *)
Record NearbySnaps : Type := mkNearbySnaps {
  nearEndpoints : list TaggedPoint;
  nearMidpoints : list TaggedPoint;
  nearCenters : list TaggedPoint;
  nearCorners : list TaggedPoint;
  nearGrid : list TaggedPoint
}.

(** One [forEach] of [getSnapPointsInProximity]: the points within the
    proximity, tagged, in their order. *)
Fixpoint nearby (mousePos : Point) (points : list Point) (proximity : Q)
    (kind : Canvas.SnapType) : list TaggedPoint :=
  match points with
  | [] => []
  | point :: rest =>
      if withinDistance mousePos point proximity
      then mkTagged point kind :: nearby mousePos rest proximity kind
      else nearby mousePos rest proximity kind
  end.

(** [getSnapPointsInProximity(mousePos, snapPoints, proximity)] *)
Definition getSnapPointsInProximity (mousePos : Point) (snapPoints : SnapPoints)
    (proximity : Q) : NearbySnaps :=
  mkNearbySnaps
    (nearby mousePos (endpoints snapPoints) proximity Canvas.SnapEndpoint)
    (nearby mousePos (midpoints snapPoints) proximity Canvas.SnapMidpoint)
    (nearby mousePos (centers snapPoints) proximity Canvas.SnapCenter)
    (nearby mousePos (corners snapPoints) proximity Canvas.SnapCorner)
    [].

(** [getGridSnapPointsInProximity(mousePos, gridSize, panOffset, zoomLevel, proximity)] *)
Definition getGridSnapPointsInProximity (mousePos : Point) (gridSize : Q)
    (panOffset : Point) (zoomLevel : Q) (proximity : Q) : list TaggedPoint :=
  let screenGridSize := gridSize * zoomLevel in
  let screenX := px mousePos * zoomLevel + px panOffset in
  let screenY := py mousePos * zoomLevel + py panOffset in
  let gridX := inject_Z (js_round (screenX / screenGridSize)) * screenGridSize in
  let gridY := inject_Z (js_round (screenY / screenGridSize)) * screenGridSize in
  if Qle_bool (Qabs (screenX - gridX)) proximity
     && Qle_bool (Qabs (screenY - gridY)) proximity
  then
    let worldX := (gridX - px panOffset) / zoomLevel in
    let worldY := (gridY - py panOffset) / zoomLevel in
    [mkTagged (mkPoint worldX worldY) Canvas.SnapGrid]
  else [].

End Kernel.

(* ------------------------------------------------------------------ *)
(** * What [redrawCanvas] draws *)

Module Painting.
Import Geometry.
Open Scope Q_scope.

(** [canvasWidth = ref(1200)], [canvasHeight = ref(800)]: nothing
    assigns them anew. *)
Definition canvasWidth : Q := 1200.
Definition canvasHeight : Q := 800.

(** The calls [redrawCanvas] makes on the drawing utilities, each with
    its arguments after [ctx]. *)
Inductive DrawCall : Type :=
| ClearCanvas (width height : Q)
| TransformedGrid (width height gridSize : Q) (panOffset : Point) (zoomLevel : Q)
| LineWithConstantWidth (x1 y1 x2 y2 : Q) (color : string) (width : Q)
    (panOffset : Point) (zoomLevel : Q)
| RectangleWithConstantWidth (x y width height : Q) (color : string) (lineWidth : Q)
    (filled : bool) (panOffset : Point) (zoomLevel : Q)
| CircleWithConstantWidth (x y radius : Q) (color : string) (lineWidth : Q)
    (filled : bool) (panOffset : Point) (zoomLevel : Q)
| AutoCADDimension (point1 point2 dimensionLinePos : Point) (color : string)
    (width : Q) (panOffset : Point) (zoomLevel : Q)
| PolylineWithConstantWidth (points : list Point) (color : string) (width : Q)
    (panOffset : Point) (zoomLevel : Q)
| PointWithConstantSize (x y : Q) (color : string) (size : Q)
    (panOffset : Point) (zoomLevel : Q)
| CanvasStyle (color : string) (width : Q).

(** One turn of [cadStore.vectorObjects.forEach(obj => ...)] in
    [redrawCanvas]: there are branches for the types [line],
    [rectangle], [circle] and [dimension]. *)
Definition drawObject (panOffset : Point) (zoomLevel : Q) (obj : VectorObject)
  : list DrawCall :=
  match obj with
  | Line start end_ color lineWidth =>
      [LineWithConstantWidth (px start) (py start) (px end_) (py end_)
         color lineWidth panOffset zoomLevel]
  | Rectangle x y width height color lineWidth filled =>
      [RectangleWithConstantWidth x y width height color lineWidth filled
         panOffset zoomLevel]
  | Circle x y radius color lineWidth filled =>
      [CircleWithConstantWidth x y radius color lineWidth filled panOffset zoomLevel]
  | Dimension point1 point2 dimensionLinePos color lineWidth =>
      [AutoCADDimension point1 point2 dimensionLinePos color lineWidth
         panOffset zoomLevel]
  | Polyline _ _ _ => []
  end.

Section Store.
Variable ImageData : Type.

(** [redrawCanvas()], as the calls it makes in their order. *)
Definition redrawCalls (s : CadStore.Store ImageData) : list DrawCall :=
  let panOffset := CadStore.panOffset s in
  let zoomLevel := CadStore.zoomLevel s in
  let lineColor := CadStore.lineColor s in
  let lineWidth := CadStore.lineWidth s in
  [ClearCanvas canvasWidth canvasHeight]
  ++ (if CadStore.showGrid s
      then [TransformedGrid canvasWidth canvasHeight (CadStore.gridSize s)
              panOffset zoomLevel]
      else [])
  ++ flat_map (drawObject panOffset zoomLevel) (CadStore.vectorObjects s)
  ++ (if (1 <? JsArray.len (CadStore.polylinePoints s))%Z
      then [PolylineWithConstantWidth (CadStore.polylinePoints s)
              lineColor lineWidth panOffset zoomLevel]
      else [])
  ++ map (fun point =>
            PointWithConstantSize (px point) (py point) lineColor 3
              panOffset zoomLevel)
       (CadStore.polylinePoints s)
  ++ [CanvasStyle lineColor lineWidth].
End Store.

End Painting.

(* ------------------------------------------------------------------ *)
(** * The grid [drawTransformedGrid] draws *)

Module GridLines.
Import Geometry.
Open Scope Q_scope.

(** One of the two [for] loops of [drawTransformedGrid]:
    [for (let x = start; x <= stop; x += gridSize)], collecting the
    screen coordinates at which a line is stroked.  The loop need not
    end (a grid size that is not positive), so it runs on fuel: [None]
    when the fuel runs out. *)
Fixpoint sweep (fuel : nat) (x stop gridSize zoomLevel pan limit : Q)
  : option (list Q) :=
  match fuel with
  | O => None
  | S fuel' =>
      if Qle_bool x stop then
        let screen := x * zoomLevel + pan in
        match sweep fuel' (x + gridSize) stop gridSize zoomLevel pan limit with
        | None => None
        | Some rest =>
            Some (if Qle_bool 0 screen && Qle_bool screen limit
                  then screen :: rest
                  else rest)
        end
      else Some []
  end.

(** What [drawTransformedGrid] strokes: the screen [x] of the vertical
    lines, each from [(x, 0)] to [(x, canvasHeight)], and the screen
    [y] of the horizontal ones, each from [(0, y)] to
    [(canvasWidth, y)]. *)
Record GridStrokes : Type := mkGridStrokes {
  verticals : list Q;
  horizontals : list Q
}.

(** [drawTransformedGrid(ctx, canvasWidth, canvasHeight, gridSize, panOffset, zoomLevel)] *)
Definition drawTransformedGrid (fuel : nat) (canvasWidth canvasHeight gridSize : Q)
    (panOffset : Point) (zoomLevel : Q) : option GridStrokes :=
  let worldLeft := - px panOffset / zoomLevel in
  let worldTop := - py panOffset / zoomLevel in
  let worldRight := (canvasWidth - px panOffset) / zoomLevel in
  let worldBottom := (canvasHeight - py panOffset) / zoomLevel in
  let startX := inject_Z (Qfloor (worldLeft / gridSize)) * gridSize in
  let endX := inject_Z (Qceiling (worldRight / gridSize)) * gridSize in
  let startY := inject_Z (Qfloor (worldTop / gridSize)) * gridSize in
  let endY := inject_Z (Qceiling (worldBottom / gridSize)) * gridSize in
  match sweep fuel startX endX gridSize zoomLevel (px panOffset) canvasWidth with
  | None => None
  | Some vs =>
      match sweep fuel startY endY gridSize zoomLevel (py panOffset) canvasHeight with
      | None => None
      | Some hs => Some (mkGridStrokes vs hs)
      end
  end.

(** A screen coordinate at which a grid line is due: a world multiple
    of the grid size that falls on the canvas. *)
Definition gridLineAt (gridSize zoomLevel pan limit : Q) (k : Z) (screen : Q) : Prop :=
  screen == inject_Z k * gridSize * zoomLevel + pan /\ 0 <= screen <= limit.

End GridLines.

(* ------------------------------------------------------------------ *)
(** * The pointer handlers and the gestures of a session *)

Module Pointer.
Import Geometry Canvas.
Open Scope Q_scope.

(** The actions of the toolbar ([layouts/MainLayout.vue]) that call
    the store. *)
Inductive ToolbarAction : Type :=
| PickTool (tool : CadStore.Tool)
| PressToggleGrid
| PressToggleSnapToGrid
| PickGridSize (size : Q)
| PickSnapTolerance (tolerance : Q)
| PickLineWidth (width : Q)
| PickLineColor (color : string)
| PressZoomIn
| PressZoomOut
| PressResetZoom.

(** What the user does, handler by handler. *)
Inductive Gesture : Type :=
| MouseDown (event : MouseEvent)
| MouseUp
| Click (event : MouseEvent)
| Wheel (event : WheelEvent)
| KeyDown (event : KeyEvent)
| TypeCommand (text : CommandText)
| EnterCommand
| EscapeCommand
| Toolbar (action : ToolbarAction)
| ToolbarUndo
| ToolbarRedo
| ToolbarClear
| ToolbarRefresh.

(** The objects other than rectangles. *)
Definition notRectangle (obj : VectorObject) : bool :=
  match obj with
  | Rectangle _ _ _ _ _ _ _ => false
  | _ => true
  end.

Section Handlers.
Variable Raster : Type.
Variable paint : CadStore.Store Raster -> Raster.

(** The component together with the refs its pointer handlers write:
    [cadStore.mousePosition] ([None] for [{x: null, y: null}]),
    [snappedPosition] and [panState].  (The cursor style the handlers
    set on the canvas element is not part of the state.) *)
Record Session : Type := mkSession {
  component : Component Raster;
  mousePosition : option Point;
  snappedPosition : option Point;
  isPanning : bool;
  lastMousePos : Point
}.

(** A handler of the component run within the session. *)
Definition onComponent (f : Component Raster -> Component Raster) (s : Session)
  : Session :=
  mkSession (f (component s)) (mousePosition s) (snappedPosition s)
    (isPanning s) (lastMousePos s).

(** Modelled from the spec: [setDimensionSecondPoint(point)], called
    by [onMouseDown] and absent from the store file at hand.  The
    spec: "click 2 sets [dimensionSecondPoint]". *)
Definition setDimensionSecondPoint (point : Point) (s : CadStore.Store Raster)
  : CadStore.Store Raster :=
  CadStore.set_dimensionSecondPoint (Some point) s.

(** [onMouseDown(event)] *)
Definition onMouseDown (event : MouseEvent) (s : Session) : Session :=
  let c := component s in
  let st := store c in
  let pos := getMousePos event st in
  let snapped := position (getSnappedPosition st pos) in
  let raw := mkPoint (rawX event) (rawY event) in
  let tracked (c' : Component Raster) (panning : bool) (last : Point) :=
    mkSession c' (Some raw) (Some snapped) panning last in
  match CadStore.currentTool st with
  | CadStore.ToolSelect =>
      if (button event =? 0)%Z then tracked c true raw
      else tracked c (isPanning s) (lastMousePos s)
  | CadStore.ToolPolyline =>
      tracked
        (onStore (CadStore.addPolylinePoint snapped)
           (onStore (CadStore.setIsDrawing true) c))
        (isPanning s) (lastMousePos s)
  | CadStore.ToolLine | CadStore.ToolRectangle | CadStore.ToolCircle =>
      tracked (set_startPoint (Some snapped) c) (isPanning s) (lastMousePos s)
  | CadStore.ToolDimension =>
      match CadStore.dimensionStart st, CadStore.dimensionSecondPoint st with
      | None, _ =>
          tracked (onStore (CadStore.setDimensionStart snapped) c)
            (isPanning s) (lastMousePos s)
      | Some _, None =>
          tracked (onStore (setDimensionSecondPoint snapped) c)
            (isPanning s) (lastMousePos s)
      | Some _, Some _ => tracked c (isPanning s) (lastMousePos s)
      end
  end.

(** [onMouseUp()] *)
Definition onMouseUp (s : Session) : Session :=
  let s1 :=
    if isPanning s
    then mkSession (component s) (mousePosition s) (snappedPosition s) false
           (lastMousePos s)
    else s in
  match CadStore.currentTool (store (component s1)) with
  | CadStore.ToolPolyline => onComponent (onStore (CadStore.setIsDrawing false)) s1
  | _ => s1
  end.

(** The store action behind a toolbar control. *)
Definition toolbar (a : ToolbarAction) (st : CadStore.Store Raster)
  : CadStore.Store Raster :=
  match a with
  | PickTool tool => CadStore.setTool tool st
  | PressToggleGrid => CadStore.toggleGrid st
  | PressToggleSnapToGrid => CadStore.toggleSnapToGrid st
  | PickGridSize size => StoreActions.setGridSize size st
  | PickSnapTolerance tolerance => StoreActions.setSnapTolerance tolerance st
  | PickLineWidth width => StoreActions.setLineWidth width st
  | PickLineColor color => StoreActions.setLineColor color st
  | PressZoomIn => CadStore.zoomIn st
  | PressZoomOut => CadStore.zoomOut st
  | PressResetZoom => CadStore.resetZoom st
  end.

(** The state a call of [submitCommand] leaves, returned or raised. *)
Definition afterSubmit (c : Component Raster) : Component Raster :=
  match submitCommand c with
  | Returned c' => c'
  | Threw c' => c'
  end.

(** [clearCanvas()] within the session: [resetCanvas] also resets the
    mouse position. *)
Definition clearSession (s : Session) : Session :=
  mkSession (clearCanvas paint (component s)) None (snappedPosition s)
    (isPanning s) (lastMousePos s).

(** The session after one gesture. *)
Definition perform (g : Gesture) (s : Session) : Session :=
  match g with
  | MouseDown event => onMouseDown event s
  | MouseUp => onMouseUp s
  | Click event => onComponent (onClick paint event) s
  | Wheel event => onComponent (onWheel paint event) s
  | KeyDown event =>
      if ctrlKey event && String.eqb (toLowerCase (key event)) "delete"
      then clearSession s
      else onComponent (handleKeyDown paint event) s
  | TypeCommand text => onComponent (set_commandInput text) s
  | EnterCommand => onComponent afterSubmit s
  | EscapeCommand => onComponent (@cancelCommand Raster) s
  | Toolbar action => onComponent (onStore (toolbar action)) s
  | ToolbarUndo => onComponent (@undo Raster) s
  | ToolbarRedo => onComponent (@redo Raster) s
  | ToolbarClear => clearSession s
  | ToolbarRefresh => onComponent (refreshCanvas paint) s
  end.

(** The session after a sequence of gestures, first gesture first. *)
Definition performAll (gestures : list Gesture) (s : Session) : Session :=
  fold_left (fun st g => perform g st) gestures s.

(** The session as [onMounted] leaves it. *)
Definition mountedSession : Session :=
  mkSession (mounted paint) None None false (mkPoint 0 0).

(** A press and release of a button at one place: the browser sends
    [mousedown], [mouseup] and [click] with the same position. *)
Definition plainClick (event : MouseEvent) (s : Session) : Session :=
  perform (Click event) (perform MouseUp (perform (MouseDown event) s)).

(** No rectangle is in the scene and no height prompt is pending. *)
Definition rectangleFree (s : Session) : Prop :=
  forallb notRectangle (CadStore.vectorObjects (store (component s))) = true
  /\ match commandCallback (component s) with
     | Some (OnHeight _) => False
     | _ => True
     end.

(** What a handler may do to the scene and to the pending prompt
    without letting a rectangle in: the scene grows by objects other
    than rectangles or is emptied, and the callback stays, is dropped
    or is the one of the width or of the radius prompt. *)
Definition benign (c c' : Component Raster) : Prop :=
  ((exists extra,
      CadStore.vectorObjects (store c') = CadStore.vectorObjects (store c) ++ extra
      /\ forallb notRectangle extra = true)
   \/ CadStore.vectorObjects (store c') = [])
  /\ (commandCallback c' = commandCallback c
      \/ commandCallback c' = None
      \/ commandCallback c' = Some OnWidth
      \/ commandCallback c' = Some OnRadius).

(** The store refs [getSnappedPosition] reads agree, the polyline
    under construction apart. *)
Definition sameButPolyline (s s' : CadStore.Store Raster) : Prop :=
  CadStore.snapTolerance s' = CadStore.snapTolerance s
  /\ CadStore.vectorObjects s' = CadStore.vectorObjects s
  /\ CadStore.dimensionStart s' = CadStore.dimensionStart s
  /\ CadStore.dimensionSecondPoint s' = CadStore.dimensionSecondPoint s
  /\ CadStore.snapToGrid s' = CadStore.snapToGrid s
  /\ CadStore.snapToPoints s' = CadStore.snapToPoints s
  /\ CadStore.snapToLines s' = CadStore.snapToLines s
  /\ CadStore.gridSize s' = CadStore.gridSize s
  /\ CadStore.panOffset s' = CadStore.panOffset s
  /\ CadStore.zoomLevel s' = CadStore.zoomLevel s.
End Handlers.

End Pointer.

(* ------------------------------------------------------------------ *)
(** * Sample sessions *)

Module Samples.
Import Geometry Canvas Pointer Scenario.
Open Scope Q_scope.

(** A history of three snapshots with the index on the second. *)
Definition midHistory : History.State Z := History.mkState [1; 2; 3]%Z 1.

(** The horizontal segment from (0, 0) to (10, 0), and a cursor at
    (5, 1) above its middle. *)
Definition baseStart : Point := mkPoint 0 0.
Definition baseEnd : Point := mkPoint 10 0.
Definition aboveBase : Point := mkPoint 5 1.

(** A cursor off the grid, and a pan offset. *)
Definition offGrid : Point := mkPoint 7 13.
Definition smallPan : Point := mkPoint 5 5.

(** The circle tool with a drag start at (40, 40), the radius prompt
    open and [1] typed into it. *)
Definition radiusPrompt : Component Blind :=
  componentOf
    (CadStore.set_currentTool CadStore.ToolCircle CadStore.fresh)
    (Some (mkPoint 40 40)) (Some CmdRadius) (Some OnRadius) (Number 1).

(** The session after mounting, with the given tool picked and line
    snapping as given. *)
Definition sessionWith (tool : CadStore.Tool) (lines : bool) : Session Blind :=
  mkSession
    (componentOf
       (StoreActions.set_snapToLines lines
          (CadStore.set_currentTool tool CadStore.fresh))
       None None None Blank)
    None None false (mkPoint 0 0).

(** The line tool picked; the polyline tool picked and line snapping
    switched off. *)
Definition lineSession : Session Blind := sessionWith CadStore.ToolLine true.
Definition polylineSession : Session Blind := sessionWith CadStore.ToolPolyline false.

(** A left button event at (100, 50), and one at (200, 50). *)
Definition leftAt100 : MouseEvent := mkMouseEvent 100 50 0.
Definition leftAt200 : MouseEvent := mkMouseEvent 200 50 0.

End Samples.

(* ================================================================== *)
(** * Properties *)

(* ------------------------------------------------------------------ *)
(** ** Arrays *)

Module JsArrayFacts.
Import JsArray.
Section Facts.
Variable A : Type.
Implicit Types (arr : list A) (x : A) (i e : Z).

Lemma len_nonneg arr : (0 <= len arr)%Z.
Proof. unfold len. lia. Qed.

Lemma len_nil_iff arr : len arr = 0%Z <-> arr = [].
Proof.
  unfold len. destruct arr as [|a arr]; cbn [length]; split; intros H;
    try reflexivity; try discriminate; lia.
Qed.

Lemma len_push arr x : len (push arr x) = (len arr + 1)%Z.
Proof. unfold len, push. rewrite length_app. cbn [length]. lia. Qed.

Lemma len_shift arr : len (shift arr) = Z.max 0 (len arr - 1).
Proof. unfold len, shift. destruct arr as [|a arr]; cbn [length tl]; lia. Qed.

Lemma len_slice0 arr e : (0 <= e <= len arr)%Z -> len (slice0 arr e) = e.
Proof.
  intros H. unfold slice0.
  assert (E : (e <? 0)%Z = false) by (apply Z.ltb_ge; lia).
  rewrite E. unfold len in *. rewrite length_firstn. lia.
Qed.

Lemma len_slice0_le arr e : (len (slice0 arr e) <= len arr)%Z.
Proof.
  unfold slice0, len. rewrite length_firstn. lia.
Qed.

Lemma get_in_range arr i :
  (0 <= i < len arr)%Z ->
  exists x, nth_error arr (Z.to_nat i) = Some x /\ get arr i = JsValue x.
Proof.
  intros H. unfold get, len in *.
  assert (E : (i <? 0)%Z = false) by (apply Z.ltb_ge; lia).
  rewrite E.
  destruct (nth_error arr (Z.to_nat i)) as [x|] eqn:N.
  - exists x. split; reflexivity.
  - apply nth_error_None in N. lia.
Qed.

Lemma get_not_null arr i : get arr i <> JsNull.
Proof.
  unfold get. destruct (i <? 0)%Z; [discriminate|].
  destruct (nth_error arr (Z.to_nat i)); discriminate.
Qed.

End Facts.

(** An array filled from a numbering gives back the numbered entry. *)
Lemma get_map_seq (A : Type) (f : nat -> A) (start n : nat) (i : Z) :
  (0 <= i < Z.of_nat n)%Z ->
  get (map f (seq start n)) i = JsValue (f (start + Z.to_nat i)%nat).
Proof.
  intros H. unfold get.
  assert (E : (i <? 0)%Z = false) by (apply Z.ltb_ge; lia).
  rewrite E, nth_error_map, nth_error_seq.
  assert (L : (Z.to_nat i <? n)%nat = true) by (apply Nat.ltb_lt; lia).
  rewrite L. reflexivity.
Qed.
End JsArrayFacts.

(* ------------------------------------------------------------------ *)
(** ** The history manager *)

Module HistoryFacts.
Import JsArray JsArrayFacts History.

Section Facts.
Variable A : Type.
Implicit Types (s : State A) (x : A).

Lemma wellFormed_index_ok s : wellFormed s -> index_ok s.
Proof.
  unfold wellFormed, index_ok.
  intros [[E I] | H]; [rewrite E, I; cbn; lia | lia].
Qed.

(** What [saveState] leaves, for an index that is [-1] or points into
    the history. *)
Lemma saveState_shape x s :
  index_ok s ->
  let s' := saveState x s in
  exists kept,
    history s' = push kept x
    /\ historyIndex s' = len kept
    /\ (len kept <= len (history s))%Z
    /\ (MAX_HISTORY_SIZE <= len (history s) -> len kept < len (history s))%Z.
Proof.
  unfold index_ok. intros H. cbn zeta. unfold saveState.
  destruct (MAX_HISTORY_SIZE <=? len (history s))%Z eqn:C.
  - apply Z.leb_le in C. unfold MAX_HISTORY_SIZE in *. cbn [history historyIndex].
    pose proof (len_shift (history s)) as LS.
    eexists. split; [reflexivity|].
    assert (L : len (slice0 (shift (history s)) (Z.max 0 (historyIndex s - 1) + 1))
                = (Z.max 0 (historyIndex s - 1) + 1)%Z)
      by (apply len_slice0; lia).
    rewrite L. repeat split; lia.
  - apply Z.leb_gt in C.
    eexists. split; [reflexivity|].
    assert (L : len (slice0 (history s) (historyIndex s + 1)) = (historyIndex s + 1)%Z)
      by (apply len_slice0; lia).
    rewrite L. repeat split; lia.
Qed.

Lemma saveState_wellFormed x s : index_ok s -> wellFormed (saveState x s).
Proof.
  intros H. destruct (saveState_shape x H) as (kept & Hh & Hi & _ & _).
  right. rewrite Hh, Hi, len_push. pose proof (len_nonneg kept). lia.
Qed.

Lemma undo_wellFormed s : wellFormed s -> wellFormed (snd (undo s)).
Proof.
  unfold undo, canUndo. intros W.
  destruct (0 <? historyIndex s)%Z eqn:C; cbn [snd]; [|exact W].
  apply Z.ltb_lt in C. right. cbn [history historyIndex].
  destruct W as [[_ I] | H]; lia.
Qed.

Lemma redo_wellFormed s : wellFormed s -> wellFormed (snd (redo s)).
Proof.
  unfold redo, canRedo. intros W.
  destruct (historyIndex s <? len (history s) - 1)%Z eqn:C; cbn [snd]; [|exact W].
  apply Z.ltb_lt in C. right. cbn [history historyIndex].
  destruct W as [[E I] | H]; [rewrite E, I in C; cbn in C; lia | lia].
Qed.

(** Every state the store reaches is well formed. *)
Lemma reachable_wellFormed s : reachable s -> wellFormed s.
Proof.
  induction 1 as [| x s _ IH | s _ IH | s _ IH | s _ _].
  - left. split; reflexivity.
  - apply saveState_wellFormed, wellFormed_index_ok, IH.
  - apply undo_wellFormed, IH.
  - apply redo_wellFormed, IH.
  - left. split; reflexivity.
Qed.

(** The history never holds more than [MAX_HISTORY_SIZE] entries. *)
Lemma reachable_bounded s : reachable s -> (len (history s) <= MAX_HISTORY_SIZE)%Z.
Proof.
  induction 1 as [| x s R IH | s _ IH | s _ IH | s _ _].
  - cbn. unfold MAX_HISTORY_SIZE. lia.
  - pose proof (wellFormed_index_ok (reachable_wellFormed R)) as W.
    destruct (saveState_shape x W) as (kept & Hh & _ & Hle & Hl).
    rewrite Hh, len_push. lia.
  - unfold undo. destruct (canUndo s); exact IH.
  - unfold redo. destruct (canRedo s); exact IH.
  - cbn. unfold MAX_HISTORY_SIZE. lia.
Qed.

(** [k] undos walk the index down to 0 and stop there. *)
Lemma undoTimes_index (k : nat) (h : list A) (i : Z) :
  (0 <= i)%Z ->
  undoTimes k (mkState h i) = mkState h (Z.max 0 (i - Z.of_nat k)).
Proof.
  revert i. induction k as [|k IH]; intros i Hi.
  - cbn [undoTimes]. f_equal. lia.
  - cbn [undoTimes]. unfold undo, canUndo. cbn [history historyIndex].
    destruct (0 <? i)%Z eqn:C; cbn [snd].
    + apply Z.ltb_lt in C. rewrite IH by lia. f_equal. lia.
    + apply Z.ltb_ge in C. rewrite IH by lia. f_equal. lia.
Qed.
End Facts.

(** C3. Sixty snapshots pushed into the empty history (capacity 50)
    leave exactly the fifty snapshots 11 to 60, with the index on the
    last.  From there the undos return the snapshots 59, 58, ... down to
    11 (the 49th undo), every later undo returns [null], and no undo
    ever returns one of the evicted snapshots 1 to 10. *)
Theorem history_bounds_sixty (A : Type) (snap : nat -> A) :
  length (history (pushNumbered snap 60)) = 50%nat
  /\ history (pushNumbered snap 60) = map snap (seq 11 50)
  /\ historyIndex (pushNumbered snap 60) = 49%Z
  /\ (forall k : nat, (k < 49)%nat ->
        fst (undo (undoTimes k (pushNumbered snap 60))) = JsValue (snap (59 - k)%nat))
  /\ fst (undo (undoTimes 48 (pushNumbered snap 60))) = JsValue (snap 11%nat)
  /\ (forall k : nat, (49 <= k)%nat ->
        fst (undo (undoTimes k (pushNumbered snap 60))) = JsNull)
  /\ ((forall i j : nat, snap i = snap j -> i = j) ->
       forall k j : nat, (1 <= j <= 10)%nat ->
         fst (undo (undoTimes k (pushNumbered snap 60))) <> JsValue (snap j)).
Proof.
  assert (E : pushNumbered snap 60 = mkState (map snap (seq 11 50)) 49)
    by reflexivity.
  assert (U : forall k : nat, (k < 49)%nat ->
            fst (undo (undoTimes k (pushNumbered snap 60)))
            = JsValue (snap (59 - k)%nat)).
  { intros k Hk. rewrite E, undoTimes_index by lia.
    unfold undo, canUndo. cbn [history historyIndex].
    assert (C : (0 <? Z.max 0 (49 - Z.of_nat k))%Z = true) by (apply Z.ltb_lt; lia).
    rewrite C. cbn [fst].
    rewrite get_map_seq by lia. do 2 f_equal. lia. }
  assert (N : forall k : nat, (49 <= k)%nat ->
            fst (undo (undoTimes k (pushNumbered snap 60))) = JsNull).
  { intros k Hk. rewrite E, undoTimes_index by lia.
    unfold undo, canUndo. cbn [history historyIndex].
    assert (C : (0 <? Z.max 0 (49 - Z.of_nat k))%Z = false) by (apply Z.ltb_ge; lia).
    rewrite C. reflexivity. }
  split; [rewrite E; reflexivity|].
  split; [rewrite E; reflexivity|].
  split; [rewrite E; reflexivity|].
  split; [exact U|].
  split; [apply (U 48%nat); lia|].
  split; [exact N|].
  intros Inj k j Hj Hr.
  destruct (Nat.lt_ge_cases k 49) as [Hk | Hk].
  - rewrite (U k Hk) in Hr.
    assert (Hs : snap (59 - k)%nat = snap j) by congruence.
    apply Inj in Hs. lia.
  - rewrite (N k Hk) in Hr. discriminate.
Qed.

(** The sixty snapshots numbered by themselves: the 49th undo returns
    11, and the undos never return 3. *)
Lemma history_bounds_sixty_witness :
  fst (undo (undoTimes 48 (pushNumbered (fun n : nat => n) 60))) = JsValue 11%nat
  /\ fst (undo (undoTimes 7 (pushNumbered (fun n : nat => n) 60))) <> JsValue 3%nat.
Proof.
  destruct (history_bounds_sixty (fun n : nat => n))
    as (_ & _ & _ & _ & H11 & _ & Hnever).
  split.
  - exact H11.
  - apply (Hnever (fun i j H => H) 7%nat 3%nat). lia.
Defined.

(** C9. [undo] returns [null] exactly when the index is at the start
    ([historyIndex <= 0]), and then changes nothing; otherwise it
    decrements the index, keeps the history and returns the entry at the
    new index.  [redo] returns [null] exactly when the index is at the
    last entry ([historyIndex >= length - 1]), and then changes nothing;
    otherwise it increments the index and returns the entry there.
    Neither raises: both are total functions. *)
Theorem undo_redo_boundaries (A : Type) (s : State A) :
  wellFormed s ->
  (fst (undo s) = JsNull <-> (historyIndex s <= 0)%Z)
  /\ (snd (undo s) = s <-> (historyIndex s <= 0)%Z)
  /\ ((0 < historyIndex s)%Z ->
       history (snd (undo s)) = history s
       /\ historyIndex (snd (undo s)) = (historyIndex s - 1)%Z
       /\ exists x, nth_error (history s) (Z.to_nat (historyIndex s - 1)) = Some x
                    /\ fst (undo s) = JsValue x)
  /\ (fst (redo s) = JsNull <-> (len (history s) - 1 <= historyIndex s)%Z)
  /\ (snd (redo s) = s <-> (len (history s) - 1 <= historyIndex s)%Z)
  /\ ((historyIndex s < len (history s) - 1)%Z ->
       history (snd (redo s)) = history s
       /\ historyIndex (snd (redo s)) = (historyIndex s + 1)%Z
       /\ exists x, nth_error (history s) (Z.to_nat (historyIndex s + 1)) = Some x
                    /\ fst (redo s) = JsValue x).
Proof.
  intros W. apply wellFormed_index_ok in W. unfold index_ok in W.
  destruct s as [h i]. cbn [history historyIndex] in *.
  unfold undo, redo, canUndo, canRedo. cbn [history historyIndex].
  destruct (0 <? i)%Z eqn:CU; [apply Z.ltb_lt in CU | apply Z.ltb_ge in CU];
    (destruct (i <? len h - 1)%Z eqn:CR; [apply Z.ltb_lt in CR | apply Z.ltb_ge in CR]);
    cbn [fst snd history historyIndex];
    repeat match goal with
      | |- _ /\ _ => split
      | |- _ <-> _ => split
      | |- _ -> _ => intro
      end;
    try lia; try reflexivity; try discriminate;
    try (exfalso; eapply get_not_null; eassumption);
    try match goal with
      | H : mkState _ _ = mkState _ _ |- _ => injection H as H; lia
      end;
    try (apply get_in_range; lia).
Qed.

(** The history [[A; B; C]] at index 2: [undo] returns [B] and sets the
    index to 1. *)
Lemma undo_redo_boundaries_witness :
  wellFormed (mkState [1; 2; 3]%nat 2)
  /\ historyIndex (snd (undo (mkState [1; 2; 3]%nat 2))) = 1%Z
  /\ fst (undo (mkState [1; 2; 3]%nat 2)) = JsValue 2%nat.
Proof.
  assert (W : wellFormed (mkState [1; 2; 3]%nat 2)) by (right; cbn; lia).
  split; [exact W|].
  destruct (undo_redo_boundaries W) as (_ & _ & H & _).
  destruct H as (_ & Hi & x & Hn & Hx); [cbn; lia|].
  split; [exact Hi|].
  rewrite Hx. cbn in Hn. injection Hn as <-. reflexivity.
Defined.



End HistoryFacts.

(* ------------------------------------------------------------------ *)
(** ** The geometry kernel *)

Module GeometryFacts.
Import Geometry.
Open Scope Q_scope.

Lemma samePoint_refl (a : Point) : samePoint a a.
Proof. split; reflexivity. Qed.

(** [Math.round] of an integer is that integer. *)
Lemma js_round_int (k : Z) : js_round (inject_Z k) = k.
Proof.
  unfold js_round, Qfloor, Qplus, inject_Z. cbn [Qnum Qden].
  replace (k * 2 + 1 * 1)%Z with (k * 2 + 1)%Z by ring.
  change (Z.pos (1 * 2)) with 2%Z.
  rewrite Z.div_add_l by discriminate.
  change (1 / 2)%Z with 0%Z. ring.
Qed.

(** [Math.round] does not tell equal numbers apart. *)
Lemma js_round_comp (x y : Q) : x == y -> js_round x = js_round y.
Proof.
  intros H. unfold js_round. apply Qfloor_comp. rewrite H. reflexivity.
Qed.

(** One coordinate of the grid snap, applied to its own result. *)
Lemma grid_coordinate_idempotent (v pan gridSize zoom : Q) :
  0 < gridSize -> 0 < zoom ->
  js_round ((((inject_Z (js_round ((v * zoom + pan) / (gridSize * zoom)))
                * (gridSize * zoom) - pan) / zoom) * zoom + pan)
            / (gridSize * zoom))
  = js_round ((v * zoom + pan) / (gridSize * zoom)).
Proof.
  intros Hg Hz.
  set (k := js_round ((v * zoom + pan) / (gridSize * zoom))).
  rewrite <- (js_round_int k) at 2.
  apply js_round_comp.
  set (K := inject_Z k).
  field. split; intro E; rewrite E in *; apply Qlt_irrefl with 0; assumption.
Qed.

(** The grid snap is idempotent: a snapped point snaps to itself. *)
Lemma snapToTransformedGrid_idempotent (p pan : Point) (gridSize zoom : Q) :
  0 < gridSize -> 0 < zoom ->
  snapToTransformedGrid (snapToTransformedGrid p gridSize pan zoom) gridSize pan zoom
  = snapToTransformedGrid p gridSize pan zoom.
Proof.
  intros Hg Hz. unfold snapToTransformedGrid. cbn [px py].
  rewrite !grid_coordinate_idempotent by assumption. reflexivity.
Qed.

Lemma snapToLine_same_coordinates (p s e : Point) (tol : Q) :
  samePoint s e -> snapToLine p s e tol = Done None.
Proof.
  intros [Hx Hy]. unfold snapToLine.
  assert (E : Qeq_bool ((px e - px s) * (px e - px s)
                        + (py e - py s) * (py e - py s)) 0 = true).
  { apply Qeq_bool_iff. rewrite Hx, Hy. ring. }
  rewrite E. reflexivity.
Qed.

Lemma snapToLine_no_fault (p s e : Point) (tol : Q) :
  snapToLine p s e tol <> Fault.
Proof.
  unfold snapToLine, divide.
  destruct (Qeq_bool ((px e - px s) * (px e - px s)
                      + (py e - py s) * (py e - py s)) 0) eqn:E.
  - discriminate.
  - cbn [bind].
    match goal with |- (if ?b then _ else _) <> _ => destruct b end; discriminate.
Qed.

Lemma snapToLines_no_fault (p : Point) (lines : list Segment) (tol : Q) :
  snapToLines p lines tol <> Fault.
Proof.
  induction lines as [|l lines IH]; cbn [snapToLines]; [discriminate|].
  pose proof (snapToLine_no_fault p (seg_start l) (seg_end l) tol) as NF.
  destruct (snapToLine p (seg_start l) (seg_end l) tol) as [|[q|]];
    cbn [bind]; [congruence | discriminate | exact IH].
Qed.

Lemma snapToLines_all_degenerate (p : Point) (lines : list Segment) (tol : Q) :
  Forall (fun l => samePoint (seg_start l) (seg_end l)) lines ->
  snapToLines p lines tol = Done None.
Proof.
  induction 1 as [|l lines Hl _ IH]; cbn [snapToLines]; [reflexivity|].
  rewrite (snapToLine_same_coordinates p tol Hl). cbn [bind]. exact IH.
Qed.

(** C8. For a segment whose start point is its end point, [snapToLine]
    returns [null] for every point and tolerance.  No input at all
    makes [snapToLine] or [snapToLines] divide by zero: the only
    division sits behind the test [lenSq === 0]; and a list of
    zero-length segments gives [null]. *)
Theorem snapToLine_zero_length
    (p a s e : Point) (tol : Q) (lines : list Segment) :
  snapToLine p a a tol = Done None
  /\ snapToLine p s e tol <> Fault
  /\ snapToLines p lines tol <> Fault
  /\ (Forall (fun l => seg_start l = seg_end l) lines ->
      snapToLines p lines tol = Done None).
Proof.
  split; [apply snapToLine_same_coordinates, samePoint_refl|].
  split; [apply snapToLine_no_fault|].
  split; [apply snapToLines_no_fault|].
  intros H. apply snapToLines_all_degenerate.
  eapply Forall_impl; [|exact H].
  intros l E. cbn beta in E. rewrite E. apply samePoint_refl.
Qed.

(** The point (4, 9) against the segment from (2, 2) to (2, 2), alone
    and in a list of two such segments. *)
Lemma snapToLine_zero_length_witness :
  snapToLine (mkPoint 4 9) (mkPoint 2 2) (mkPoint 2 2) 10 = Done None
  /\ snapToLines (mkPoint 4 9)
       [mkSegment (mkPoint 2 2) (mkPoint 2 2); mkSegment (mkPoint 5 1) (mkPoint 5 1)] 10
     = Done None.
Proof.
  destruct (snapToLine_zero_length (mkPoint 4 9) (mkPoint 2 2) (mkPoint 0 0)
              (mkPoint 1 1) 10
              [mkSegment (mkPoint 2 2) (mkPoint 2 2); mkSegment (mkPoint 5 1) (mkPoint 5 1)])
    as (H1 & _ & _ & H4).
  split; [exact H1|].
  apply H4. repeat constructor.
Defined.

End GeometryFacts.

(* ------------------------------------------------------------------ *)
(** ** World and screen coordinates *)

Module TransformFacts.
Import Geometry Transform.
Open Scope Q_scope.

Lemma zoom_in_range_positive (zoom : Q) :
  CadStore.zoomMin <= zoom -> 0 < zoom.
Proof.
  unfold CadStore.zoomMin. intros H.
  apply Qlt_le_trans with (1 # 10); [reflexivity | exact H].
Qed.

(** The draw functions place both ends of a line by [worldToScreen]. *)
Lemma drawLine_endpoints (p q panOffset : Point) (zoom : Q) :
  drawLineWithConstantWidth (px p) (py p) (px q) (py q) panOffset zoom
  = (worldToScreen p panOffset zoom, worldToScreen q panOffset zoom).
Proof. reflexivity. Qed.

(** C6. For every point, pan offset and zoom level between [zoomMin]
    and [zoomMax], mapping the point to the screen as the constant-width
    draw functions do, and back as [getMousePos] does, gives the point
    again, in exact arithmetic; so both ends of a drawn line are found
    again under the cursor. *)
Theorem screen_world_roundtrip (p q panOffset : Point) (zoom : Q) :
  CadStore.zoomMin <= zoom <= CadStore.zoomMax ->
  samePoint (screenToWorld (worldToScreen p panOffset zoom) panOffset zoom) p
  /\ samePoint
       (screenToWorld
          (fst (drawLineWithConstantWidth (px p) (py p) (px q) (py q) panOffset zoom))
          panOffset zoom) p
  /\ samePoint
       (screenToWorld
          (snd (drawLineWithConstantWidth (px p) (py p) (px q) (py q) panOffset zoom))
          panOffset zoom) q.
Proof.
  intros [Hlo _]. apply zoom_in_range_positive in Hlo.
  assert (NZ : ~ zoom == 0) by (intro E; rewrite E in Hlo; discriminate).
  rewrite drawLine_endpoints. cbn [fst snd].
  unfold samePoint, screenToWorld, worldToScreen. cbn [px py].
  repeat split; field; exact NZ.
Qed.

(** The point (3, -7/2) at zoom 5/2 with the pan offset (40, -12). *)
Lemma screen_world_roundtrip_witness :
  CadStore.zoomMin <= 5 # 2 <= CadStore.zoomMax
  /\ samePoint
      (screenToWorld
         (worldToScreen (mkPoint 3 (-7 # 2)) (mkPoint 40 (-12)) (5 # 2))
         (mkPoint 40 (-12)) (5 # 2))
      (mkPoint 3 (-7 # 2)).
Proof.
  assert (R : CadStore.zoomMin <= 5 # 2 <= CadStore.zoomMax)
    by (split; discriminate).
  split; [exact R|].
  exact (proj1 (screen_world_roundtrip (mkPoint 3 (-7 # 2)) (mkPoint 0 0)
                  (mkPoint 40 (-12)) R)).
Defined.

End TransformFacts.

(* ------------------------------------------------------------------ *)
(** ** The snap resolution and the handlers of the canvas *)

Module CanvasFacts.
Import Geometry GeometryFacts Transform Canvas Scenario.
Open Scope Q_scope.

(** C1. The code at a cursor within the tolerance of both a grid
    intersection and an endpoint, grid and point snapping both on: the
    cursor (1, 1) is within 10 of the grid intersection (0, 0) and of
    the endpoint (3, 1) of a line, and [getSnappedPosition] returns the
    endpoint, with type [endpoint]. *)
Lemma endpoint_snap_overrides_grid_snap :
  CadStore.snapToGrid lineScene = true
  /\ CadStore.snapToPoints lineScene = true
  /\ snapToTransformedGrid nearOrigin (CadStore.gridSize lineScene)
       (CadStore.panOffset lineScene) (CadStore.zoomLevel lineScene)
     = mkPoint 0 0
  /\ withinDistance nearOrigin (mkPoint 0 0) (CadStore.snapTolerance lineScene) = true
  /\ withinDistance nearOrigin (mkPoint 3 1) (CadStore.snapTolerance lineScene) = true
  /\ getSnappedPosition lineScene nearOrigin
     = mkSnapResult (mkPoint 3 1) (Some SnapEndpoint).
Proof.
  vm_compute. repeat split.
Qed.

(** C4, as stated, fails: with a circle centred at (-5, 0), the cursor
    (9, 0) resolves to the grid intersection (0, 0) as a grid snap, and
    resolving again from (0, 0) gives the centre (-5, 0). *)
Lemma grid_snap_not_idempotent_near_center :
  type (getSnappedPosition circleScene rightOfOrigin) = Some SnapGrid
  /\ position (getSnappedPosition circleScene rightOfOrigin) = mkPoint 0 0
  /\ position (getSnappedPosition circleScene
                 (position (getSnappedPosition circleScene rightOfOrigin)))
     = mkPoint (-5) 0
  /\ ~ samePoint
         (position (getSnappedPosition circleScene
                      (position (getSnappedPosition circleScene rightOfOrigin))))
         (position (getSnappedPosition circleScene rightOfOrigin)).
Proof.
  vm_compute. repeat split. intros [H _]. discriminate.
Qed.

Section Handlers.
Variable Raster : Type.
Variable paint : CadStore.Store Raster -> Raster.
Implicit Types (s : CadStore.Store Raster) (c : Component Raster).

(** When the result is a grid snap, its position is the grid
    intersection. *)
Lemma grid_type_position s (p : Point) :
  type (getSnappedPosition s p) = Some SnapGrid ->
  position (getSnappedPosition s p)
  = snapToTransformedGrid p (CadStore.gridSize s) (CadStore.panOffset s)
      (CadStore.zoomLevel s).
Proof.
  unfold getSnappedPosition.
  repeat match goal with
    | |- context [if ?b then _ else _] => destruct b
    | |- context [match ?x with Some _ => _ | None => _ end] => destruct x
    end; cbn [type position]; intros H; try discriminate H; reflexivity.
Qed.

(** Whatever the grid snap found, an endpoint within the tolerance is
    what [getSnappedPosition] returns when point snapping is on. *)
Remark endpoint_in_reach_wins s (p e : Point) :
  CadStore.snapToPoints s = true ->
  snapToPoints p (endpointCandidates s) (CadStore.snapTolerance s) = Some e ->
  getSnappedPosition s p = mkSnapResult e (Some SnapEndpoint).
Proof.
  intros Hp He. unfold getSnappedPosition. rewrite Hp, He.
  cbn [type negb andb]. rewrite andb_false_r. reflexivity.
Qed.

(** C4, amended. For a positive grid size and zoom level, when the
    grid snap is the matching category for [p] and, from the snapped
    position, no endpoint, midpoint, centre, corner or segment of a
    category that is switched on lies within the tolerance, resolving
    again from the snapped position returns that same position (with
    no snap type: a cursor already on a grid intersection is not
    reported as a grid match). *)
Theorem grid_snap_idempotent_when_unclaimed s (p : Point) :
  0 < CadStore.gridSize s ->
  0 < CadStore.zoomLevel s ->
  type (getSnappedPosition s p) = Some SnapGrid ->
  nothingElseInReach s (position (getSnappedPosition s p)) = true ->
  position (getSnappedPosition s (position (getSnappedPosition s p)))
  = position (getSnappedPosition s p)
  /\ type (getSnappedPosition s (position (getSnappedPosition s p))) = None.
Proof.
  intros Hg Hz Ht Hn.
  rewrite (grid_type_position _ _ Ht) in *. clear Ht.
  set (q := snapToTransformedGrid p (CadStore.gridSize s) (CadStore.panOffset s)
              (CadStore.zoomLevel s)) in *.
  unfold nothingElseInReach, outOfReach in Hn.
  unfold getSnappedPosition.
  assert (I : snapToTransformedGrid q (CadStore.gridSize s) (CadStore.panOffset s)
                (CadStore.zoomLevel s) = q)
    by (apply snapToTransformedGrid_idempotent; assumption).
  rewrite I, !Qeq_bool_refl. cbn [negb orb].
  destruct (CadStore.snapToGrid s), (CadStore.snapToPoints s),
           (CadStore.snapToLines s);
    cbn [negb orb andb] in Hn |- *;
    repeat match type of Hn with
      | context [match ?x with Some _ => _ | None => _ end] =>
          destruct x; cbn [negb orb andb] in Hn |- *; try discriminate Hn
      end;
    cbn [type position negb andb]; split; reflexivity.
Qed.

(** [setZoom] keeps a level that is within the bounds. *)
Lemma clamp_in_range (x : Q) :
  CadStore.zoomMin <= x <= CadStore.zoomMax ->
  CadStore.js_max CadStore.zoomMin (CadStore.js_min x CadStore.zoomMax) == x.
Proof.
  intros [Hlo Hhi]. unfold CadStore.js_max, CadStore.js_min.
  rewrite (Q.min_l _ _ Hhi). apply Q.max_r. exact Hlo.
Qed.

(** A right-click runs the three blocks in turn and clears the prompt. *)
Lemma onClick_right_click c (event : MouseEvent) :
  button event = 2%Z ->
  onClick paint event c
  = clearCommand (cancelDimension paint (cancelDrag paint (completePolyline c))).
Proof.
  intros B. unfold onClick. rewrite B. reflexivity.
Qed.

(** [handleEscape] runs the last two blocks and closes the input dialog. *)
Lemma handleEscape_blocks c :
  handleEscape paint c
  = if CadStore.showInputDialog (store (cancelDimension paint (cancelDrag paint c)))
    then onStore (@CadStore.cancelInput Raster) (cancelDimension paint (cancelDrag paint c))
    else cancelDimension paint (cancelDrag paint c).
Proof. reflexivity. Qed.

(** What each block leaves. *)
Lemma cancelDrag_spec c :
  startPoint (cancelDrag paint c) = None
  /\ store (cancelDrag paint c) = store c.
Proof.
  unfold cancelDrag. destruct c as [s [sp|] cc cb ci cv al sh]; split; reflexivity.
Qed.

Lemma cancelDimension_spec c :
  startPoint (cancelDimension paint c) = startPoint c
  /\ CadStore.dimensionStart (store (cancelDimension paint c)) = None
  /\ CadStore.dimensionSecondPoint (store (cancelDimension paint c)) = None
  /\ CadStore.dimensionLinePosition (store (cancelDimension paint c)) = None
  /\ CadStore.vectorObjects (store (cancelDimension paint c))
     = CadStore.vectorObjects (store c)
  /\ CadStore.hist (store (cancelDimension paint c)) = CadStore.hist (store c)
  /\ CadStore.polylinePoints (store (cancelDimension paint c))
     = CadStore.polylinePoints (store c).
Proof.
  unfold cancelDimension.
  destruct c as [s sp cc cb ci cv al sh].
  destruct s as [zl tool lw lc gs sg stg stp stl tol drawing pts ds objs ui sid icb h pan d2 dl].
  cbn [store CadStore.dimensionStart CadStore.dimensionSecondPoint
       CadStore.dimensionLinePosition].
  destruct ds, d2, dl; cbn; repeat split; reflexivity.
Qed.

Lemma completePolyline_spec c :
  startPoint (completePolyline c) = startPoint c
  /\ (completesPolyline c = false ->
      nothingCommitted c (completePolyline c)
      /\ CadStore.polylinePoints (store (completePolyline c))
         = CadStore.polylinePoints (store c))
  /\ (completesPolyline c = true ->
      CadStore.vectorObjects (store (completePolyline c))
      = CadStore.vectorObjects (store c)
          ++ [Polyline (CadStore.polylinePoints (store c))
                (CadStore.lineColor (store c)) (CadStore.lineWidth (store c))]
      /\ CadStore.polylinePoints (store (completePolyline c)) = []).
Proof.
  unfold completesPolyline, nothingCommitted, completePolyline.
  destruct c as [s sp cc cb ci cv al sh].
  destruct s as [zl tool lw lc gs sg stg stp stl tol drawing pts ds objs ui sid icb h pan d2 dl].
  cbn [store CadStore.currentTool CadStore.isDrawing].
  destruct tool, drawing; cbn -[Z.ltb JsArray.len History.saveState];
    try (destruct (1 <? JsArray.len pts)%Z; cbn -[History.saveState]);
    repeat split; intros; try reflexivity; try discriminate.
Qed.

Lemma cancelInput_spec c :
  startPoint (onStore (@CadStore.cancelInput Raster) c) = startPoint c
  /\ CadStore.dimensionStart (store (onStore (@CadStore.cancelInput Raster) c))
     = CadStore.dimensionStart (store c)
  /\ CadStore.dimensionSecondPoint (store (onStore (@CadStore.cancelInput Raster) c))
     = CadStore.dimensionSecondPoint (store c)
  /\ CadStore.dimensionLinePosition (store (onStore (@CadStore.cancelInput Raster) c))
     = CadStore.dimensionLinePosition (store c)
  /\ CadStore.vectorObjects (store (onStore (@CadStore.cancelInput Raster) c))
     = CadStore.vectorObjects (store c)
  /\ CadStore.hist (store (onStore (@CadStore.cancelInput Raster) c))
     = CadStore.hist (store c)
  /\ CadStore.polylinePoints (store (onStore (@CadStore.cancelInput Raster) c))
     = CadStore.polylinePoints (store c).
Proof.
  destruct c as [s sp cc cb ci cv al sh]. repeat split; reflexivity.
Qed.

(** The zoom level a wheel event asks for, from a zoom level in
    range, is in range. *)
Lemma wheel_zoom_in_range (z : Q) (zoomIn : bool) :
  CadStore.zoomMin <= z <= CadStore.zoomMax ->
  CadStore.zoomMin
  <= (if zoomIn
      then CadStore.js_min (z * (12 # 10)) CadStore.zoomMax
      else CadStore.js_max (z / (12 # 10)) CadStore.zoomMin)
  <= CadStore.zoomMax.
Proof.
  unfold CadStore.zoomMin, CadStore.zoomMax, CadStore.js_min, CadStore.js_max.
  intros [Hlo Hhi].
  assert (D : z / (12 # 10) == z * (10 # 12)) by (field; discriminate).
  destruct zoomIn.
  - destruct (Q.min_spec (z * (12 # 10)) 10) as [[H E]|[H E]]; rewrite E; lra.
  - destruct (Q.max_spec (z / (12 # 10)) (1 # 10)) as [[H E]|[H E]]; rewrite E;
      rewrite ?D in *; lra.
Qed.

(** C5. For every wheel event, on a store whose zoom level lies
    between [zoomMin] and [zoomMax]: the world coordinate under the
    cursor computed with the pan offset and zoom level that [onWheel]
    leaves equals the one computed with those it found, whether or
    not the new zoom level was cut at a bound; and the new zoom level
    lies between the bounds again. *)
Theorem zoom_keeps_world_under_cursor c (event : WheelEvent) :
  CadStore.zoomMin <= CadStore.zoomLevel (store c) <= CadStore.zoomMax ->
  samePoint
    (screenToWorld (mkPoint (mouseX event) (mouseY event))
       (CadStore.panOffset (store (onWheel paint event c)))
       (CadStore.zoomLevel (store (onWheel paint event c))))
    (screenToWorld (mkPoint (mouseX event) (mouseY event))
       (CadStore.panOffset (store c)) (CadStore.zoomLevel (store c)))
  /\ CadStore.zoomMin <= CadStore.zoomLevel (store (onWheel paint event c))
     <= CadStore.zoomMax.
Proof.
  intros R.
  pose proof (wheel_zoom_in_range (negb (Qle_bool 0 (deltaY event))) R) as N.
  pose proof (clamp_in_range N) as C.
  unfold onWheel, redrawCanvas, onStore, CadStore.setPanOffset, CadStore.setZoom.
  cbn [store set_store set_canvas CadStore.panOffset CadStore.zoomLevel
       CadStore.set_panOffset CadStore.set_zoomLevel].
  set (z := CadStore.zoomLevel (store c)) in *.
  set (nz := if negb (Qle_bool 0 (deltaY event)) then _ else _) in *.
  assert (Hz : ~ z == 0).
  { destruct R as [R _]. apply TransformFacts.zoom_in_range_positive in R.
    intro E. rewrite E in R. discriminate. }
  assert (Hnz : ~ nz == 0).
  { destruct N as [N _]. apply TransformFacts.zoom_in_range_positive in N.
    intro E. rewrite E in N. discriminate. }
  split.
  - unfold samePoint, screenToWorld. cbn [px py].
    rewrite C. split; field; split; assumption.
  - rewrite C. exact N.
Qed.

(** C2, amended. A right-click ([onClick] with button 2) clears the
    drag start, the three dimension fields and the pending prompt;
    unless it finds a polyline to complete it adds no object, pushes no
    snapshot and leaves the polyline points as they are; when it finds
    one (polyline tool, [isDrawing], more than one point) it adds that
    polyline to the scene and empties the points.  [handleEscape]
    clears the drag start and the three dimension fields, adds no
    object, pushes no snapshot and leaves the polyline points as they
    are. *)
Theorem cancel_clears_without_commit c (event : MouseEvent) :
  button event = 2%Z ->
  constructionCleared (onClick paint event c)
  /\ currentCommand (onClick paint event c) = None
  /\ commandCallback (onClick paint event c) = None
  /\ (completesPolyline c = false ->
      nothingCommitted c (onClick paint event c)
      /\ CadStore.polylinePoints (store (onClick paint event c))
         = CadStore.polylinePoints (store c))
  /\ (completesPolyline c = true ->
      CadStore.vectorObjects (store (onClick paint event c))
      = CadStore.vectorObjects (store c)
          ++ [Polyline (CadStore.polylinePoints (store c))
                (CadStore.lineColor (store c)) (CadStore.lineWidth (store c))]
      /\ CadStore.polylinePoints (store (onClick paint event c)) = [])
  /\ constructionCleared (handleEscape paint c)
  /\ nothingCommitted c (handleEscape paint c)
  /\ CadStore.polylinePoints (store (handleEscape paint c))
     = CadStore.polylinePoints (store c).
Proof.
  intros B. rewrite onClick_right_click by exact B. rewrite handleEscape_blocks.
  unfold constructionCleared, nothingCommitted.
  set (p := completePolyline c).
  destruct (completePolyline_spec c) as (Ps & Pn & Pc). fold p in Ps, Pn, Pc.
  destruct (cancelDrag_spec p) as (Ds & Dst).
  destruct (cancelDimension_spec (cancelDrag paint p))
    as (Ms & M1 & M2 & M3 & Mo & Mh & Mp).
  destruct (cancelDrag_spec c) as (Es & Est).
  destruct (cancelDimension_spec (cancelDrag paint c))
    as (Ns & N1 & N2 & N3 & No & Nh & Np).
  destruct (cancelInput_spec (cancelDimension paint (cancelDrag paint c)))
    as (Is & I1 & I2 & I3 & Io & Ih & Ip).
  assert (R : forall x : Component Raster,
             startPoint (clearCommand x) = startPoint x
             /\ store (clearCommand x) = store x
             /\ currentCommand (clearCommand x) = None
             /\ commandCallback (clearCommand x) = None)
    by (intros [s sp cc cb ci cv al sh]; repeat split; reflexivity).
  destruct (R (cancelDimension paint (cancelDrag paint p))) as (Rs & Rst & Rc & Rb).
  rewrite Rs, Rst, Rc, Rb.
  split; [repeat split; congruence|].
  split; [reflexivity|]. split; [reflexivity|].
  split.
  { intros H. destruct (Pn H) as [[Po Ph] Pp]. unfold nothingCommitted in *.
    repeat split; congruence. }
  split.
  { intros H. destruct (Pc H) as [Po Pp]. split; congruence. }
  destruct (CadStore.showInputDialog (store (cancelDimension paint (cancelDrag paint c))));
    (split; [repeat split; congruence | split; [split; congruence | congruence]]).
Qed.


(** Aside: a positive width opens the height prompt from inside
    the width continuation, and [submitCommand] then clears it. *)
Remark accepted_width_drops_height_prompt c (command : Command) (inches : Q) :
  currentCommand c = Some command ->
  commandCallback c = Some OnWidth ->
  commandInput c = Number inches ->
  0 < inches ->
  exists c',
    submitCommand c = Returned c'
    /\ currentCommand c' = None
    /\ commandCallback c' = None
    /\ store c' = store c.
Proof.
  intros Hc Hb Hi Hlt.
  assert (P : Qle_bool (inches * 96) 0 = false).
  { destruct (Qle_bool (inches * 96) 0) eqn:E; [|reflexivity].
    apply Qle_bool_iff in E. lra. }
  unfold submitCommand, runCallback. rewrite Hc, Hb, Hi, P.
  eexists. split; [reflexivity|].
  destruct c as [s sp cc cb ci cv al sh]. repeat split; reflexivity.
Qed.

(** Aside: [handleKeyDown] looks up [event.key.toLowerCase()], and
    the table spells the key ["Escape"], so pressing Escape on the
    canvas runs nothing. *)
Remark escape_key_is_not_dispatched c (ctrl : bool) :
  handleKeyDown paint (mkKeyEvent "Escape" ctrl) c = c.
Proof. destruct ctrl; reflexivity. Qed.

End Handlers.

(** C2, as stated, fails.  With the polyline tool and two points placed,
    neither a right-click nor [handleEscape] clears the points; and with
    [isDrawing] set as well, a right-click adds the polyline to the
    scene. *)
Lemma right_click_completes_polyline :
  inProgress pausedPolyline
  /\ button rightClick = 2%Z
  /\ CadStore.polylinePoints (store (onClick blindPaint rightClick pausedPolyline))
     = [mkPoint 0 0; mkPoint 20 0]
  /\ CadStore.polylinePoints (store (handleEscape blindPaint pausedPolyline))
     = [mkPoint 0 0; mkPoint 20 0]
  /\ inProgress drawingPolyline
  /\ CadStore.vectorObjects (store (onClick blindPaint rightClick drawingPolyline))
     = [Polyline [mkPoint 0 0; mkPoint 20 0] black 2]
  /\ CadStore.vectorObjects (store (onClick blindPaint rightClick drawingPolyline))
     <> CadStore.vectorObjects (store drawingPolyline)
  /\ ~ nothingCommitted drawingPolyline (onClick blindPaint rightClick drawingPolyline).
Proof.
  split; [left; discriminate|].
  split; [reflexivity|].
  split; [reflexivity|].
  split; [reflexivity|].
  split; [left; discriminate|].
  split; [reflexivity|].
  split; [discriminate|].
  intros [H _]. discriminate H.
Qed.

(** A right-click after the first click of the dimension tool. *)
Lemma cancel_clears_without_commit_witness :
  button rightClick = 2%Z
  /\ constructionCleared (onClick blindPaint rightClick dimensionStarted)
  /\ nothingCommitted dimensionStarted (onClick blindPaint rightClick dimensionStarted).
Proof.
  assert (B : button rightClick = 2%Z) by reflexivity.
  destruct (cancel_clears_without_commit blindPaint dimensionStarted rightClick B)
    as (Hc & _ & _ & Hn & _).
  split; [exact B|]. split; [exact Hc|]. apply Hn. reflexivity.
Defined.



(** The cursor (9, 0) with one line far away. *)
Lemma grid_snap_idempotent_when_unclaimed_witness :
  type (getSnappedPosition farLineScene rightOfOrigin) = Some SnapGrid
  /\ position (getSnappedPosition farLineScene
                 (position (getSnappedPosition farLineScene rightOfOrigin)))
     = position (getSnappedPosition farLineScene rightOfOrigin).
Proof.
  assert (T : type (getSnappedPosition farLineScene rightOfOrigin) = Some SnapGrid)
    by reflexivity.
  split; [exact T|].
  apply (@grid_snap_idempotent_when_unclaimed Blind farLineScene rightOfOrigin);
    [reflexivity | reflexivity | exact T | reflexivity].
Defined.

(** A wheel turn towards the user at (100, 50) on the fresh store. *)
Lemma zoom_keeps_world_under_cursor_witness :
  CadStore.zoomMin <= CadStore.zoomLevel (sceneOf []) <= CadStore.zoomMax
  /\ samePoint
       (screenToWorld (mkPoint 100 50)
          (CadStore.panOffset
             (store (onWheel blindPaint wheelIn (componentOf (sceneOf []) None None None Blank))))
          (CadStore.zoomLevel
             (store (onWheel blindPaint wheelIn (componentOf (sceneOf []) None None None Blank)))))
       (screenToWorld (mkPoint 100 50)
          (CadStore.panOffset (sceneOf [])) (CadStore.zoomLevel (sceneOf []))).
Proof.
  assert (R : CadStore.zoomMin <= CadStore.zoomLevel (sceneOf []) <= CadStore.zoomMax)
    by (split; discriminate).
  split; [exact R|].
  exact (proj1 (@zoom_keeps_world_under_cursor Blind blindPaint
                  (componentOf (sceneOf []) None None None Blank) wheelIn R)).
Defined.

End CanvasFacts.

(* ------------------------------------------------------------------ *)
(** * More on the undo history *)

Module HistoryMore.
Import JsArray JsArrayFacts History HistoryFacts.

Section Facts.
Variable A : Type.
Implicit Types (s : State A) (x : A).

(** [slice(0, e)] for [e >= 0] is the prefix of [e] elements. *)
Lemma slice0_firstn (h : list A) (e : Z) :
  (0 <= e)%Z -> slice0 h e = firstn (Z.to_nat e) h.
Proof.
  intros H. unfold slice0.
  assert (E : (e <? 0)%Z = false) by (apply Z.ltb_ge; lia).
  rewrite E. unfold len.
  destruct (Z.le_gt_cases e (Z.of_nat (length h))) as [L | G].
  - rewrite Z.min_l by lia. reflexivity.
  - rewrite Z.min_r by lia. rewrite Nat2Z.id.
    rewrite firstn_all. symmetry. apply firstn_all2. lia.
Qed.

(** With the index on the last entry, [saveState] appends, after
    dropping the oldest entry of a full history. *)
Lemma saveState_at_end x s :
  historyIndex s = (len (history s) - 1)%Z ->
  ((len (history s) < MAX_HISTORY_SIZE)%Z ->
     history (saveState x s) = history s ++ [x])
  /\ ((MAX_HISTORY_SIZE <= len (history s))%Z ->
      history (saveState x s) = tl (history s) ++ [x]).
Proof.
  intros E. pose proof (len_nonneg (history s)) as N. split; intros L; unfold saveState.
  - assert (C : (MAX_HISTORY_SIZE <=? len (history s))%Z = false)
      by (apply Z.leb_gt; exact L).
    rewrite C. cbn [history]. unfold push. rewrite slice0_firstn by lia. f_equal.
    rewrite E. replace (len (history s) - 1 + 1)%Z with (len (history s)) by lia.
    unfold len. rewrite Nat2Z.id. apply firstn_all.
  - assert (C : (MAX_HISTORY_SIZE <=? len (history s))%Z = true)
      by (apply Z.leb_le; exact L).
    rewrite C. cbn [history historyIndex]. unfold push, shift.
    rewrite slice0_firstn by lia. f_equal. rewrite E.
    unfold MAX_HISTORY_SIZE in L.
    replace (Z.max 0 (len (history s) - 1 - 1) + 1)%Z with (len (history s) - 1)%Z by lia.
    apply firstn_all2. unfold len.
    destruct (history s) as [|a t]; cbn [length tl]; lia.
Qed.

(** Two snapshots saved one after the other: [undo] then returns the
    first of them. *)
Lemma undo_after_two_saves (a b : A) s :
  index_ok s ->
  fst (undo (saveState b (saveState a s))) = JsValue a
  /\ historyIndex (snd (undo (saveState b (saveState a s))))
     = (len (history (saveState b (saveState a s))) - 2)%Z.
Proof.
  intros I.
  destruct (saveState_shape a I) as (k1 & H1 & I1 & _ & _).
  pose proof (wellFormed_index_ok (saveState_wellFormed a I)) as W1.
  destruct (saveState_shape b W1) as (k2 & H2 & I2 & _ & _).
  assert (E1 : historyIndex (saveState a s) = (len (history (saveState a s)) - 1)%Z)
    by (rewrite H1, I1, len_push; lia).
  destruct (saveState_at_end b (saveState a s) E1) as (Hnf & Hf).
  pose proof (len_nonneg k1) as N1.
  assert (H2' : history (saveState b (saveState a s)) = push (push k1 a) b
                \/ history (saveState b (saveState a s)) = push (push (tl k1) a) b
                   /\ (1 <= len k1)%Z).
  { destruct (Z.lt_ge_cases (len (history (saveState a s))) MAX_HISTORY_SIZE) as [L | G].
    - left. rewrite (Hnf L), H1. reflexivity.
    - right. rewrite (Hf G), H1. unfold MAX_HISTORY_SIZE in G.
      rewrite H1, len_push in G. split; [|lia].
      unfold push. destruct k1 as [|x k1]; [cbn in G; lia | reflexivity]. }
  unfold undo, canUndo.
  assert (L2 : len (history (saveState b (saveState a s))) = (len k2 + 1)%Z)
    by (rewrite H2; apply len_push).
  destruct H2' as [E | [E Hk]].
  - assert (K : len k2 = (len k1 + 1)%Z).
    { rewrite E in L2. rewrite !len_push in L2. lia. }
    assert (C : (0 <? historyIndex (saveState b (saveState a s)))%Z = true)
      by (apply Z.ltb_lt; lia).
    rewrite C. cbn [fst snd historyIndex]. rewrite I2, E, K.
    replace (len k1 + 1 - 1)%Z with (len k1) by lia.
    split; [|rewrite !len_push; lia].
    unfold push, get.
    assert (Z0 : (len k1 <? 0)%Z = false) by (apply Z.ltb_ge; lia).
    rewrite Z0. unfold len. rewrite Nat2Z.id.
    rewrite nth_error_app1 by (rewrite length_app; cbn; lia).
    rewrite nth_error_app2, Nat.sub_diag by lia. reflexivity.
  - assert (T : len (tl k1) = (len k1 - 1)%Z).
    { unfold len in *. destruct k1; cbn [length tl] in *; lia. }
    assert (K : len k2 = len k1).
    { rewrite E in L2. rewrite !len_push in L2. lia. }
    assert (C : (0 <? historyIndex (saveState b (saveState a s)))%Z = true)
      by (apply Z.ltb_lt; lia).
    rewrite C. cbn [fst snd historyIndex]. rewrite I2, E, K.
    split; [|rewrite !len_push; lia].
    replace (len k1 - 1)%Z with (len (tl k1)) by lia.
    unfold push, get. pose proof (len_nonneg (tl k1)) as N.
    assert (Z0 : (len (tl k1) <? 0)%Z = false) by (apply Z.ltb_ge; lia).
    rewrite Z0. unfold len. rewrite Nat2Z.id.
    rewrite nth_error_app1 by (rewrite length_app; cbn; lia).
    rewrite nth_error_app2, Nat.sub_diag by lia. reflexivity.
Qed.

(** X1. [undo] and [redo] are inverse to each other wherever the first
    of the two moves the index: in a well-formed history with an entry
    before the index, [undo] followed by [redo] gives the state again
    and returns the entry at the index; with an entry after the index,
    so does [redo] followed by [undo]. *)
Theorem undo_redo_round_trip s :
  wellFormed s ->
  ((0 < historyIndex s)%Z ->
     snd (redo (snd (undo s))) = s
     /\ fst (redo (snd (undo s))) = get (history s) (historyIndex s))
  /\ ((historyIndex s < len (history s) - 1)%Z ->
     snd (undo (snd (redo s))) = s
     /\ fst (undo (snd (redo s))) = get (history s) (historyIndex s)).
Proof.
  intros W. destruct s as [h i]. unfold wellFormed in W.
  cbn [history historyIndex] in *.
  assert (W' : (i = -1 /\ len h = 0 \/ 0 <= i < len h)%Z).
  { destruct W as [[E I] | W]; [left; rewrite E; split; [exact I | reflexivity] | right; exact W]. }
  clear W.
  split; intros H.
  - unfold undo, canUndo. cbn [history historyIndex].
    assert (C : (0 <? i)%Z = true) by (apply Z.ltb_lt; lia).
    rewrite C. cbn [snd]. unfold redo, canRedo. cbn [history historyIndex].
    assert (D : (i - 1 <? len h - 1)%Z = true) by (apply Z.ltb_lt; lia).
    rewrite D. cbn [fst snd]. replace (i - 1 + 1)%Z with i by lia.
    split; reflexivity.
  - unfold redo, canRedo. cbn [history historyIndex].
    assert (C : (i <? len h - 1)%Z = true) by (apply Z.ltb_lt; lia).
    rewrite C. cbn [snd]. unfold undo, canUndo. cbn [history historyIndex].
    assert (D : (0 <? i + 1)%Z = true) by (apply Z.ltb_lt; lia).
    rewrite D. cbn [fst snd]. replace (i + 1 - 1)%Z with i by lia.
    split; reflexivity.
Qed.

(** X2. What [saveState] keeps of the history.  Below the capacity it
    keeps the entries up to the index and drops the ones after it (the
    redo branch); at the capacity it first drops the oldest entry, and
    then keeps the entries up to the index moved back by one.  With
    the index on the last entry nothing but the oldest entry of a full
    history is lost. *)
Theorem saveState_history x s :
  index_ok s ->
  ((len (history s) < MAX_HISTORY_SIZE)%Z ->
     history (saveState x s)
     = firstn (Z.to_nat (historyIndex s + 1)) (history s) ++ [x])
  /\ ((len (history s) < MAX_HISTORY_SIZE)%Z ->
      historyIndex s = (len (history s) - 1)%Z ->
      history (saveState x s) = history s ++ [x])
  /\ ((MAX_HISTORY_SIZE <= len (history s))%Z ->
      history (saveState x s)
      = firstn (Z.to_nat (Z.max 0 (historyIndex s - 1) + 1)) (tl (history s)) ++ [x])
  /\ ((MAX_HISTORY_SIZE <= len (history s))%Z ->
      historyIndex s = (len (history s) - 1)%Z ->
      history (saveState x s) = tl (history s) ++ [x]).
Proof.
  unfold index_ok. intros W.
  assert (NF : (len (history s) < MAX_HISTORY_SIZE)%Z ->
               history (saveState x s)
               = firstn (Z.to_nat (historyIndex s + 1)) (history s) ++ [x]).
  { intros L. unfold saveState.
    assert (C : (MAX_HISTORY_SIZE <=? len (history s))%Z = false)
      by (apply Z.leb_gt; exact L).
    rewrite C. cbn [history]. unfold push. rewrite slice0_firstn by lia. reflexivity. }
  assert (F : (MAX_HISTORY_SIZE <= len (history s))%Z ->
              history (saveState x s)
              = firstn (Z.to_nat (Z.max 0 (historyIndex s - 1) + 1)) (tl (history s))
                  ++ [x]).
  { intros L. unfold saveState.
    assert (C : (MAX_HISTORY_SIZE <=? len (history s))%Z = true)
      by (apply Z.leb_le; exact L).
    rewrite C. cbn [history historyIndex]. unfold push, shift.
    rewrite slice0_firstn by lia. reflexivity. }
  split; [exact NF|]. split; [|split; [exact F|]].
  - intros L E. rewrite (NF L), E. f_equal.
    replace (len (history s) - 1 + 1)%Z with (len (history s)) by lia.
    unfold len. rewrite Nat2Z.id. apply firstn_all.
  - intros L E. rewrite (F L), E. f_equal.
    unfold MAX_HISTORY_SIZE in L.
    replace (Z.max 0 (len (history s) - 1 - 1) + 1)%Z with (len (history s) - 1)%Z by lia.
    apply firstn_all2. unfold len.
    destruct (history s) as [|a t]; cbn [length tl]; lia.
Qed.
End Facts.

(** In the history 1, 2, 3 with the index on 2, [undo] then [redo] and
    [redo] then [undo] both give the history back. *)
Lemma undo_redo_round_trip_witness :
  wellFormed Samples.midHistory
  /\ snd (redo (snd (undo Samples.midHistory))) = Samples.midHistory
  /\ snd (undo (snd (redo Samples.midHistory))) = Samples.midHistory.
Proof.
  assert (W : wellFormed Samples.midHistory) by (right; cbn; lia).
  split; [exact W|].
  destruct (undo_redo_round_trip W) as [U R].
  split; [apply U; cbn; lia | apply R; cbn; lia].
Defined.

(** Saving 9 in the history 1, 2, 3 with the index on 2 drops 3. *)
Lemma saveState_history_witness :
  index_ok Samples.midHistory
  /\ history (saveState 9%Z Samples.midHistory) = [1; 2; 9]%Z.
Proof.
  assert (I : index_ok Samples.midHistory) by (unfold index_ok; cbn; lia).
  split; [exact I|].
  destruct (saveState_history 9%Z I) as [NF _].
  apply NF. cbn. reflexivity.
Defined.

End HistoryMore.

(* ------------------------------------------------------------------ *)
(** * The store actions *)

Module SpliceFacts.
Import JsArray JsArrayFacts.
Section Facts.
Variable A : Type.

(** Removing the element just pushed, by its index or by [-1]. *)
Lemma splice1_last (l : list A) (x : A) :
  JsArrayMore.splice1 (l ++ [x]) (len l) = l
  /\ JsArrayMore.splice1 (l ++ [x]) (-1) = l.
Proof.
  unfold JsArrayMore.splice1.
  assert (L : len (l ++ [x]) = (len l + 1)%Z)
    by (unfold len; rewrite length_app; cbn [length]; lia).
  pose proof (len_nonneg l) as N.
  assert (P : firstn (Z.to_nat (len l)) (l ++ [x])
              ++ skipn (Z.to_nat (len l) + 1) (l ++ [x]) = l).
  { unfold len. rewrite Nat2Z.id.
    rewrite firstn_app, Nat.sub_diag, firstn_all. cbn [firstn].
    rewrite app_nil_r, skipn_all2; [apply app_nil_r|].
    rewrite length_app. cbn [length]. lia. }
  split.
  - assert (E : (len l <? 0)%Z = false) by (apply Z.ltb_ge; lia).
    rewrite E, L, Z.min_l by lia. exact P.
  - cbn [Z.ltb Z.compare]. rewrite L.
    replace (Z.max (len l + 1 + -1) 0) with (len l) by lia. exact P.
Qed.

(** An index at or past the length removes nothing. *)
Lemma splice1_beyond (l : list A) (i : Z) :
  (len l <= i)%Z -> JsArrayMore.splice1 l i = l.
Proof.
  intros H. pose proof (len_nonneg l) as N. unfold JsArrayMore.splice1.
  assert (E : (i <? 0)%Z = false) by (apply Z.ltb_ge; lia).
  rewrite E, Z.min_r by lia. unfold len. rewrite Nat2Z.id.
  rewrite firstn_all, skipn_all2 by lia. apply app_nil_r.
Qed.

(** An index of the array removes the element there. *)
Lemma splice1_inside (l : list A) (i : Z) :
  (0 <= i < len l)%Z ->
  JsArrayMore.splice1 l i = firstn (Z.to_nat i) l ++ skipn (S (Z.to_nat i)) l
  /\ len (JsArrayMore.splice1 l i) = (len l - 1)%Z.
Proof.
  intros H. unfold JsArrayMore.splice1.
  assert (E : (i <? 0)%Z = false) by (apply Z.ltb_ge; lia).
  rewrite E, Z.min_l by lia. rewrite Nat.add_1_r. split; [reflexivity|].
  unfold len in *. rewrite length_app, length_firstn, length_skipn. lia.
Qed.

End Facts.
End SpliceFacts.

Module StoreFacts.
Import Geometry JsArray JsArrayFacts StoreActions.
Open Scope Q_scope.

Section Facts.
Variable A : Type.
Implicit Types (s : CadStore.Store A).

(** The range test of a setter, as two inequalities. *)
Lemma bounds_of_test (lo hi v : Q) :
  Qle_bool lo v && Qle_bool v hi = true -> lo <= v <= hi.
Proof.
  intros H. apply andb_true_iff in H. destruct H as [H1 H2].
  split; apply Qle_bool_iff; assumption.
Qed.

(** The store as created satisfies the invariant. *)
Lemma fresh_invariant : storeInvariant (@CadStore.fresh A).
Proof.
  unfold storeInvariant, settingsInRange, zoomInRange. cbn.
  repeat split; try discriminate. left. split; reflexivity.
Qed.

(** [setZoom] clamps into the zoom range. *)
Lemma clamp_bounds (level : Q) :
  CadStore.zoomMin
  <= CadStore.js_max CadStore.zoomMin (CadStore.js_min level CadStore.zoomMax)
  <= CadStore.zoomMax.
Proof.
  unfold CadStore.js_max, CadStore.js_min. split.
  - apply Q.le_max_l.
  - apply Q.max_lub; [discriminate | apply Q.le_min_r].
Qed.

(** Every action keeps the invariant. *)
Lemma runAction_invariant (a : StoreAction A) s :
  storeInvariant s -> storeInvariant (runAction a s).
Proof.
  unfold storeInvariant, settingsInRange, zoomInRange.
  intros (S & Z & W & B).
  destruct s as [zl tool lw lc gs sg stg stp stl tol drawing pts ds objs ui sid icb h pan d2 dl].
  cbn [CadStore.lineWidth CadStore.gridSize CadStore.snapTolerance CadStore.zoomLevel
       CadStore.hist] in *.
  destruct a; cbn [runAction];
    try (destruct tool0);
    try (cbn; repeat split; solve [apply S | apply Z | exact W | exact B]).
  - (* setLineWidth *)
    unfold setLineWidth. destruct (Qle_bool 1 width && Qle_bool width 20) eqn:T;
      cbn; [apply bounds_of_test in T|]; repeat split;
      solve [apply S | apply Z | exact W | exact B | apply T].
  - unfold setGridSize. destruct (Qle_bool 5 size && Qle_bool size 100) eqn:T;
      cbn; [apply bounds_of_test in T|]; repeat split;
      solve [apply S | apply Z | exact W | exact B | apply T].
  - unfold setSnapTolerance.
    destruct (Qle_bool 1 tolerance && Qle_bool tolerance 50) eqn:T;
      cbn; [apply bounds_of_test in T|]; repeat split;
      solve [apply S | apply Z | exact W | exact B | apply T].
  - (* saveState *)
    cbn [CadStore.saveState CadStore.set_hist CadStore.hist CadStore.lineWidth
         CadStore.gridSize CadStore.snapTolerance CadStore.zoomLevel].
    pose proof (HistoryFacts.wellFormed_index_ok W) as I.
    destruct (HistoryFacts.saveState_shape imageData I) as (kept & Hh & _ & Hle & Hl).
    split; [exact S|]. split; [exact Z|].
    split; [apply HistoryFacts.saveState_wellFormed; exact I|].
    rewrite Hh, len_push. lia.
  - (* undo *)
    unfold CadStore.undo. cbn [CadStore.hist].
    pose proof (HistoryFacts.undo_wellFormed W) as U.
    assert (E : History.history (snd (History.undo h)) = History.history h)
      by (unfold History.undo; destruct (History.canUndo h); reflexivity).
    destruct (History.undo h) as [r h']. cbn [snd] in *. cbn.
    rewrite E. repeat split; solve [apply S | apply Z | exact U | exact B].
  - unfold CadStore.redo. cbn [CadStore.hist].
    pose proof (HistoryFacts.redo_wellFormed W) as U.
    assert (E : History.history (snd (History.redo h)) = History.history h)
      by (unfold History.redo; destruct (History.canRedo h); reflexivity).
    destruct (History.redo h) as [r h']. cbn [snd] in *. cbn.
    rewrite E. repeat split; solve [apply S | apply Z | exact U | exact B].
  - (* clearHistory *)
    cbn. repeat split; try solve [apply S | apply Z]; try discriminate.
    left. split; reflexivity.
  - (* zoomIn *)
    cbn. repeat split; try solve [apply S | exact W | exact B];
      apply (CanvasFacts.wheel_zoom_in_range true Z).
  - cbn. repeat split; try solve [apply S | exact W | exact B];
      apply (CanvasFacts.wheel_zoom_in_range false Z).
  - cbn. repeat split; try solve [apply S | exact W | exact B];
      apply clamp_bounds.
  - cbn. repeat split; try solve [apply S | exact W | exact B]; discriminate.
Qed.

(** X3. Whatever actions are run on the store as created, in whatever
    order and with whatever arguments, the line width stays within 1
    and 20, the grid size within 5 and 100, the snap tolerance within
    1 and 50 and the zoom level within [zoomMin] and [zoomMax], and the
    history stays well formed with at most [MAX_HISTORY_SIZE] entries;
    so the grid size and the zoom level, by which the grid snap
    divides, stay positive. *)
Theorem store_invariant (actions : list (StoreAction A)) :
  storeInvariant (runActions actions CadStore.fresh)
  /\ 0 < CadStore.gridSize (runActions actions CadStore.fresh)
  /\ 0 < CadStore.zoomLevel (runActions actions CadStore.fresh).
Proof.
  assert (G : forall s, storeInvariant s -> storeInvariant (runActions actions s)).
  { unfold runActions. induction actions as [|a rest IH]; intros s H; cbn [fold_left].
    - exact H.
    - apply IH, runAction_invariant, H. }
  pose proof (G _ fresh_invariant) as I.
  split; [exact I|].
  destruct I as ((_ & Hg & _) & Hz & _). unfold zoomInRange in Hz.
  split.
  - apply Qlt_le_trans with 5; [reflexivity | apply Hg].
  - apply TransformFacts.zoom_in_range_positive, Hz.
Qed.

(** X4. [zoomIn] and [zoomOut] undo each other as long as the first of
    the two is not cut off at a bound: a zoom level within the bounds
    that [zoomIn] does not cap is found again by [zoomOut], and one
    that [zoomOut] does not cap is found again by [zoomIn]. *)
Theorem zoom_in_out_round_trip s :
  zoomInRange s ->
  (CadStore.zoomLevel s * (12 # 10) <= CadStore.zoomMax ->
     CadStore.zoomLevel (CadStore.zoomOut (CadStore.zoomIn s)) == CadStore.zoomLevel s)
  /\ (CadStore.zoomMin <= CadStore.zoomLevel s / (12 # 10) ->
     CadStore.zoomLevel (CadStore.zoomIn (CadStore.zoomOut s)) == CadStore.zoomLevel s).
Proof.
  unfold zoomInRange. intros [Hlo Hhi].
  destruct s as [zl tool lw lc gs sg stg stp stl tol drawing pts ds objs ui sid icb h pan d2 dl].
  cbn [CadStore.zoomLevel] in *. unfold CadStore.zoomIn, CadStore.zoomOut.
  cbn [CadStore.zoomLevel CadStore.set_zoomLevel].
  unfold CadStore.js_min, CadStore.js_max. split; intros H.
  - rewrite (Q.min_l _ _ H).
    assert (E : zl * (12 # 10) / (12 # 10) == zl) by (field; discriminate).
    rewrite E. apply Q.max_l. exact Hlo.
  - rewrite (Q.max_l _ _ H).
    assert (E : zl / (12 # 10) * (12 # 10) == zl) by (field; discriminate).
    rewrite E. apply Q.min_l. exact Hhi.
Qed.

(** X5. [removeVectorObject(index)], that is [splice(index, 1)]:
    just after [addVectorObject] the index of the new object, and also
    [-1], give the store as before; an index at or past the length
    changes nothing; an index of the array removes the object there
    and nothing else. *)
Theorem removeVectorObject_cases s (object : VectorObject) (index : Z) :
  removeVectorObject (len (CadStore.vectorObjects s)) (CadStore.addVectorObject object s) = s
  /\ removeVectorObject (-1) (CadStore.addVectorObject object s) = s
  /\ ((len (CadStore.vectorObjects s) <= index)%Z -> removeVectorObject index s = s)
  /\ ((0 <= index < len (CadStore.vectorObjects s))%Z ->
      CadStore.vectorObjects (removeVectorObject index s)
      = firstn (Z.to_nat index) (CadStore.vectorObjects s)
          ++ skipn (S (Z.to_nat index)) (CadStore.vectorObjects s)
      /\ len (CadStore.vectorObjects (removeVectorObject index s))
         = (len (CadStore.vectorObjects s) - 1)%Z).
Proof.
  destruct s as [zl tool lw lc gs sg stg stp stl tol drawing pts ds objs ui sid icb h pan d2 dl].
  unfold removeVectorObject, CadStore.addVectorObject, push.
  cbn [CadStore.vectorObjects CadStore.set_vectorObjects].
  destruct (SpliceFacts.splice1_last objs object) as [L1 L2].
  split; [unfold CadStore.set_vectorObjects; cbn; rewrite L1; reflexivity|].
  split; [unfold CadStore.set_vectorObjects; cbn; rewrite L2; reflexivity|].
  split.
  - intros H. unfold CadStore.set_vectorObjects. cbn.
    rewrite (SpliceFacts.splice1_beyond objs H). reflexivity.
  - intros H. apply SpliceFacts.splice1_inside. exact H.
Qed.

(** The ends of the segments between consecutive points are among
    the points. *)
Lemma consecutive_in (pts : list Point) (l : Segment) :
  In l (CadStore.consecutive pts) -> In (seg_start l) pts /\ In (seg_end l) pts.
Proof.
  induction pts as [|a rest IH]; cbn [CadStore.consecutive]; [intros []|].
  destruct rest as [|b rest']; [intros []|].
  intros [E | H].
  - subst l. cbn. auto.
  - destruct (IH H) as [H1 H2]. split; right; assumption.
Qed.

(** The ends of the segments of an object are among its points. *)
Lemma objectLines_in (obj : VectorObject) (l : Segment) :
  In l (CadStore.objectLines obj) ->
  In (seg_start l) (objectPoints obj) /\ In (seg_end l) (objectPoints obj).
Proof.
  destruct obj; cbn; intros H;
    repeat (destruct H as [H | H]; [subst l; cbn; tauto|]); destruct H.
Qed.

(** X6. Both ends of every segment of [existingLines] are points of
    [existingPoints]. *)
Theorem existingLines_join_existingPoints s (l : Segment) :
  In l (CadStore.existingLines s) ->
  In (seg_start l) (existingPoints s) /\ In (seg_end l) (existingPoints s).
Proof.
  unfold CadStore.existingLines, existingPoints. intros H.
  apply in_app_or in H. destruct H as [H | H].
  - apply consecutive_in in H. destruct H. split; apply in_or_app; left; assumption.
  - apply in_flat_map in H. destruct H as (obj & Ho & Hl).
    apply objectLines_in in Hl. destruct Hl as [H1 H2].
    split; apply in_or_app; right; apply in_or_app; right;
      apply in_flat_map; exists obj; split; assumption.
Qed.
End Facts.

(** The store as created has zoom level 1: neither [zoomIn] nor
    [zoomOut] is capped there. *)
Lemma zoom_in_out_round_trip_witness :
  zoomInRange (Scenario.sceneOf [])
  /\ CadStore.zoomLevel (CadStore.zoomOut (CadStore.zoomIn (Scenario.sceneOf []))) == 1
  /\ CadStore.zoomLevel (CadStore.zoomIn (CadStore.zoomOut (Scenario.sceneOf []))) == 1.
Proof.
  assert (R : zoomInRange (Scenario.sceneOf [])) by (split; discriminate).
  split; [exact R|].
  destruct (zoom_in_out_round_trip R) as [Up Down].
  split; [apply Up; discriminate | apply Down; discriminate].
Defined.

(** The one line of [lineScene] ends at two of its points. *)
Lemma existingLines_join_existingPoints_witness :
  In (mkSegment (mkPoint 3 1) (mkPoint 100 100)) (CadStore.existingLines Scenario.lineScene)
  /\ In (mkPoint 3 1) (existingPoints Scenario.lineScene)
  /\ In (mkPoint 100 100) (existingPoints Scenario.lineScene).
Proof.
  assert (H : In (mkSegment (mkPoint 3 1) (mkPoint 100 100))
                (CadStore.existingLines Scenario.lineScene)) by (left; reflexivity).
  split; [exact H|].
  exact (existingLines_join_existingPoints Scenario.lineScene _ H).
Defined.

End StoreFacts.

(* ------------------------------------------------------------------ *)
(** * The snapping utilities *)

Module KernelFacts.
Import Geometry GeometryFacts Kernel.
Open Scope Q_scope.

(** What [snapToPoints] finds lies within the tolerance. *)
Lemma snapToPoints_within (p : Point) (l : list Point) (tol : Q) (e : Point) :
  snapToPoints p l tol = Some e -> withinDistance p e tol = true.
Proof.
  induction l as [|x l IH]; cbn [snapToPoints]; [discriminate|].
  destruct (withinDistance p x tol) eqn:W; [|exact IH].
  intros E. injection E as <-. exact W.
Qed.

(** [snapToPoints] on an array put together from two. *)
Lemma snapToPoints_app (p : Point) (a b : list Point) (tol : Q) :
  snapToPoints p (a ++ b) tol
  = match snapToPoints p a tol with
    | Some x => Some x
    | None => snapToPoints p b tol
    end.
Proof.
  induction a as [|x a IH]; cbn [app snapToPoints]; [reflexivity|].
  destruct (withinDistance p x tol); [reflexivity | exact IH].
Qed.

(** X7. [snapToPoints] returns the first point of the array within
    the tolerance, not the nearest one: the point it returns is an
    element within the tolerance and no element before it is; and it
    returns [null] exactly when no element is within the tolerance. *)
Theorem snapToPoints_first_within (p : Point) (l : list Point) (tol : Q) :
  (forall e, snapToPoints p l tol = Some e ->
     exists before after,
       l = before ++ e :: after
       /\ withinDistance p e tol = true
       /\ Forall (fun x => withinDistance p x tol = false) before)
  /\ (snapToPoints p l tol = None <->
      Forall (fun x => withinDistance p x tol = false) l).
Proof.
  induction l as [|a l [IHs IHn]]; cbn [snapToPoints].
  - split; [discriminate|]. split; [constructor | reflexivity].
  - destruct (withinDistance p a tol) eqn:W.
    + split.
      * intros e E. injection E as <-. exists [], l. repeat split; [exact W | constructor].
      * split; [discriminate|]. intros F. inversion F; congruence.
    + split.
      * intros e E. destruct (IHs e E) as (b & af & -> & We & Fb).
        exists (a :: b), af. repeat split; [exact We | constructor; assumption].
      * split.
        -- intros N. constructor; [exact W | apply IHn, N].
        -- intros F. inversion F. apply IHn. assumption.
Qed.

(** The result of [snapToLine], read off its branches. *)
Lemma snapToLine_cases (p s e : Point) (tol : Q) (q : Point) :
  snapToLine p s e tol = Done (Some q) ->
  ~ (px e - px s) * (px e - px s) + (py e - py s) * (py e - py s) == 0
  /\ withinDistance p q tol = true
  /\ exists t, 0 <= t <= 1
       /\ q = mkPoint (px s + t * (px e - px s)) (py s + t * (py e - py s)).
Proof.
  unfold snapToLine, divide.
  destruct (Qeq_bool ((px e - px s) * (px e - px s)
                      + (py e - py s) * (py e - py s)) 0) eqn:E; [discriminate|].
  cbn [bind].
  match goal with |- (if ?b then _ else _) = _ -> _ => destruct b eqn:W end;
    [|discriminate].
  intros H. injection H as <-.
  split; [intro Z; apply Qeq_bool_iff in Z; congruence|].
  split; [exact W|].
  eexists. split; [|reflexivity].
  split; [apply Q.le_max_l | apply Q.max_lub; [discriminate | apply Q.le_min_l]].
Qed.

(** X8. A point returned by [snapToLine] lies on the segment, between
    its ends (the parameter is clamped to [0, 1]), and within the
    tolerance of the given point; the tolerance is then not negative
    and the segment is not a single point. *)
Theorem snapToLine_on_segment (p s e : Point) (tol : Q) (q : Point) :
  snapToLine p s e tol = Done (Some q) ->
  withinDistance p q tol = true
  /\ 0 <= tol
  /\ ~ samePoint s e
  /\ exists t, 0 <= t <= 1
       /\ q = mkPoint (px s + t * (px e - px s)) (py s + t * (py e - py s)).
Proof.
  intros H. destruct (snapToLine_cases _ _ _ _ H) as (NZ & W & T).
  split; [exact W|]. split.
  - unfold withinDistance in W. apply andb_true_iff in W.
    apply Qle_bool_iff. apply W.
  - split; [|exact T]. intros [Ex Ey]. apply NZ. rewrite Ex, Ey. ring.
Qed.

(** A sum of two squares is zero only when both are. *)
Lemma squares_zero (c d : Q) : c * c + d * d == 0 -> c == 0 /\ d == 0.
Proof.
  intros H.
  assert (Hc : 0 <= c * c) by nra.
  assert (Hd : 0 <= d * d) by nra.
  assert (Zc : c * c == 0) by lra.
  assert (Zd : d * d == 0) by lra.
  split; nra.
Qed.

(** X9. [snapToLine] maps every point of a segment that is not a
    single point to itself, whatever the tolerance from zero on: the
    projection of a point of the segment is that point. *)
Theorem snapToLine_fixes_segment_points (s e : Point) (t tol : Q) :
  ~ samePoint s e ->
  0 <= t <= 1 ->
  0 <= tol ->
  exists q,
    snapToLine (mkPoint (px s + t * (px e - px s)) (py s + t * (py e - py s))) s e tol
    = Done (Some q)
    /\ samePoint q (mkPoint (px s + t * (px e - px s)) (py s + t * (py e - py s))).
Proof.
  intros NS [T0 T1] Htol.
  assert (NZ : ~ (px e - px s) * (px e - px s) + (py e - py s) * (py e - py s) == 0).
  { intros Z. apply squares_zero in Z. destruct Z as [Zx Zy].
    apply NS. split; lra. }
  unfold snapToLine, divide. cbn [px py].
  destruct (Qeq_bool ((px e - px s) * (px e - px s)
                      + (py e - py s) * (py e - py s)) 0) eqn:E;
    [apply Qeq_bool_iff in E; contradiction|].
  cbn [bind].
  set (param := Qmax 0 (Qmin 1 _)).
  assert (P : param == t).
  { unfold param.
    assert (D : ((px s + t * (px e - px s) - px s) * (px e - px s)
                 + (py s + t * (py e - py s) - py s) * (py e - py s))
                / ((px e - px s) * (px e - px s) + (py e - py s) * (py e - py s))
                == t) by (field; exact NZ).
    rewrite D. rewrite (Q.min_r _ _ T1). apply Q.max_r. exact T0. }
  assert (W : withinDistance
                (mkPoint (px s + t * (px e - px s)) (py s + t * (py e - py s)))
                (mkPoint (px s + param * (px e - px s)) (py s + param * (py e - py s)))
                tol = true).
  { unfold withinDistance, distanceSquared. cbn [px py].
    apply andb_true_iff. split; apply Qle_bool_iff; [exact Htol|].
    rewrite P. nra. }
  rewrite W. eexists. split; [reflexivity|].
  split; cbn [px py]; rewrite P; reflexivity.
Qed.

(** What [snapToLines] finds lies within the tolerance. *)
Lemma snapToLines_within (p : Point) (lines : list Segment) (tol : Q) (q : Point) :
  snapToLines p lines tol = Done (Some q) -> withinDistance p q tol = true.
Proof.
  induction lines as [|a l IH]; cbn [snapToLines]; [discriminate|].
  destruct (snapToLine p (seg_start a) (seg_end a) tol) as [|[r|]] eqn:S; cbn [bind].
  - discriminate.
  - intros E. injection E as <-. apply (snapToLine_cases _ _ _ _ S).
  - exact IH.
Qed.

(** X10. [snapToLines] returns the projection onto the first segment
    of the array that accepts the point, not onto the nearest one:
    every segment before it answers [null]; and it returns [null]
    exactly when every segment does. *)
Theorem snapToLines_first_accepting (p : Point) (lines : list Segment) (tol : Q) :
  (forall q, snapToLines p lines tol = Done (Some q) ->
     exists before l after,
       lines = before ++ l :: after
       /\ snapToLine p (seg_start l) (seg_end l) tol = Done (Some q)
       /\ Forall (fun l' => snapToLine p (seg_start l') (seg_end l') tol = Done None)
            before)
  /\ (snapToLines p lines tol = Done None <->
      Forall (fun l' => snapToLine p (seg_start l') (seg_end l') tol = Done None) lines).
Proof.
  induction lines as [|a l [IHs IHn]]; cbn [snapToLines].
  - split; [discriminate|]. split; [constructor | reflexivity].
  - pose proof (snapToLine_no_fault p (seg_start a) (seg_end a) tol) as NF.
    destruct (snapToLine p (seg_start a) (seg_end a) tol) as [|[r|]] eqn:S;
      [congruence | |]; cbn [bind].
    + split.
      * intros q E. injection E as <-. exists [], a, l.
        repeat split; [exact S | constructor].
      * split; [discriminate|]. intros F. inversion F; congruence.
    + split.
      * intros q E. destruct (IHs q E) as (b & x & af & -> & Sx & Fb).
        exists (a :: b), x, af. repeat split; [exact Sx | constructor; assumption].
      * split.
        -- intros N. constructor; [exact S | apply IHn, N].
        -- intros F. inversion F. apply IHn. assumption.
Qed.

(** X11. [calculateMidpoint] does not depend on the order of the two
    points, gives a point as far from the one as from the other, at
    half their distance (a quarter of the squared distance), and gives
    the point itself for two equal points. *)
Theorem calculateMidpoint_middle (a b : Point) :
  samePoint (calculateMidpoint a b) (calculateMidpoint b a)
  /\ distanceSquared a (calculateMidpoint a b)
     == distanceSquared (calculateMidpoint a b) b
  /\ 4 * distanceSquared a (calculateMidpoint a b) == distanceSquared a b
  /\ samePoint (calculateMidpoint a a) a.
Proof.
  unfold samePoint, calculateMidpoint, distanceSquared. cbn [px py].
  repeat split; field.
Qed.

(** [Math.round] is within a half of its argument. *)
Lemma js_round_near (r : Q) :
  inject_Z (js_round r) - (1 # 2) <= r /\ r < inject_Z (js_round r) + (1 # 2).
Proof.
  unfold js_round.
  pose proof (Qfloor_le (r + (1 # 2))) as L.
  pose proof (Qlt_floor (r + (1 # 2))) as U.
  rewrite inject_Z_plus in U. change (inject_Z 1) with 1 in U.
  split; lra.
Qed.

(** X12. For a grid size other than zero, [snapToGrid] applied to its
    own result changes nothing, and [snapToTransformedGrid] without pan
    and at zoom 1 agrees with [snapToGrid]. *)
Theorem snapToGrid_facts (p : Point) (gridSize : Q) :
  ~ gridSize == 0 ->
  snapToGrid (snapToGrid p gridSize) gridSize = snapToGrid p gridSize
  /\ samePoint (snapToTransformedGrid p gridSize (mkPoint 0 0) 1) (snapToGrid p gridSize).
Proof.
  intros NZ. split.
  - unfold snapToGrid. cbn [px py].
    assert (R : forall v, js_round (inject_Z (js_round (v / gridSize)) * gridSize / gridSize)
                          = js_round (v / gridSize)).
    { intros v. rewrite <- (js_round_int (js_round (v / gridSize))) at 2.
      apply js_round_comp. field. exact NZ. }
    rewrite !R. reflexivity.
  - unfold samePoint, snapToTransformedGrid, snapToGrid. cbn [px py].
    assert (R : forall v, js_round ((v * 1 + 0) / (gridSize * 1)) = js_round (v / gridSize)).
    { intros v. apply js_round_comp. field. exact NZ. }
    rewrite !R. split; field.
Qed.

(** One coordinate of the grid snap: the distance to the cursor. *)
Lemma grid_coordinate_near (v pan gridSize zoom : Q) :
  0 < gridSize -> 0 < zoom ->
  Qabs (v - (inject_Z (js_round ((v * zoom + pan) / (gridSize * zoom)))
             * (gridSize * zoom) - pan) / zoom)
  <= gridSize / 2.
Proof.
  intros Hg Hz.
  set (r := (v * zoom + pan) / (gridSize * zoom)).
  destruct (js_round_near r) as [L U].
  set (K := inject_Z (js_round r)) in *.
  assert (E : v - (K * (gridSize * zoom) - pan) / zoom == (r - K) * gridSize).
  { unfold r. field. split; intro Z; rewrite Z in *;
      apply (Qlt_irrefl 0); assumption. }
  rewrite E. apply Qabs_Qle_condition.
  assert (H2 : gridSize / 2 == gridSize * (1 # 2)) by (field; discriminate).
  rewrite H2. split; nra.
Qed.

(** X13. For a positive grid size and zoom level, the grid snap moves
    neither coordinate by more than half the grid size, whatever the
    pan offset. *)
Theorem grid_snap_within_half_cell (p panOffset : Point) (gridSize zoom : Q) :
  0 < gridSize -> 0 < zoom ->
  Qabs (px p - px (snapToTransformedGrid p gridSize panOffset zoom)) <= gridSize / 2
  /\ Qabs (py p - py (snapToTransformedGrid p gridSize panOffset zoom)) <= gridSize / 2.
Proof.
  intros Hg Hz. unfold snapToTransformedGrid. cbn [px py].
  split; apply grid_coordinate_near; assumption.
Qed.


(** The [forEach] of [getAllSnapPoints] from any start. *)
Lemma addSnapPoints_fold (objs : list VectorObject) (acc : SnapPoints) :
  fold_left addSnapPoints objs acc
  = mkSnapPoints
      (endpoints acc ++ endpoints (getAllSnapPoints objs))
      (midpoints acc ++ midpoints (getAllSnapPoints objs))
      (centers acc ++ centers (getAllSnapPoints objs))
      (corners acc ++ corners (getAllSnapPoints objs)).
Proof.
  unfold getAllSnapPoints. revert acc.
  induction objs as [|o objs IH]; intros acc; cbn [fold_left].
  - cbn. rewrite !app_nil_r. destruct acc; reflexivity.
  - rewrite IH. rewrite (IH (addSnapPoints _ o)).
    destruct o; cbn [addSnapPoints endpoints midpoints centers corners app];
      rewrite ?app_nil_r, <- ?app_assoc; reflexivity.
Qed.

(** X15. [getAllSnapPoints] collects object by object, in the order of
    the array: the snap points of two arrays joined are the snap points
    of each, joined.  Polylines and dimensions contribute nothing:
    leaving them out, or adding some at the end, does not change the
    result. *)
Theorem getAllSnapPoints_facts (objs more : list VectorObject) :
  getAllSnapPoints (objs ++ more)
  = mkSnapPoints
      (endpoints (getAllSnapPoints objs) ++ endpoints (getAllSnapPoints more))
      (midpoints (getAllSnapPoints objs) ++ midpoints (getAllSnapPoints more))
      (centers (getAllSnapPoints objs) ++ centers (getAllSnapPoints more))
      (corners (getAllSnapPoints objs) ++ corners (getAllSnapPoints more))
  /\ getAllSnapPoints (filter offersSnapPoints objs) = getAllSnapPoints objs
  /\ (forallb (fun o => negb (offersSnapPoints o)) more = true ->
      getAllSnapPoints (objs ++ more) = getAllSnapPoints objs).
Proof.
  assert (A : forall a b, getAllSnapPoints (a ++ b)
            = mkSnapPoints
                (endpoints (getAllSnapPoints a) ++ endpoints (getAllSnapPoints b))
                (midpoints (getAllSnapPoints a) ++ midpoints (getAllSnapPoints b))
                (centers (getAllSnapPoints a) ++ centers (getAllSnapPoints b))
                (corners (getAllSnapPoints a) ++ corners (getAllSnapPoints b))).
  { intros a b. unfold getAllSnapPoints at 1. rewrite fold_left_app.
    apply addSnapPoints_fold. }
  assert (C : forall o rest,
            getAllSnapPoints (o :: rest)
            = mkSnapPoints
                (endpoints (getAllSnapPoints [o]) ++ endpoints (getAllSnapPoints rest))
                (midpoints (getAllSnapPoints [o]) ++ midpoints (getAllSnapPoints rest))
                (centers (getAllSnapPoints [o]) ++ centers (getAllSnapPoints rest))
                (corners (getAllSnapPoints [o]) ++ corners (getAllSnapPoints rest)))
    by (intros o rest; apply (A [o] rest)).
  assert (N : forall l, forallb (fun o => negb (offersSnapPoints o)) l = true ->
                        getAllSnapPoints l = mkSnapPoints [] [] [] []).
  { induction l as [|o l IH]; [reflexivity|]. cbn [forallb]. intros H.
    apply andb_true_iff in H. destruct H as [Ho Hl].
    rewrite C, (IH Hl). destruct o; try discriminate Ho; reflexivity. }
  split; [apply A|]. split.
  - induction objs as [|o objs IH]; [reflexivity|]. cbn [filter].
    destruct (offersSnapPoints o) eqn:O.
    + rewrite C, IH, (C o objs). reflexivity.
    + rewrite IH, (C o objs). destruct o; try discriminate O;
        cbn; destruct (getAllSnapPoints objs); reflexivity.
  - intros H. rewrite A, (N _ H). cbn. rewrite !app_nil_r.
    destruct (getAllSnapPoints objs); reflexivity.
Qed.

(** The distance test with a larger bound. *)
Lemma withinDistance_wider (a b : Point) (tol prox : Q) :
  tol <= prox -> withinDistance a b tol = true -> withinDistance a b prox = true.
Proof.
  unfold withinDistance. intros L H. apply andb_true_iff in H.
  destruct H as [H0 Hd]. apply Qle_bool_iff in H0. apply Qle_bool_iff in Hd.
  apply andb_true_iff. split; apply Qle_bool_iff; [lra | nra].
Qed.

(** What one [forEach] of [getSnapPointsInProximity] collects. *)
Lemma nearby_sound (mousePos : Point) (points : list Point) (prox : Q)
    (kind : Canvas.SnapType) (t : TaggedPoint) :
  In t (nearby mousePos points prox kind) <->
  In (tagged t) points /\ withinDistance mousePos (tagged t) prox = true /\ tag t = kind.
Proof.
  induction points as [|a l IH]; cbn [nearby In].
  - tauto.
  - destruct (withinDistance mousePos a prox) eqn:W; cbn [In]; rewrite IH; split.
    + intros [<- | H]; [cbn; auto | tauto].
    + intros ([E | H] & Wt & Tk); [left; destruct t; cbn in *; congruence | tauto].
    + tauto.
    + intros ([E | H] & Wt & Tk); [congruence | tauto].
Qed.

(** The point [snapToPoints] finds is collected at any wider bound. *)
Lemma nearby_has_snap (mousePos : Point) (points : list Point) (tol prox : Q)
    (kind : Canvas.SnapType) (e : Point) :
  tol <= prox ->
  snapToPoints mousePos points tol = Some e ->
  In (mkTagged e kind) (nearby mousePos points prox kind).
Proof.
  intros L S. apply nearby_sound. cbn [tagged tag]. split; [|split; [|reflexivity]].
  - clear L. induction points as [|x l IH]; cbn [snapToPoints] in S; [discriminate|].
    destruct (withinDistance mousePos x tol).
    + injection S as <-. left. reflexivity.
    + right. apply IH, S.
  - apply (withinDistance_wider _ _ L (snapToPoints_within _ _ _ S)).
Qed.

(** X16. With a proximity no smaller than the tolerance (the canvas
    uses twice the tolerance), the point each category would snap to is
    among the points [getSnapPointsInProximity] returns for that
    category; every point it returns is within the proximity; and it
    leaves the [grid] list empty. *)
Theorem proximity_hints (mousePos : Point) (snapPoints : SnapPoints) (tol prox : Q) :
  tol <= prox ->
  (forall e, snapToPoints mousePos (endpoints snapPoints) tol = Some e ->
     In (mkTagged e Canvas.SnapEndpoint)
        (nearEndpoints (getSnapPointsInProximity mousePos snapPoints prox)))
  /\ (forall e, snapToPoints mousePos (midpoints snapPoints) tol = Some e ->
     In (mkTagged e Canvas.SnapMidpoint)
        (nearMidpoints (getSnapPointsInProximity mousePos snapPoints prox)))
  /\ (forall e, snapToPoints mousePos (centers snapPoints) tol = Some e ->
     In (mkTagged e Canvas.SnapCenter)
        (nearCenters (getSnapPointsInProximity mousePos snapPoints prox)))
  /\ (forall e, snapToPoints mousePos (corners snapPoints) tol = Some e ->
     In (mkTagged e Canvas.SnapCorner)
        (nearCorners (getSnapPointsInProximity mousePos snapPoints prox)))
  /\ (forall t,
        In t (nearEndpoints (getSnapPointsInProximity mousePos snapPoints prox)
              ++ nearMidpoints (getSnapPointsInProximity mousePos snapPoints prox)
              ++ nearCenters (getSnapPointsInProximity mousePos snapPoints prox)
              ++ nearCorners (getSnapPointsInProximity mousePos snapPoints prox)) ->
        withinDistance mousePos (tagged t) prox = true)
  /\ nearGrid (getSnapPointsInProximity mousePos snapPoints prox) = [].
Proof.
  intros L. unfold getSnapPointsInProximity.
  cbn [nearEndpoints nearMidpoints nearCenters nearCorners nearGrid].
  repeat (split; [intros e S; apply (nearby_has_snap _ _ _ L S)|]).
  split; [|reflexivity].
  intros t H. repeat (apply in_app_or in H; destruct H as [H | H]);
    apply nearby_sound in H; apply H.
Qed.

(** X17. [getGridSnapPointsInProximity] returns at most one point,
    and that point is the grid snap of [snapToTransformedGrid]; it
    returns it whenever the proximity is at least half a grid cell on
    the screen. *)
Theorem grid_hint (mousePos panOffset : Point) (gridSize zoom prox : Q) :
  (getGridSnapPointsInProximity mousePos gridSize panOffset zoom prox = []
   \/ getGridSnapPointsInProximity mousePos gridSize panOffset zoom prox
      = [mkTagged (snapToTransformedGrid mousePos gridSize panOffset zoom)
           Canvas.SnapGrid])
  /\ (0 < gridSize -> 0 < zoom -> gridSize * zoom / 2 <= prox ->
      getGridSnapPointsInProximity mousePos gridSize panOffset zoom prox
      = [mkTagged (snapToTransformedGrid mousePos gridSize panOffset zoom)
           Canvas.SnapGrid]).
Proof.
  unfold getGridSnapPointsInProximity, snapToTransformedGrid.
  split.
  - match goal with |- context [if ?b then _ else _] => destruct b end;
      [right | left]; reflexivity.
  - intros Hg Hz Hp.
    assert (N : forall v pan,
              Qle_bool (Qabs (v * zoom + pan
                              - inject_Z (js_round ((v * zoom + pan) / (gridSize * zoom)))
                                * (gridSize * zoom))) prox = true).
    { intros v pan. apply Qle_bool_iff.
      set (r := (v * zoom + pan) / (gridSize * zoom)).
      destruct (js_round_near r) as [Lo Up].
      set (K := inject_Z (js_round r)) in *.
      assert (E : v * zoom + pan - K * (gridSize * zoom) == (r - K) * (gridSize * zoom)).
      { unfold r. field. split; intro Z; rewrite Z in *;
          apply (Qlt_irrefl 0); assumption. }
      rewrite E. apply Qabs_Qle_condition.
      assert (H2 : gridSize * zoom / 2 == gridSize * zoom * (1 # 2))
        by (field; discriminate).
      rewrite H2 in Hp.
      assert (P : 0 < gridSize * zoom) by nra.
      split; nra. }
    rewrite !N. reflexivity.
Qed.

(** The cursor (5, 1) over the segment from (0, 0) to (10, 0), with
    tolerance 2: the foot (5, 0). *)
Lemma snapToLine_on_segment_witness :
  exists q,
    snapToLine Samples.aboveBase Samples.baseStart Samples.baseEnd 2 = Done (Some q)
    /\ samePoint q (mkPoint 5 0)
    /\ withinDistance Samples.aboveBase q 2 = true
    /\ ~ samePoint Samples.baseStart Samples.baseEnd.
Proof.
  destruct (snapToLine Samples.aboveBase Samples.baseStart Samples.baseEnd 2)
    as [|[q|]] eqn:H;
    [vm_compute in H; discriminate | | vm_compute in H; discriminate].
  exists q. split; [reflexivity|].
  destruct (snapToLine_on_segment _ _ _ _ H) as (W & _ & NS & _).
  split; [|split; [exact W | exact NS]].
  vm_compute in H. injection H as <-. split; reflexivity.
Defined.

(** The middle of the segment from (0, 0) to (10, 0), with tolerance
    zero. *)
Lemma snapToLine_fixes_segment_points_witness :
  ~ samePoint Samples.baseStart Samples.baseEnd
  /\ exists q,
       snapToLine
         (mkPoint
            (px Samples.baseStart + (1 # 2) * (px Samples.baseEnd - px Samples.baseStart))
            (py Samples.baseStart + (1 # 2) * (py Samples.baseEnd - py Samples.baseStart)))
         Samples.baseStart Samples.baseEnd 0
       = Done (Some q)
       /\ samePoint q
            (mkPoint
               (px Samples.baseStart
                + (1 # 2) * (px Samples.baseEnd - px Samples.baseStart))
               (py Samples.baseStart
                + (1 # 2) * (py Samples.baseEnd - py Samples.baseStart))).
Proof.
  assert (NS : ~ samePoint Samples.baseStart Samples.baseEnd)
    by (intros [Ex _]; vm_compute in Ex; discriminate).
  split; [exact NS|].
  apply (@snapToLine_fixes_segment_points Samples.baseStart Samples.baseEnd (1 # 2) 0 NS);
    [split; discriminate | discriminate].
Defined.

(** The cursor (7, 13) on a grid of 20. *)
Lemma snapToGrid_facts_witness :
  ~ 20 == 0
  /\ snapToGrid (snapToGrid Samples.offGrid 20) 20 = snapToGrid Samples.offGrid 20.
Proof.
  assert (NZ : ~ 20 == 0) by discriminate.
  split; [exact NZ|].
  exact (proj1 (@snapToGrid_facts Samples.offGrid 20 NZ)).
Defined.

(** The cursor (7, 13) on a grid of 20, panned by (5, 5) at zoom 2. *)
Lemma grid_snap_within_half_cell_witness :
  0 < 20 /\ 0 < 2
  /\ Qabs (px Samples.offGrid
           - px (snapToTransformedGrid Samples.offGrid 20 Samples.smallPan 2))
     <= 20 / 2.
Proof.
  assert (Hg : 0 < 20) by reflexivity.
  assert (Hz : 0 < 2) by reflexivity.
  split; [exact Hg|]. split; [exact Hz|].
  exact (proj1 (@grid_snap_within_half_cell Samples.offGrid Samples.smallPan 20 2 Hg Hz)).
Defined.


(** The cursor (1, 1) beside the line of [lineScene], tolerance 10
    and proximity 20: the endpoint (3, 1) is among the hints. *)
Lemma proximity_hints_witness :
  10 <= 20
  /\ In (mkTagged (mkPoint 3 1) Canvas.SnapEndpoint)
        (nearEndpoints
           (getSnapPointsInProximity Scenario.nearOrigin
              (getAllSnapPoints (CadStore.vectorObjects Scenario.lineScene)) 20)).
Proof.
  assert (L : 10 <= 20) by discriminate.
  split; [exact L|].
  destruct (@proximity_hints Scenario.nearOrigin
              (getAllSnapPoints (CadStore.vectorObjects Scenario.lineScene)) 10 20 L)
    as [E _].
  apply E. vm_compute. reflexivity.
Defined.

End KernelFacts.

(* ------------------------------------------------------------------ *)
(** * What [getSnappedPosition] returns *)

Module SnapFacts.
Import Geometry GeometryFacts Canvas KernelFacts.
Open Scope Q_scope.

Section Facts.
Variable Raster : Type.
Implicit Types (s : CadStore.Store Raster).

(** The test [gridSnapped.x !== pos.x || gridSnapped.y !== pos.y]. *)
Lemma moved_not_same (a b : Point) :
  negb (Qeq_bool (px a) (px b)) || negb (Qeq_bool (py a) (py b)) = true ->
  ~ samePoint a b.
Proof.
  intros H [Ex Ey]. apply Qeq_bool_iff in Ex. apply Qeq_bool_iff in Ey.
  rewrite Ex, Ey in H. discriminate.
Qed.

(** What [snapToLines] lets through lies within the tolerance. *)
Lemma settled_within (pos : Point) (lines : list Segment) (tol : Q) (q : Point) :
  settle (snapToLines pos lines tol) = Some q -> withinDistance pos q tol = true.
Proof.
  intros H. destruct (snapToLines pos lines tol) as [|r] eqn:S; [discriminate|].
  cbn [settle] in H. subst r. apply (snapToLines_within _ _ _ S).
Qed.

(** X18. The type [getSnappedPosition] reports tells where its position
    comes from.  Without a type the position is the cursor itself.
    The type [grid] is reported only with grid snapping on, for the
    grid snap of the cursor, which then differs from the cursor.  Each
    of the types [endpoint], [midpoint], [center] and [corner] is
    reported only with point snapping on, for what [snapToPoints] finds
    among the candidates of that category, and [line] only with line
    snapping on, for what [snapToLines] finds.  A position of any type
    but [grid] lies within the snap tolerance of the cursor. *)
Theorem snap_result_sound s (pos : Point) :
  (type (getSnappedPosition s pos) = None ->
     position (getSnappedPosition s pos) = pos)
  /\ (type (getSnappedPosition s pos) = Some SnapGrid ->
      CadStore.snapToGrid s = true
      /\ position (getSnappedPosition s pos)
         = snapToTransformedGrid pos (CadStore.gridSize s) (CadStore.panOffset s)
             (CadStore.zoomLevel s)
      /\ ~ samePoint (position (getSnappedPosition s pos)) pos)
  /\ (type (getSnappedPosition s pos) = Some SnapEndpoint ->
      CadStore.snapToPoints s = true
      /\ snapToPoints pos (endpointCandidates s) (CadStore.snapTolerance s)
         = Some (position (getSnappedPosition s pos)))
  /\ (type (getSnappedPosition s pos) = Some SnapMidpoint ->
      CadStore.snapToPoints s = true
      /\ snapToPoints pos (midpoints (getAllSnapPoints (CadStore.vectorObjects s)))
           (CadStore.snapTolerance s)
         = Some (position (getSnappedPosition s pos)))
  /\ (type (getSnappedPosition s pos) = Some SnapCenter ->
      CadStore.snapToPoints s = true
      /\ snapToPoints pos (centers (getAllSnapPoints (CadStore.vectorObjects s)))
           (CadStore.snapTolerance s)
         = Some (position (getSnappedPosition s pos)))
  /\ (type (getSnappedPosition s pos) = Some SnapCorner ->
      CadStore.snapToPoints s = true
      /\ snapToPoints pos (corners (getAllSnapPoints (CadStore.vectorObjects s)))
           (CadStore.snapTolerance s)
         = Some (position (getSnappedPosition s pos)))
  /\ (type (getSnappedPosition s pos) = Some SnapLine ->
      CadStore.snapToLines s = true
      /\ settle (snapToLines pos (CadStore.existingLines s) (CadStore.snapTolerance s))
         = Some (position (getSnappedPosition s pos)))
  /\ (forall kind, type (getSnappedPosition s pos) = Some kind -> kind <> SnapGrid ->
      withinDistance pos (position (getSnappedPosition s pos)) (CadStore.snapTolerance s)
      = true).
Proof.
  unfold getSnappedPosition.
  destruct (CadStore.snapToGrid s) eqn:G;
    [destruct (negb (Qeq_bool (px (snapToTransformedGrid pos (CadStore.gridSize s)
                                     (CadStore.panOffset s) (CadStore.zoomLevel s)))
                       (px pos))
               || negb (Qeq_bool (py (snapToTransformedGrid pos (CadStore.gridSize s)
                                        (CadStore.panOffset s) (CadStore.zoomLevel s)))
                          (py pos))) eqn:M|];
    (destruct (CadStore.snapToPoints s) eqn:P;
     [destruct (snapToPoints pos (endpointCandidates s) (CadStore.snapTolerance s)) eqn:E;
      destruct (snapToPoints pos (midpoints (getAllSnapPoints (CadStore.vectorObjects s)))
                  (CadStore.snapTolerance s)) eqn:Mi;
      destruct (snapToPoints pos (centers (getAllSnapPoints (CadStore.vectorObjects s)))
                  (CadStore.snapTolerance s)) eqn:Ce;
      destruct (snapToPoints pos (corners (getAllSnapPoints (CadStore.vectorObjects s)))
                  (CadStore.snapTolerance s)) eqn:Co|]);
    (destruct (CadStore.snapToLines s) eqn:L;
     [destruct (settle (snapToLines pos (CadStore.existingLines s)
                          (CadStore.snapTolerance s))) eqn:Se|]);
    cbn [type position negb andb orb];
    repeat match goal with
      | |- _ /\ _ => split
      | |- _ -> _ => intro
      end;
    try discriminate; try reflexivity; try assumption; try congruence;
    try (eapply moved_not_same; eassumption);
    try (eapply snapToPoints_within; eassumption);
    try (eapply settled_within; eassumption).
Qed.
End Facts.
End SnapFacts.

(* ------------------------------------------------------------------ *)
(** * The keyboard *)

Module KeyFacts.
Import Stdlib.Strings.Ascii.
Import Geometry Canvas.

(** No lower-cased character is the capital E. *)
Lemma lowerAscii_not_E (c : Ascii.ascii) : Ascii.eqb "E" (lowerAscii c) = false.
Proof.
  destruct c as [[] [] [] [] [] [] [] []]; vm_compute; reflexivity.
Qed.

(** No lower-cased key is the entry name [Escape]. *)
Lemma escape_not_lowercase (k : string) : String.eqb "Escape" (toLowerCase k) = false.
Proof.
  destruct k as [|c rest]; [reflexivity|].
  cbn [toLowerCase]. cbn [String.eqb]. rewrite lowerAscii_not_E. reflexivity.
Qed.

(** The table look-up with a lower-cased key never gives [handleEscape]. *)
Lemma lookup_never_escape (k : string) :
  lookupShortcut keyboardShortcuts (toLowerCase k) <> Some Escape.
Proof.
  unfold keyboardShortcuts. cbn [lookupShortcut].
  rewrite escape_not_lowercase.
  repeat match goal with
    | |- context [if ?b then _ else _] => destruct b; [discriminate|]
    end.
  discriminate.
Qed.

Section Facts.
Variable Raster : Type.
Variable paint : CadStore.Store Raster -> Raster.

(** X19. [handleKeyDown] lower-cases the key before it looks it up,
    and the table spells its entry [Escape] with a capital: whatever
    the key event, the look-up never gives [handleEscape], and
    [handleKeyDown] does nothing, or runs [undo], [redo] or
    [clearCanvas], or runs a shortcut other than [handleEscape]. *)
Theorem escape_is_never_dispatched (event : KeyEvent) (c : Component Raster) :
  lookupShortcut keyboardShortcuts (toLowerCase (key event)) <> Some Escape
  /\ (handleKeyDown paint event c = c
      \/ handleKeyDown paint event c = undo c
      \/ handleKeyDown paint event c = redo c
      \/ handleKeyDown paint event c = clearCanvas paint c
      \/ exists a, a <> Escape /\ handleKeyDown paint event c = runShortcut paint a c).
Proof.
  pose proof (lookup_never_escape (key event)) as N.
  split; [exact N|].
  unfold handleKeyDown.
  assert (S : match lookupShortcut keyboardShortcuts (toLowerCase (key event)) with
              | Some a => runShortcut paint a c
              | None => c
              end = c
              \/ exists a, a <> Escape
                   /\ match lookupShortcut keyboardShortcuts (toLowerCase (key event)) with
                      | Some a => runShortcut paint a c
                      | None => c
                      end = runShortcut paint a c).
  { destruct (lookupShortcut keyboardShortcuts (toLowerCase (key event))) as [a|].
    - right. exists a. split; [congruence | reflexivity].
    - left. reflexivity. }
  destruct (ctrlKey event).
  - destruct (String.eqb (toLowerCase (key event)) "z"); [tauto|].
    destruct (String.eqb (toLowerCase (key event)) "y"); [tauto|].
    destruct (String.eqb (toLowerCase (key event)) "delete"); [tauto|].
    destruct S as [S | S]; [left; exact S | do 4 right; exact S].
  - destruct S as [S | S]; [left; exact S | do 4 right; exact S].
Qed.
End Facts.
End KeyFacts.

(* ------------------------------------------------------------------ *)
(** * The canvas component *)

Module ComponentFacts.
Import Geometry Canvas Painting.
Open Scope Q_scope.

Section Facts.
Variable Raster : Type.
Variable paint : CadStore.Store Raster -> Raster.
Implicit Types (c : Component Raster).

(** [undo] and [redo] write the canvas and the history index only. *)
Lemma undo_redo_keep_scene c :
  CadStore.vectorObjects (store (undo c)) = CadStore.vectorObjects (store c)
  /\ CadStore.polylinePoints (store (undo c)) = CadStore.polylinePoints (store c)
  /\ startPoint (undo c) = startPoint c
  /\ CadStore.vectorObjects (store (redo c)) = CadStore.vectorObjects (store c)
  /\ CadStore.polylinePoints (store (redo c)) = CadStore.polylinePoints (store c)
  /\ startPoint (redo c) = startPoint c.
Proof.
  unfold undo, redo, CadStore.undo, CadStore.redo.
  destruct (History.undo (CadStore.hist (store c))) as [[| |r] h];
    destruct (History.redo (CadStore.hist (store c))) as [[| |r'] h'];
    destruct c as [s sp cc cb ci cv al sh]; destruct s; repeat split; reflexivity.
Qed.

(** X20. Undo restores pixels, not objects.  After a snapshot, an
    object added and drawn, and another snapshot, [undo] shows the
    canvas of the first snapshot again while [vectorObjects] still
    holds the added object; no [undo] or [redo] ever changes
    [vectorObjects]. *)
Theorem undo_restores_raster_not_scene c (object : VectorObject) (drawn : Raster) :
  History.index_ok (CadStore.hist (store c)) ->
  canvas (undo (saveState (set_canvas drawn
                             (onStore (CadStore.addVectorObject object) (saveState c)))))
  = canvas c
  /\ CadStore.vectorObjects
       (store (undo (saveState (set_canvas drawn
                                  (onStore (CadStore.addVectorObject object)
                                     (saveState c))))))
     = CadStore.vectorObjects (store c) ++ [object]
  /\ (forall c', CadStore.vectorObjects (store (undo c')) = CadStore.vectorObjects (store c')
                 /\ CadStore.vectorObjects (store (redo c'))
                    = CadStore.vectorObjects (store c')).
Proof.
  intros I.
  split; [|split].
  - destruct (HistoryMore.undo_after_two_saves (canvas c) drawn I) as [U _].
    destruct c as [s sp cc cb ci cv al sh]. destruct s.
    unfold undo, CadStore.undo. cbn in *.
    destruct (History.undo _) as [r h']. cbn [fst] in U. subst r. reflexivity.
  - destruct (undo_redo_keep_scene
                (saveState (set_canvas drawn
                              (onStore (CadStore.addVectorObject object) (saveState c)))))
      as (E & _).
    rewrite E. destruct c as [s sp cc cb ci cv al sh]. destruct s. reflexivity.
  - intros c'. destruct (undo_redo_keep_scene c') as (E1 & _ & _ & E2 & _).
    split; assumption.
Qed.

(** X21. Submitting a positive number of inches to the radius prompt:
    with a drag start, [submitCommand] returns, having added the circle
    centred at the drag start with the radius in pixels (96 to the
    inch), the current colour and line width, not filled, pushed a
    snapshot of the canvas as it was, and cleared the drag start and
    the prompt; without a drag start the callback raises, and the
    prompt is left as it was. *)
Theorem radius_prompt_commits_circle c (command : Command) (inches : Q) (p : Point) :
  currentCommand c = Some command ->
  commandCallback c = Some OnRadius ->
  commandInput c = Number inches ->
  0 < inches ->
  (startPoint c = Some p ->
   exists c',
     submitCommand c = Returned c'
     /\ CadStore.vectorObjects (store c')
        = CadStore.vectorObjects (store c)
            ++ [Circle (px p) (py p) (inches * 96) (CadStore.lineColor (store c))
                  (CadStore.lineWidth (store c)) false]
     /\ CadStore.hist (store c') = History.saveState (canvas c) (CadStore.hist (store c))
     /\ startPoint c' = None
     /\ currentCommand c' = None
     /\ commandCallback c' = None)
  /\ (startPoint c = None -> submitCommand c = Threw c).
Proof.
  intros Hc Hb Hi Hlt.
  assert (P : Qle_bool (inches * 96) 0 = false).
  { destruct (Qle_bool (inches * 96) 0) eqn:E; [|reflexivity].
    apply Qle_bool_iff in E. lra. }
  unfold submitCommand, runCallback. rewrite Hc, Hb, Hi, P.
  split; intros Hs; rewrite Hs.
  - eexists. split; [reflexivity|].
    destruct c as [s sp cc cb ci cv al sh]. destruct s. repeat split; reflexivity.
  - reflexivity.
Qed.

(** X22. [redrawCanvas] has no branch for objects of type [polyline]:
    adding one to the store changes none of the calls a redraw makes.
    A right-click that completes a polyline leaves a store whose redraw
    draws the grid and the objects that were there before, and neither
    the polyline nor its points. *)
Theorem polylines_are_not_drawn (s : CadStore.Store Raster)
    (points : list Point) (color : string) (lineWidth : Q) :
  redrawCalls (CadStore.addVectorObject (Polyline points color lineWidth) s)
  = redrawCalls s
  /\ (forall c (event : MouseEvent),
        button event = 2%Z ->
        completesPolyline c = true ->
        redrawCalls (store (onClick paint event c))
        = redrawCalls (CadStore.clearPolylinePoints (store c))
        /\ redrawCalls (CadStore.clearPolylinePoints (store c))
           = [ClearCanvas canvasWidth canvasHeight]
             ++ (if CadStore.showGrid (store c)
                 then [TransformedGrid canvasWidth canvasHeight
                         (CadStore.gridSize (store c)) (CadStore.panOffset (store c))
                         (CadStore.zoomLevel (store c))]
                 else [])
             ++ flat_map (drawObject (CadStore.panOffset (store c))
                            (CadStore.zoomLevel (store c)))
                  (CadStore.vectorObjects (store c))
             ++ [CanvasStyle (CadStore.lineColor (store c))
                   (CadStore.lineWidth (store c))]).
Proof.
  split.
  - destruct s. unfold redrawCalls, CadStore.addVectorObject, JsArray.push.
    cbn [CadStore.vectorObjects CadStore.set_vectorObjects CadStore.panOffset
         CadStore.zoomLevel CadStore.lineColor CadStore.lineWidth CadStore.showGrid
         CadStore.gridSize CadStore.polylinePoints].
    rewrite flat_map_app. cbn [flat_map drawObject app]. rewrite app_nil_r. reflexivity.
  - intros c event B H.
    rewrite CanvasFacts.onClick_right_click by exact B.
    unfold completesPolyline in H. unfold completePolyline.
    destruct c as [st sp cc cb ci cv al sh].
    destruct st as [zl tool lw lc gs sg stg stp stl tol drawing pts ds objs ui sid icb h pan d2 dl].
    cbn [store CadStore.currentTool CadStore.isDrawing CadStore.polylinePoints] in *.
    destruct tool; try discriminate H.
    apply andb_true_iff in H. destruct H as [Hd Hl]. subst drawing.
    cbn [onStore store set_store CadStore.setIsDrawing CadStore.set_isDrawing
         CadStore.polylinePoints]. rewrite Hl.
    unfold redrawCalls.
    destruct sp, ds, d2, dl; cbn -[JsArray.len Z.ltb flat_map];
      rewrite flat_map_app; cbn [flat_map drawObject app]; rewrite ?app_nil_r;
      split; reflexivity.
Qed.
End Facts.

(** The mounted component on the empty scene: a line added between
    two snapshots is still in the scene after [undo]. *)
Lemma undo_restores_raster_not_scene_witness :
  History.index_ok (CadStore.hist (store (mounted Scenario.blindPaint)))
  /\ CadStore.vectorObjects
       (store (undo (saveState (set_canvas tt
                 (onStore (CadStore.addVectorObject
                             (Line Samples.baseStart Samples.baseEnd Scenario.black 2))
                    (saveState (mounted Scenario.blindPaint)))))))
     = CadStore.vectorObjects (store (mounted Scenario.blindPaint))
         ++ [Line Samples.baseStart Samples.baseEnd Scenario.black 2].
Proof.
  assert (I : History.index_ok (CadStore.hist (store (mounted Scenario.blindPaint))))
    by (vm_compute; split; [discriminate | reflexivity]).
  split; [exact I|].
  exact (proj1 (proj2 (@undo_restores_raster_not_scene Scenario.Blind
                         (mounted Scenario.blindPaint)
                         (Line Samples.baseStart Samples.baseEnd Scenario.black 2) tt I))).
Defined.

(** One inch typed into the radius prompt after a drag start at
    (40, 40). *)
Lemma radius_prompt_commits_circle_witness :
  0 < 1
  /\ exists c',
       submitCommand Samples.radiusPrompt = Returned c'
       /\ CadStore.vectorObjects (store c')
          = CadStore.vectorObjects (store Samples.radiusPrompt)
              ++ [Circle 40 40 (1 * 96) Scenario.black 2 false]
       /\ startPoint c' = None.
Proof.
  assert (P : 0 < 1) by reflexivity.
  split; [exact P|].
  destruct (@radius_prompt_commits_circle Scenario.Blind Samples.radiusPrompt CmdRadius 1
              (mkPoint 40 40) eq_refl eq_refl eq_refl P) as [Y _].
  destruct (Y eq_refl) as (c' & S & O & _ & SP & _).
  exists c'. split; [exact S|]. split; [exact O | exact SP].
Defined.

End ComponentFacts.

(* ------------------------------------------------------------------ *)
(** * Sessions of gestures *)

Module SessionFacts.
Import Geometry Canvas Pointer.
Open Scope Q_scope.

Section Facts.
Variable Raster : Type.
Variable paint : CadStore.Store Raster -> Raster.
Implicit Types (c : Component Raster) (s : Session Raster).

(** A benign step keeps the scene free of rectangles and of the height
    prompt. *)
Lemma benign_keeps (s s' : Session Raster) :
  benign (component s) (component s') -> rectangleFree s -> rectangleFree s'.
Proof.
  unfold benign, rectangleFree. intros [[(extra & E & F) | E] Cb] [Ho Hc].
  - split.
    + rewrite E, forallb_app, Ho, F. reflexivity.
    + destruct Cb as [-> | [-> | [-> | ->]]]; [exact Hc | exact I | exact I | exact I].
  - split.
    + rewrite E. reflexivity.
    + destruct Cb as [-> | [-> | [-> | ->]]]; [exact Hc | exact I | exact I | exact I].
Qed.

(** A step that leaves the scene and the callback alone is benign. *)
Lemma benign_same c c' :
  CadStore.vectorObjects (store c') = CadStore.vectorObjects (store c) ->
  commandCallback c' = commandCallback c ->
  benign c c'.
Proof.
  intros E C. split; [left; exists []; rewrite app_nil_r; split; [exact E | reflexivity]
                     | left; exact C].
Qed.

(** [onClick] is benign. *)
Lemma onClick_benign c (event : MouseEvent) : benign c (onClick paint event c).
Proof.
  destruct (Z.eq_dec (button event) 2) as [B2 | NB2].
  - rewrite CanvasFacts.onClick_right_click by exact B2.
    set (p := completePolyline c).
    destruct (CanvasFacts.completePolyline_spec c) as (_ & Pn & Pc). fold p in Pn, Pc.
    destruct (CanvasFacts.cancelDrag_spec paint p) as (_ & Dst).
    destruct (CanvasFacts.cancelDimension_spec paint (cancelDrag paint p))
      as (_ & _ & _ & _ & Mo & _).
    split.
    + left. destruct (completesPolyline c) eqn:CP.
      * destruct (Pc eq_refl) as [Po _]. eexists. split.
        -- destruct (cancelDimension paint (cancelDrag paint p)) eqn:X. cbn [clearCommand store set_commandInput set_commandCallback set_currentCommand] in *.
           cbn [store] in Mo. rewrite Mo, Dst. exact Po.
        -- reflexivity.
      * destruct (Pn eq_refl) as [[Po _] _]. exists []. rewrite app_nil_r. split; [|reflexivity].
        destruct (cancelDimension paint (cancelDrag paint p)) eqn:X.
        cbn [clearCommand store set_commandInput set_commandCallback set_currentCommand] in *.
        cbn [store] in Mo. rewrite Mo, Dst. exact Po.
    + right. left. destruct (cancelDimension paint (cancelDrag paint p)). reflexivity.
  - unfold onClick. cbv zeta.
    generalize (position (getSnappedPosition (store c) (getMousePos event (store c)))).
    intros snapped.
    assert (E2 : (button event =? 2)%Z = false) by (apply Z.eqb_neq; exact NB2).
    rewrite E2.
    destruct (button event =? 0)%Z; [|apply benign_same; reflexivity].
    destruct c as [st sp cc cb ci cv al sh].
    destruct st as [zl tool lw lc gs sg stg stp stl tol drawing pts ds objs ui sid icb h pan d2 dl].
    cbn [store startPoint CadStore.currentTool CadStore.isDrawing CadStore.dimensionStart
         CadStore.dimensionSecondPoint CadStore.dimensionLinePosition
         CadStore.lineColor CadStore.lineWidth].
    destruct tool.
    + apply benign_same; reflexivity.
    + destruct drawing; apply benign_same; reflexivity.
    + destruct sp; [|apply benign_same; reflexivity].
      split; [left; eexists; split; [reflexivity | reflexivity] | left; reflexivity].
    + destruct sp; [|apply benign_same; reflexivity].
      split; [left; exists []; rewrite app_nil_r; split; reflexivity
             | right; right; left; reflexivity].
    + destruct sp; [|apply benign_same; reflexivity].
      split; [left; exists []; rewrite app_nil_r; split; reflexivity
             | right; right; right; reflexivity].
    + destruct ds, d2, dl; try (apply benign_same; reflexivity).
      split; [left; eexists; split; [reflexivity | reflexivity] | left; reflexivity].
Qed.

(** [submitCommand] is benign unless the height prompt is pending. *)
Lemma afterSubmit_benign c :
  match commandCallback c with Some (OnHeight _) => False | _ => True end ->
  benign c (afterSubmit c).
Proof.
  intros H. unfold afterSubmit, submitCommand, runCallback.
  destruct c as [st sp cc cb ci cv al sh]. cbn [currentCommand commandCallback
    commandInput startPoint store] in *.
  destruct cc as [cmd|]; [|apply benign_same; reflexivity].
  destruct cb as [[|w|]|]; try contradiction; try (apply benign_same; reflexivity).
  - destruct ci as [|inches]; [split; [left; exists []; rewrite app_nil_r; split; reflexivity | right; left; reflexivity]|].
    destruct (Qle_bool (inches * 96) 0);
      (split; [left; exists []; rewrite app_nil_r; split; reflexivity
              | right; left; reflexivity]).
  - destruct ci as [|inches]; [split; [left; exists []; rewrite app_nil_r; split; reflexivity | right; left; reflexivity]|].
    destruct (Qle_bool (inches * 96) 0);
      [split; [left; exists []; rewrite app_nil_r; split; reflexivity
              | right; left; reflexivity]|].
    destruct sp as [p|]; [|apply benign_same; reflexivity].
    destruct st. split; [left; eexists; split; [reflexivity | reflexivity]
                        | right; left; reflexivity].
Qed.

(** A store action that leaves the scene alone is benign. *)
Lemma storeOnly_benign c (f : CadStore.Store Raster -> CadStore.Store Raster) :
  (forall st, CadStore.vectorObjects (f st) = CadStore.vectorObjects st) ->
  benign c (onStore f c).
Proof.
  intros H. apply benign_same; [|destruct c; reflexivity].
  destruct c as [st sp cc cb ci cv al sh]. cbn [onStore store set_store]. apply H.
Qed.

(** [undo] is benign. *)
Lemma undo_benign c : benign c (undo c).
Proof.
  apply benign_same.
  - unfold undo, CadStore.undo.
    destruct (History.undo (CadStore.hist (store c))) as [[| |r] h];
      destruct c as [st sp cc cb ci cv al sh]; destruct st; reflexivity.
  - unfold undo, CadStore.undo.
    destruct (History.undo (CadStore.hist (store c))) as [[| |r] h];
      destruct c as [st sp cc cb ci cv al sh]; reflexivity.
Qed.

(** [redo] is benign. *)
Lemma redo_benign c : benign c (redo c).
Proof.
  apply benign_same.
  - unfold redo, CadStore.redo.
    destruct (History.redo (CadStore.hist (store c))) as [[| |r] h];
      destruct c as [st sp cc cb ci cv al sh]; destruct st; reflexivity.
  - unfold redo, CadStore.redo.
    destruct (History.redo (CadStore.hist (store c))) as [[| |r] h];
      destruct c as [st sp cc cb ci cv al sh]; reflexivity.
Qed.

(** [clearCanvas] is benign. *)
Lemma clearCanvas_benign c : benign c (clearCanvas paint c).
Proof.
  destruct c as [st sp cc cb ci cv al sh]. destruct st.
  split; [right; reflexivity | left; reflexivity].
Qed.

(** [refreshCanvas] is benign. *)
Lemma refreshCanvas_benign c : benign c (refreshCanvas paint c).
Proof.
  destruct c as [st sp cc cb ci cv al sh]. destruct st.
  apply benign_same; reflexivity.
Qed.

(** [handleEscape] is benign. *)
Lemma handleEscape_benign c : benign c (handleEscape paint c).
Proof.
  rewrite CanvasFacts.handleEscape_blocks.
  destruct (CanvasFacts.cancelDrag_spec paint c) as (_ & Est).
  destruct (CanvasFacts.cancelDimension_spec paint (cancelDrag paint c))
    as (_ & _ & _ & _ & No & _).
  destruct (CanvasFacts.cancelInput_spec (cancelDimension paint (cancelDrag paint c)))
    as (_ & _ & _ & _ & Io & _).
  assert (Cb : commandCallback (cancelDimension paint (cancelDrag paint c))
               = commandCallback c).
  { unfold cancelDimension, cancelDrag.
    destruct c as [st sp cc cb ci cv al sh]. destruct st.
    cbn [startPoint]. destruct sp;
      cbn [store redrawCanvas set_canvas set_startPoint CadStore.dimensionStart
           CadStore.dimensionSecondPoint CadStore.dimensionLinePosition];
      repeat match goal with
        | |- context [match ?x with Some _ => _ | None => _ end] => destruct x
        end; reflexivity. }
  destruct (CadStore.showInputDialog (store (cancelDimension paint (cancelDrag paint c)))).
  - apply benign_same; [rewrite Io, No, Est; reflexivity|].
    rewrite <- Cb. destruct (cancelDimension paint (cancelDrag paint c)); reflexivity.
  - apply benign_same; [rewrite No, Est; reflexivity | exact Cb].
Qed.

(** Every shortcut is benign. *)
Lemma runShortcut_benign c (a : Shortcut) : benign c (runShortcut paint a c).
Proof.
  destruct a; cbn [runShortcut].
  - apply storeOnly_benign. intros st. destruct st, tool; reflexivity.
  - apply storeOnly_benign. intros st. destruct st; reflexivity.
  - apply storeOnly_benign. intros st. destruct st; reflexivity.
  - destruct c; apply benign_same; reflexivity.
  - apply handleEscape_benign.
  - apply refreshCanvas_benign.
Qed.

(** [handleKeyDown] is benign. *)
Lemma handleKeyDown_benign c (event : KeyEvent) : benign c (handleKeyDown paint event c).
Proof.
  unfold handleKeyDown.
  assert (S : benign c match lookupShortcut keyboardShortcuts (toLowerCase (key event)) with
                       | Some a => runShortcut paint a c
                       | None => c
                       end).
  { destruct (lookupShortcut keyboardShortcuts (toLowerCase (key event))) as [a|];
      [apply runShortcut_benign | apply benign_same; reflexivity]. }
  destruct (ctrlKey event); [|exact S].
  destruct (String.eqb (toLowerCase (key event)) "z"); [apply undo_benign|].
  destruct (String.eqb (toLowerCase (key event)) "y"); [apply redo_benign|].
  destruct (String.eqb (toLowerCase (key event)) "delete"); [apply clearCanvas_benign | exact S].
Qed.

(** [onWheel] is benign. *)
Lemma onWheel_benign c (event : WheelEvent) : benign c (onWheel paint event c).
Proof.
  unfold onWheel. cbv zeta.
  destruct c as [st sp cc cb ci cv al sh]. destruct st.
  apply benign_same; reflexivity.
Qed.

(** No toolbar control touches the scene. *)
Lemma toolbar_keeps_objects (a : ToolbarAction) (st : CadStore.Store Raster) :
  CadStore.vectorObjects (toolbar a st) = CadStore.vectorObjects st.
Proof.
  destruct a; cbn [toolbar]; destruct st; try reflexivity.
  - destruct tool; reflexivity.
  - unfold StoreActions.setGridSize.
    match goal with |- context [if ?b then _ else _] => destruct b end; reflexivity.
  - unfold StoreActions.setSnapTolerance.
    match goal with |- context [if ?b then _ else _] => destruct b end; reflexivity.
  - unfold StoreActions.setLineWidth.
    match goal with |- context [if ?b then _ else _] => destruct b end; reflexivity.
Qed.

(** [onMouseDown] is benign. *)
Lemma onMouseDown_benign s (event : MouseEvent) :
  benign (component s) (component (onMouseDown event s)).
Proof.
  unfold onMouseDown. cbv zeta.
  generalize (position (getSnappedPosition (store (component s))
                          (getMousePos event (store (component s))))).
  intros snapped.
  destruct s as [c mp snp pn lm]. cbn [component].
  destruct c as [st sp cc cb ci cv al sh]. destruct st as [zl tool lw lc gs sg stg stp stl tol drawing pts ds objs ui sid icb h pan d2 dl].
  cbn [store CadStore.currentTool CadStore.dimensionStart CadStore.dimensionSecondPoint].
  destruct tool; try (destruct (button event =? 0)%Z);
    try (destruct ds, d2); cbn [component]; apply benign_same; reflexivity.
Qed.

(** [onMouseUp] is benign. *)
Lemma onMouseUp_benign s : benign (component s) (component (onMouseUp s)).
Proof.
  unfold onMouseUp.
  destruct s as [c mp snp pn lm]. destruct c as [st sp cc cb ci cv al sh].
  destruct st as [zl tool lw lc gs sg stg stp stl tol drawing pts ds objs ui sid icb h pan d2 dl].
  destruct pn, tool; cbn; apply benign_same; reflexivity.
Qed.

(** Every gesture keeps the scene free of rectangles and of the height
    prompt. *)
Lemma perform_rectangleFree (g : Gesture) s :
  rectangleFree s -> rectangleFree (perform paint g s).
Proof.
  intros H. apply benign_keeps with (s := s); [|exact H].
  destruct g; cbn [perform].
  - apply onMouseDown_benign.
  - apply onMouseUp_benign.
  - destruct s; apply onClick_benign.
  - destruct s; apply onWheel_benign.
  - destruct (ctrlKey event && String.eqb (toLowerCase (key event)) "delete");
      destruct s; [apply clearCanvas_benign | apply handleKeyDown_benign].
  - destruct s as [c mp snp pn lm]. destruct c. apply benign_same; reflexivity.
  - destruct s as [c mp snp pn lm]. cbn [onComponent component].
    apply afterSubmit_benign. apply H.
  - destruct s as [c mp snp pn lm]. destruct c.
    split; [left; exists []; rewrite app_nil_r; split; reflexivity | right; left; reflexivity].
  - destruct s as [c mp snp pn lm]. cbn [onComponent component].
    apply storeOnly_benign. apply toolbar_keeps_objects.
  - destruct s; apply undo_benign.
  - destruct s; apply redo_benign.
  - destruct s; apply clearCanvas_benign.
  - destruct s; apply refreshCanvas_benign.
Qed.

(** X23. The rectangle tool never adds a rectangle.  [submitCommand]
    clears the prompt after it has run the callback, so the height
    prompt the width callback opens is gone before anything can be
    typed into it: after any sequence of presses, releases, clicks,
    wheel turns, keys, command-line input and toolbar actions on the
    mounted canvas, no object of [vectorObjects] is a rectangle. *)
Theorem no_rectangle_is_ever_added (gestures : list Gesture) :
  forallb notRectangle
    (CadStore.vectorObjects (store (component (performAll paint gestures
                                                 (mountedSession paint))))) = true
  /\ forall o, In o (CadStore.vectorObjects
                       (store (component (performAll paint gestures
                                            (mountedSession paint))))) ->
               match o with Rectangle _ _ _ _ _ _ _ => False | _ => True end.
Proof.
  assert (G : forall s, rectangleFree s -> rectangleFree (performAll paint gestures s)).
  { unfold performAll. induction gestures as [|g rest IH]; intros s H; cbn [fold_left].
    - exact H.
    - apply IH, perform_rectangleFree, H. }
  assert (M : rectangleFree (mountedSession paint)) by (split; [reflexivity | exact I]).
  destruct (G _ M) as [F _]. split; [exact F|].
  intros o Ho. rewrite forallb_forall in F. specialize (F o Ho).
  destruct o; try exact I. discriminate F.
Qed.
End Facts.

End SessionFacts.

(* ------------------------------------------------------------------ *)
(** * A press, a release and a click *)

Module ClickFacts.
Import Geometry Canvas Pointer KernelFacts.
Open Scope Q_scope.

Section Facts.
Variable Raster : Type.
Variable paint : CadStore.Store Raster -> Raster.

(** Resolving the same cursor again once the resolved position has
    become a polyline point, line snapping off: the position is found
    again. *)
Lemma snap_again (s s' : CadStore.Store Raster) (pos : Point) :
  sameButPolyline s s' ->
  CadStore.snapToLines s = false ->
  CadStore.polylinePoints s'
  = CadStore.polylinePoints s ++ [position (getSnappedPosition s pos)] ->
  position (getSnappedPosition s' pos) = position (getSnappedPosition s pos).
Proof.
  intros (Et & Eo & Ed & Ed2 & Eg & Ep & El & Egs & Epan & Ez) L P.
  remember (position (getSnappedPosition s pos)) as p0 eqn:Hp.
  unfold getSnappedPosition, endpointCandidates in Hp |- *. cbv zeta in Hp |- *.
  rewrite P, Et, Eo, Ed, Ed2, Eg, Ep, El, Egs, Epan, Ez. clear P Et Eo Ed Ed2 Eg Ep El Egs Epan Ez.
  rewrite L in Hp |- *. cbn [andb] in Hp |- *.
  destruct (CadStore.snapToPoints s); [|symmetry; exact Hp].
  set (D := pushed (CadStore.dimensionStart s) ++ pushed (CadStore.dimensionSecondPoint s))
    in Hp |- *. clearbody D.
  rewrite !snapToPoints_app in Hp.
  rewrite !snapToPoints_app. rewrite ?(snapToPoints_app pos (CadStore.polylinePoints s) [p0]).
  cbn [snapToPoints] in Hp |- *.
  set (r1 := if CadStore.snapToGrid s then _ else _) in Hp |- *. clearbody r1.
  destruct (snapToPoints pos (endpoints (getAllSnapPoints (CadStore.vectorObjects s)))
              (CadStore.snapTolerance s)) as [e|]; [symmetry; exact Hp|].
  destruct (snapToPoints pos (CadStore.polylinePoints s) (CadStore.snapTolerance s))
    as [e|]; [symmetry; exact Hp|].
  destruct (withinDistance pos p0 (CadStore.snapTolerance s)) eqn:W.
  - reflexivity.
  - symmetry; exact Hp.
Qed.

(** X24. With the line tool, a press, the release and the click the
    browser sends after them commit a line from the snapped position of
    the press to the snapped position of the click, in the current
    colour and width, and clear the drag start; so a press and release
    at one place, without a drag, adds a line whose two ends are the
    same point. *)
Theorem press_and_click_commit_a_line (down click : MouseEvent) (s : Session Raster) :
  CadStore.currentTool (store (component s)) = CadStore.ToolLine ->
  button click = 0%Z ->
  let st := store (component s) in
  let a := position (getSnappedPosition st (getMousePos down st)) in
  let b := position (getSnappedPosition st (getMousePos click st)) in
  let s' := perform paint (Click click)
              (perform paint MouseUp (perform paint (MouseDown down) s)) in
  CadStore.vectorObjects (store (component s'))
  = CadStore.vectorObjects st ++ [Line a b (CadStore.lineColor st) (CadStore.lineWidth st)]
  /\ startPoint (component s') = None
  /\ (down = click ->
      CadStore.vectorObjects (store (component (plainClick paint click s)))
      = CadStore.vectorObjects st
          ++ [Line b b (CadStore.lineColor st) (CadStore.lineWidth st)]).
Proof.
  intros T B. cbv zeta.
  assert (G : forall d,
    CadStore.vectorObjects (store (component (perform paint (Click click)
              (perform paint MouseUp (perform paint (MouseDown d) s)))))
    = CadStore.vectorObjects (store (component s))
        ++ [Line (position (getSnappedPosition (store (component s))
                              (getMousePos d (store (component s)))))
                 (position (getSnappedPosition (store (component s))
                              (getMousePos click (store (component s)))))
                 (CadStore.lineColor (store (component s)))
                 (CadStore.lineWidth (store (component s)))]
    /\ startPoint (component (perform paint (Click click)
              (perform paint MouseUp (perform paint (MouseDown d) s)))) = None).
  { intros d. cbn [perform].
    destruct s as [c mp snp pn lm]. cbn [component] in *.
    destruct c as [st sp cc cb ci cv al sh]. cbn [store] in *.
    unfold onMouseDown. cbv zeta. cbn [component store isPanning lastMousePos].
    rewrite T.
    set (a := position (getSnappedPosition st (getMousePos d st))).
    assert (U : component (onMouseUp
                  (mkSession (set_startPoint (Some a) (mkComponent st sp cc cb ci cv al sh))
                     (Some (mkPoint (rawX d) (rawY d))) (Some a) pn lm))
                = mkComponent st (Some a) cc cb ci cv al sh).
    { unfold onMouseUp. cbn [isPanning].
      destruct pn; cbn [component set_startPoint store]; rewrite T; reflexivity. }
    unfold onComponent. cbn [component]. rewrite U.
    unfold onClick. cbv zeta. cbn [store startPoint]. rewrite B, T. cbn [Z.eqb].
    generalize (position (getSnappedPosition st (getMousePos click st))).
    intros q. destruct st. split; reflexivity. }
  destruct (G down) as [G1 G2]. split; [exact G1 | split; [exact G2|]].
  intros ->. unfold plainClick. apply (G click).
Qed.

(** X25. With the polyline tool and line snapping off, a press and
    release of the left button at one place appends the snapped
    position to the polyline twice, once in [onMouseDown] and once in
    [onClick]; it leaves [isDrawing] false and the objects as they
    were. *)
Theorem plain_click_repeats_polyline_point (event : MouseEvent) (s : Session Raster) :
  CadStore.currentTool (store (component s)) = CadStore.ToolPolyline ->
  button event = 0%Z ->
  CadStore.snapToLines (store (component s)) = false ->
  let st := store (component s) in
  let p := position (getSnappedPosition st (getMousePos event st)) in
  let st' := store (component (plainClick paint event s)) in
  CadStore.polylinePoints st' = CadStore.polylinePoints st ++ [p; p]
  /\ CadStore.isDrawing st' = false
  /\ CadStore.vectorObjects st' = CadStore.vectorObjects st.
Proof.
  intros T B L. cbv zeta.
  destruct s as [c mp snp pn lm]. cbn [component] in *.
  destruct c as [st sp cc cb ci cv al sh]. cbn [store] in *.
  set (p := position (getSnappedPosition st (getMousePos event st))).
  set (st2 := CadStore.setIsDrawing false
                (CadStore.addPolylinePoint p (CadStore.setIsDrawing true st))).
  assert (P2 : CadStore.polylinePoints st2 = CadStore.polylinePoints st ++ [p])
    by (subst st2; destruct st; reflexivity).
  assert (Same : sameButPolyline st st2)
    by (subst st2; destruct st; repeat split).
  assert (Pos : getMousePos event st2 = getMousePos event st)
    by (subst st2; destruct st; reflexivity).
  assert (Again : position (getSnappedPosition st2 (getMousePos event st2)) = p).
  { rewrite Pos. apply snap_again; [exact Same | exact L | exact P2]. }
  assert (T2 : CadStore.currentTool st2 = CadStore.ToolPolyline)
    by (subst st2; destruct st; exact T).
  assert (D2 : CadStore.isDrawing st2 = false)
    by (subst st2; destruct st; reflexivity).
  assert (O2 : CadStore.vectorObjects st2 = CadStore.vectorObjects st)
    by (subst st2; destruct st; reflexivity).
  assert (Final : component (plainClick paint event
                               (mkSession (mkComponent st sp cc cb ci cv al sh) mp snp pn lm))
                  = mkComponent (CadStore.addPolylinePoint p st2) sp cc cb ci cv al sh).
  { unfold plainClick. cbn [perform]. unfold onMouseDown. cbv zeta.
    cbn [component store isPanning lastMousePos]. rewrite T. fold p.
    assert (U : component (onMouseUp
                  (mkSession (onStore (CadStore.addPolylinePoint p)
                                (onStore (CadStore.setIsDrawing true)
                                   (mkComponent st sp cc cb ci cv al sh)))
                     (Some (mkPoint (rawX event) (rawY event))) (Some p) pn lm))
                = mkComponent st2 sp cc cb ci cv al sh).
    { unfold onMouseUp. cbn [isPanning].
      destruct pn; cbn [component onStore store set_store];
        (replace (CadStore.currentTool _) with CadStore.ToolPolyline
           by (destruct st; symmetry; exact T)); reflexivity. }
    unfold onComponent. cbn [component]. rewrite U.
    unfold onClick. cbv zeta. cbn [store]. rewrite B, T2, D2, Again. reflexivity. }
  rewrite Final. cbn [store].
  clearbody st2. destruct st2. cbn in P2, D2, O2 |- *. subst.
  rewrite <- app_assoc. repeat split.
Qed.
End Facts.

(** The line tool on the fresh store: a press at (100, 50) and a click
    at (200, 50). *)
Lemma press_and_click_commit_a_line_witness :
  CadStore.currentTool (store (component Samples.lineSession)) = CadStore.ToolLine
  /\ button Samples.leftAt200 = 0%Z
  /\ CadStore.vectorObjects
       (store (component
          (perform Scenario.blindPaint (Click Samples.leftAt200)
             (perform Scenario.blindPaint MouseUp
                (perform Scenario.blindPaint (MouseDown Samples.leftAt100)
                   Samples.lineSession)))))
     = CadStore.vectorObjects (store (component Samples.lineSession))
         ++ [Line
               (position
                  (getSnappedPosition (store (component Samples.lineSession))
                     (getMousePos Samples.leftAt100
                        (store (component Samples.lineSession)))))
               (position
                  (getSnappedPosition (store (component Samples.lineSession))
                     (getMousePos Samples.leftAt200
                        (store (component Samples.lineSession)))))
               (CadStore.lineColor (store (component Samples.lineSession)))
               (CadStore.lineWidth (store (component Samples.lineSession)))].
Proof.
  split; [reflexivity|]. split; [reflexivity|].
  exact (proj1 (@press_and_click_commit_a_line Scenario.Blind Scenario.blindPaint
                  Samples.leftAt100 Samples.leftAt200 Samples.lineSession
                  eq_refl eq_refl)).
Defined.

(** The polyline tool on the fresh store with line snapping off: a
    plain click at (100, 50). *)
Lemma plain_click_repeats_polyline_point_witness :
  CadStore.currentTool (store (component Samples.polylineSession))
  = CadStore.ToolPolyline
  /\ button Samples.leftAt100 = 0%Z
  /\ CadStore.snapToLines (store (component Samples.polylineSession)) = false
  /\ CadStore.polylinePoints
       (store (component
          (plainClick Scenario.blindPaint Samples.leftAt100 Samples.polylineSession)))
     = CadStore.polylinePoints (store (component Samples.polylineSession))
         ++ [position
               (getSnappedPosition (store (component Samples.polylineSession))
                  (getMousePos Samples.leftAt100
                     (store (component Samples.polylineSession))));
             position
               (getSnappedPosition (store (component Samples.polylineSession))
                  (getMousePos Samples.leftAt100
                     (store (component Samples.polylineSession))))].
Proof.
  split; [reflexivity|]. split; [reflexivity|]. split; [reflexivity|].
  exact (proj1 (@plain_click_repeats_polyline_point Scenario.Blind
                  Scenario.blindPaint Samples.leftAt100 Samples.polylineSession
                  eq_refl eq_refl eq_refl)).
Defined.

End ClickFacts.

(* ------------------------------------------------------------------ *)
(** * The drawn grid *)

Module GridFacts.
Import Geometry GridLines.
Open Scope Q_scope.

(** The loop from the multiple [i] to the multiple [j] of the grid
    size ends within [j - i + 2] turns, and strokes the multiples in
    between that fall on the canvas, and only them. *)
Lemma sweep_spec (gridSize zoomLevel pan limit : Q) (j : Z) :
  0 < gridSize ->
  forall (fuel : nat) (i : Z) (x : Q),
    x == inject_Z i * gridSize ->
    (Z.to_nat (j - i + 1) < fuel)%nat ->
    exists l,
      sweep fuel x (inject_Z j * gridSize) gridSize zoomLevel pan limit = Some l
      /\ (forall screen, In screen l ->
            exists k, (i <= k <= j)%Z /\ gridLineAt gridSize zoomLevel pan limit k screen)
      /\ (forall k screen, (i <= k <= j)%Z ->
            gridLineAt gridSize zoomLevel pan limit k screen ->
            exists drawn, In drawn l /\ drawn == screen).
Proof.
  intros Hg. induction fuel as [|fuel IH]; intros i x Hx Hf; [lia|].
  cbn [sweep].
  destruct (Qle_bool x (inject_Z j * gridSize)) eqn:C.
  - apply Qle_bool_iff in C. rewrite Hx in C.
    assert (Hij : (i <= j)%Z).
    { destruct (Z.le_gt_cases i j) as [L | G]; [exact L|].
      exfalso. rewrite Zlt_Qlt in G. nra. }
    assert (Hx' : x + gridSize == inject_Z (i + 1) * gridSize).
    { rewrite inject_Z_plus, Hx. change (inject_Z 1) with 1. ring. }
    destruct (IH (i + 1)%Z (x + gridSize) Hx') as (rest & E & Snd & Cpl); [lia|].
    rewrite E. eexists. split; [reflexivity|].
    assert (Here : x * zoomLevel + pan == inject_Z i * gridSize * zoomLevel + pan)
      by (rewrite Hx; reflexivity).
    destruct (Qle_bool 0 (x * zoomLevel + pan)
              && Qle_bool (x * zoomLevel + pan) limit) eqn:V.
    + apply andb_true_iff in V. destruct V as [V0 V1].
      apply Qle_bool_iff in V0. apply Qle_bool_iff in V1. split.
      * intros screen [<- | H].
        -- exists i. split; [lia|]. split; [exact Here | split; assumption].
        -- destruct (Snd screen H) as (k & Hk & G). exists k. split; [lia | exact G].
      * intros k screen Hk G.
        destruct (Z.eq_dec k i) as [-> | N].
        -- exists (x * zoomLevel + pan). split; [left; reflexivity|].
           destruct G as [G _]. rewrite G. exact Here.
        -- destruct (Cpl k screen) as (d & Hd & Ed); [lia | exact G|].
           exists d. split; [right; exact Hd | exact Ed].
    + split.
      * intros screen H. destruct (Snd screen H) as (k & Hk & G).
        exists k. split; [lia | exact G].
      * intros k screen Hk G.
        destruct (Z.eq_dec k i) as [-> | N].
        -- exfalso. destruct G as [G [G0 G1]]. rewrite G, <- Here in G0, G1.
           apply Qle_bool_iff in G0. apply Qle_bool_iff in G1.
           rewrite G0, G1 in V. discriminate.
        -- apply (Cpl k screen); [lia | exact G].
  - exists []. split; [reflexivity|]. split; [intros screen []|].
    intros k screen Hk G. exfalso.
    assert (Hij : (i <= j)%Z) by lia.
    rewrite Zle_Qle in Hij.
    assert (L : Qle_bool x (inject_Z j * gridSize) = true)
      by (apply Qle_bool_iff; rewrite Hx; nra).
    congruence.
Qed.

(** A multiple that falls on the canvas lies between the two bounds
    [drawTransformedGrid] computes. *)
Lemma due_in_range (gridSize zoomLevel pan limit : Q) (k : Z) (screen : Q) :
  0 < gridSize -> 0 < zoomLevel ->
  gridLineAt gridSize zoomLevel pan limit k screen ->
  (Qfloor (- pan / zoomLevel / gridSize) <= k
   <= Qceiling ((limit - pan) / zoomLevel / gridSize))%Z.
Proof.
  intros Hg Hz [E [L U]]. rewrite E in L, U. split.
  - rewrite <- (Qfloor_Z k). apply Qfloor_resp_le.
    apply Qle_shift_div_r; [exact Hg|]. apply Qle_shift_div_r; [exact Hz|]. lra.
  - rewrite <- (Qceiling_Z k). apply Qceiling_resp_le.
    apply Qle_shift_div_l; [exact Hg|]. apply Qle_shift_div_l; [exact Hz|]. lra.
Qed.

(** One loop of [drawTransformedGrid] between its bounds. *)
Lemma sweep_axis (gridSize zoomLevel pan limit : Q) (fuel : nat) :
  0 < gridSize -> 0 < zoomLevel ->
  (Z.to_nat (Qceiling ((limit - pan) / zoomLevel / gridSize)
             - Qfloor (- pan / zoomLevel / gridSize) + 1) < fuel)%nat ->
  exists l,
    sweep fuel (inject_Z (Qfloor (- pan / zoomLevel / gridSize)) * gridSize)
      (inject_Z (Qceiling ((limit - pan) / zoomLevel / gridSize)) * gridSize)
      gridSize zoomLevel pan limit = Some l
    /\ (forall screen, In screen l ->
          exists k, gridLineAt gridSize zoomLevel pan limit k screen)
    /\ (forall k screen, gridLineAt gridSize zoomLevel pan limit k screen ->
          exists drawn, In drawn l /\ drawn == screen).
Proof.
  intros Hg Hz Hf.
  destruct (@sweep_spec gridSize zoomLevel pan limit
              (Qceiling ((limit - pan) / zoomLevel / gridSize)) Hg fuel
              (Qfloor (- pan / zoomLevel / gridSize))
              (inject_Z (Qfloor (- pan / zoomLevel / gridSize)) * gridSize)
              (Qeq_refl _) Hf) as (l & E & Snd & Cpl).
  exists l. split; [exact E|]. split.
  - intros screen H. destruct (Snd screen H) as (k & _ & G). exists k. exact G.
  - intros k screen G. apply (Cpl k screen); [|exact G].
    apply (due_in_range Hg Hz G).
Qed.

(** X26. For a positive grid size and zoom level the two loops of
    [drawTransformedGrid] end, and the lines stroked are the world
    multiples of the grid size that fall on the canvas, all of them and
    nothing else: vertical lines at the screen positions
    [k * gridSize * zoomLevel + panOffset.x] within [0, canvasWidth],
    horizontal ones likewise within [0, canvasHeight]. *)
Theorem drawTransformedGrid_lines (canvasWidth canvasHeight gridSize : Q)
    (panOffset : Point) (zoomLevel : Q) :
  0 < gridSize -> 0 < zoomLevel ->
  exists enough : nat,
    forall fuel, (enough <= fuel)%nat ->
    exists strokes,
      drawTransformedGrid fuel canvasWidth canvasHeight gridSize panOffset zoomLevel
      = Some strokes
      /\ (forall screen, In screen (verticals strokes) ->
            exists k, gridLineAt gridSize zoomLevel (px panOffset) canvasWidth k screen)
      /\ (forall k screen,
            gridLineAt gridSize zoomLevel (px panOffset) canvasWidth k screen ->
            exists drawn, In drawn (verticals strokes) /\ drawn == screen)
      /\ (forall screen, In screen (horizontals strokes) ->
            exists k, gridLineAt gridSize zoomLevel (py panOffset) canvasHeight k screen)
      /\ (forall k screen,
            gridLineAt gridSize zoomLevel (py panOffset) canvasHeight k screen ->
            exists drawn, In drawn (horizontals strokes) /\ drawn == screen).
Proof.
  intros Hg Hz.
  exists (S (Nat.max
    (Z.to_nat (Qceiling ((canvasWidth - px panOffset) / zoomLevel / gridSize)
               - Qfloor (- px panOffset / zoomLevel / gridSize) + 1))
    (Z.to_nat (Qceiling ((canvasHeight - py panOffset) / zoomLevel / gridSize)
               - Qfloor (- py panOffset / zoomLevel / gridSize) + 1)))).
  intros fuel Hf.
  destruct (@sweep_axis gridSize zoomLevel (px panOffset) canvasWidth fuel Hg Hz)
    as (vs & Ev & Sv & Cv); [lia|].
  destruct (@sweep_axis gridSize zoomLevel (py panOffset) canvasHeight fuel Hg Hz)
    as (hs & Eh & Sh & Ch); [lia|].
  exists (mkGridStrokes vs hs). unfold drawTransformedGrid. cbv zeta.
  rewrite Ev, Eh. cbn [verticals horizontals].
  split; [reflexivity|]. repeat split; assumption.
Qed.

(** X27. A grid snap lies on the drawn grid only by coincidence of the
    pan offset.  For a positive grid size and zoom level, the screen
    coordinate of a grid snap is the screen coordinate of a world
    multiple of the grid size, where [drawTransformedGrid] puts its
    lines, exactly when the pan offset along that axis is a whole
    number of grid cells on the screen. *)
Theorem grid_snap_meets_drawn_lines (p panOffset : Point) (gridSize zoomLevel : Q) :
  0 < gridSize -> 0 < zoomLevel ->
  ((exists k : Z,
      px (snapToTransformedGrid p gridSize panOffset zoomLevel) * zoomLevel + px panOffset
      == inject_Z k * gridSize * zoomLevel + px panOffset)
   <-> (exists m : Z, px panOffset == inject_Z m * (gridSize * zoomLevel)))
  /\ ((exists k : Z,
         py (snapToTransformedGrid p gridSize panOffset zoomLevel) * zoomLevel
         + py panOffset
         == inject_Z k * gridSize * zoomLevel + py panOffset)
      <-> (exists m : Z, py panOffset == inject_Z m * (gridSize * zoomLevel))).
Proof.
  intros Hg Hz. unfold snapToTransformedGrid. cbn [px py].
  assert (NZ : ~ zoomLevel == 0) by (intro Z; rewrite Z in Hz; discriminate).
  assert (A : forall (K : Z) (pan : Q),
            (exists k : Z,
               (inject_Z K * (gridSize * zoomLevel) - pan) / zoomLevel * zoomLevel + pan
               == inject_Z k * gridSize * zoomLevel + pan)
            <-> (exists m : Z, pan == inject_Z m * (gridSize * zoomLevel))).
  { intros K pan.
    assert (E : (inject_Z K * (gridSize * zoomLevel) - pan) / zoomLevel * zoomLevel + pan
                == inject_Z K * (gridSize * zoomLevel)) by (field; exact NZ).
    split.
    - intros [k H]. rewrite E in H. exists (K - k)%Z.
      unfold Z.sub. rewrite inject_Z_plus, inject_Z_opp. lra.
    - intros [m H]. exists (K - m)%Z. rewrite E. unfold Z.sub.
      rewrite inject_Z_plus, inject_Z_opp. lra. }
  split; apply A.
Qed.

(** The canvas of 1200 by 800 with a grid of 20, panned by (5, 5) at
    zoom 2. *)
Lemma drawTransformedGrid_lines_witness :
  0 < 20 /\ 0 < 2
  /\ exists enough : nat,
       forall fuel, (enough <= fuel)%nat ->
       exists strokes,
         drawTransformedGrid fuel Painting.canvasWidth Painting.canvasHeight 20
           Samples.smallPan 2
         = Some strokes
         /\ (forall screen, In screen (verticals strokes) ->
               exists k,
                 gridLineAt 20 2 (px Samples.smallPan) Painting.canvasWidth k screen).
Proof.
  assert (Hg : 0 < 20) by reflexivity.
  assert (Hz : 0 < 2) by reflexivity.
  split; [exact Hg|]. split; [exact Hz|].
  destruct (@drawTransformedGrid_lines Painting.canvasWidth Painting.canvasHeight 20
              Samples.smallPan 2 Hg Hz) as (enough & H).
  exists enough. intros fuel Hf. destruct (H fuel Hf) as (strokes & E & V & _).
  exists strokes. split; [exact E | exact V].
Defined.

(** The cursor (7, 13) on the same grid, pan and zoom. *)
Lemma grid_snap_meets_drawn_lines_witness :
  0 < 20 /\ 0 < 2
  /\ ((exists k : Z,
         px (snapToTransformedGrid Samples.offGrid 20 Samples.smallPan 2) * 2
         + px Samples.smallPan
         == inject_Z k * 20 * 2 + px Samples.smallPan)
      <-> (exists m : Z, px Samples.smallPan == inject_Z m * (20 * 2))).
Proof.
  assert (Hg : 0 < 20) by reflexivity.
  assert (Hz : 0 < 2) by reflexivity.
  split; [exact Hg|]. split; [exact Hz|].
  exact (proj1 (@grid_snap_meets_drawn_lines Samples.offGrid Samples.smallPan 20 2 Hg Hz)).
Defined.

End GridFacts.
